(** * file-sort.py: a shallow embedding and its verified properties

    The script scans an inbox for PDF files, extracts their text, asks an
    external assistant for a category and a filename, renames the file and
    moves it into a fixed folder hierarchy, keeping a CSV audit log.

    Conventions of the embedding.
    - A Python [str] is a [string]; a character is a code point below 256.
    - [None] is [option]'s [None]; a Python tuple is a pair.
    - A [dict] is a [gmap]; [d.get(k, v)] is [default v (d !! k)].
    - Calls that leave the process (sub-processes, PDF readers, OCR, the
      clock) take their outcome from an explicit environment record, one
      field per call site of the source.
    - The file system is a finite map from paths to nodes.  An operation
      on it raises when the map says so (a missing file, a file where a
      directory is needed); where the source has a handler written for the
      failure of that operation, the environment may make it raise as
      well.
    - [log_print] only writes to the console and the debug log; it is left
      out. *)

From Stdlib Require Import Ascii String.
From stdpp Require Import base option list strings gmap.

Local Open Scope string_scope.
Local Open Scope list_scope.

(** ** Python string primitives *)

Module PyStr.

(** [str.isspace] on one character (code points below 256). *)
Definition isspace (c : ascii) : bool :=
  let n := nat_of_ascii c in
  (((9 <=? n) && (n <=? 13)) || ((28 <=? n) && (n <=? 32))
   || (n =? 133) || (n =? 160))%nat.

Definition is_char (d c : ascii) : bool := Ascii.eqb d c.

(** [s.lstrip(chars)], the stripped set given as a predicate. *)
Fixpoint lstrip (P : ascii → bool) (s : string) : string :=
  match s with
  | EmptyString => EmptyString
  | String c s' => if P c then lstrip P s' else s
  end.

(** [s.rstrip(chars)]. *)
Fixpoint rstrip (P : ascii → bool) (s : string) : string :=
  match s with
  | EmptyString => EmptyString
  | String c s' =>
      match rstrip P s' with
      | EmptyString => if P c then EmptyString else String c EmptyString
      | r => String c r
      end
  end.

(** [s.strip(chars)]; [strip isspace] is [s.strip()]. *)
Definition strip (P : ascii → bool) (s : string) : string :=
  lstrip P (rstrip P s).

(** [s.split(sep)] for a one-character separator: never the empty list. *)
Fixpoint split (sep : ascii) (s : string) : list string :=
  match s with
  | EmptyString => [EmptyString]
  | String c s' =>
      if Ascii.eqb c sep then EmptyString :: split sep s'
      else match split sep s' with
           | [] => [String c EmptyString]
           | h :: t => String c h :: t
           end
  end.

(** [sep.join(parts)]. *)
Fixpoint join (sep : string) (parts : list string) : string :=
  match parts with
  | [] => EmptyString
  | [p] => p
  | p :: rest => p +:+ sep +:+ join sep rest
  end.

(** [s.startswith(p)] and [s.endswith(p)]. *)
Definition startswith (p s : string) : bool := String.prefix p s.

Definition endswith (p s : string) : bool :=
  String.prefix (String.rev p) (String.rev s).

(** [s[:n]]. *)
Definition take (n : nat) (s : string) : string := String.substring 0 n s.

(** Truth value of a [str]: the empty string is falsy. *)
Definition truthy (s : string) : bool :=
  match s with EmptyString => false | _ => true end.

(** Truth value of an optional [str]: [None] and the empty string are
    falsy. *)
Definition truthy_opt (o : option string) : bool :=
  match o with Some s => truthy s | None => false end.

(** [c in s] for a character [c]. *)
Fixpoint has_char (c : ascii) (s : string) : bool :=
  match s with
  | EmptyString => false
  | String c' s' => Ascii.eqb c' c || has_char c s'
  end.

Definition dquote : ascii := ascii_of_nat 34.
Definition squote : ascii := ascii_of_nat 39.
Definition slash : ascii := "/"%char.

End PyStr.

(** ** The static taxonomy *)

(** [CATEGORY_STRUCTURE]: category key to its valid subcategories, [None]
    when the category takes none. *)
Definition CATEGORY_STRUCTURE : gmap string (option (list string)) :=
  list_to_map
    [ ("Medical", Some ["Anthony"; "Hannah"; "Oliver"; "Roman"]);
      ("Financial/Bills",
        Some ["HOA"; "Electric"; "Gas"; "Water"; "Internet"; "Lawn";
              "Storage"; "Health"; "Medical"]);
      ("Financial/Cards", Some ["Chase"; "Target"; "Sams Club"]);
      ("Financial/Checks", None);
      ("Financial/Class Action", None);
      ("Financial/Home Maintenance", Some ["HVAC"; "Pool"]);
      ("Financial/Insurance", Some ["Auto Home"; "Health Dental Vision"]);
      ("Financial/Investments", Some ["401k"; "Roth IRA"; "Stocks"]);
      ("Financial/Legal", None);
      ("Financial/Mortgage", None);
      ("Financial/Paystubs", None);
      ("Financial/Receipts", None);
      ("Financial/Taxes", None);
      ("Financial/Tolls", None);
      ("Financial/Misc", None);
      ("Career", Some ["Certifications"; "Resumes"; "Business Cards"]);
      ("Cars", Some ["2021 Sequoia"; "2022 Accord"]);
      ("Kids/School", None);
      ("Personal/Government Documents", None);
      ("Personal/Letters", None);
      ("Personal/Spiritual", None);
      ("Purchases/Tickets", None);
      ("Purchases/Product Manuals",
        Some ["Appliances"; "Home"; "Tools"; "Toys"; "Music";
              "Baby Products"; "Amazon Basics"]);
      ("Purchases/Other", None);
      ("Sheet Music", None);
      ("Recipes", None);
      ("User Manuals", None);
      ("Misc", None) ].

(** [key in CATEGORY_STRUCTURE]. *)
Definition in_CATEGORY_STRUCTURE (key : string) : bool :=
  bool_decide (is_Some (CATEGORY_STRUCTURE !! key)).

(** ** The external assistant *)

(** What [subprocess.run] of the shortcut can do. *)
Inductive ProcOutcome :=
| Completed (returncode : Z) (stdout stderr : string)
| TimeoutExpired
| RaisedOther.

(** The parts of the program that are fixed texts or an external converter:
    the two prompt templates around their holes and the RTF-to-text
    conversion of [extract_text_from_rtf]. *)
Record Texts := {
  classify_head : string;
  classify_tail : string;
  filename_head : string;
  filename_mid1 : string;
  filename_mid2 : string;
  filename_tail : string;
  extract_text_from_rtf : string → string
}.

Module Classifier.
Import PyStr.

Section WithAssistant.
Variable texts : Texts.
(** The shortcut as a function of the prompt on standard input. *)
Variable shortcuts_run : string → ProcOutcome.

Definition call_chatgpt_shortcut (prompt : string) : option string :=
  match shortcuts_run prompt with
  | Completed returncode stdout _ =>
      if bool_decide (returncode = 0%Z)
      then Some (strip isspace (extract_text_from_rtf texts stdout))
      else None
  | TimeoutExpired => None
  | RaisedOther => None
  end.

Definition classify_prompt (file_contents : string) : string :=
  classify_head texts +:+ take 5000 file_contents +:+ classify_tail texts.

(** The parsing half of [classify_file_category], from the stripping of
    quotes on. *)
Definition parse_classification (result : string)
  : option string * option string :=
  let result := strip (is_char squote)
                  (strip (is_char dquote) (strip isspace result)) in
  match split slash result with
  | [] => (Some result, None)
  | [p0] => (Some p0, None)
  | [p0; p1] =>
      let potential_category := p0 +:+ "/" +:+ p1 in
      if in_CATEGORY_STRUCTURE potential_category
      then (Some potential_category, None)
      else (Some p0, Some p1)
  | p0 :: p1 :: rest =>
      let potential_category := p0 +:+ "/" +:+ p1 in
      if in_CATEGORY_STRUCTURE potential_category
      then (Some potential_category, Some (join "/" rest))
      else (Some p0, Some (join "/" (p1 :: rest)))
  end.

Definition classify_file_category (file_contents : string)
  : option string * option string :=
  match call_chatgpt_shortcut (classify_prompt file_contents) with
  | None => (None, None)
  | Some result =>
      if truthy result then parse_classification result else (None, None)
  end.

Definition filename_prompt (file_contents created_date : string) : string :=
  filename_head texts +:+ created_date +:+ filename_mid1 texts
  +:+ take 5000 file_contents +:+ filename_mid2 texts
  +:+ created_date +:+ filename_tail texts.

Definition generate_filename (file_contents created_date : string)
  : option string :=
  call_chatgpt_shortcut (filename_prompt file_contents created_date).

End WithAssistant.

(** The ways the assistant fails to give an answer: a timeout or another
    exception, an exit code other than zero, or a response that is empty
    once converted and trimmed. *)
Definition fails (texts : Texts) (outcome : ProcOutcome) : Prop :=
  match outcome with
  | TimeoutExpired => True
  | RaisedOther => True
  | Completed returncode stdout _ =>
      returncode ≠ 0%Z
      ∨ strip isspace (extract_text_from_rtf texts stdout) = EmptyString
  end.

(** The response text after the three strips of the parser. *)
Definition cleaned (result : string) : string :=
  strip (is_char squote) (strip (is_char dquote) (strip isspace result)).

End Classifier.

(** ** Paths: [pathlib.PurePosixPath] *)

(** A path is its root (empty, one slash or two slashes) and its
    components. *)
Record Path := mkPath { root : string; parts : list string }.

#[global] Instance Path_eq_dec : EqDecision Path.
Proof. solve_decision. Defined.

#[global] Instance Path_countable : Countable Path.
Proof.
  apply (inj_countable' (λ p, (root p, parts p)) (λ rp, mkPath rp.1 rp.2)).
  by intros [].
Defined.

Module PurePath.
Import PyStr.

(** The root pathlib gives a string: exactly two leading slashes are kept,
    one or three and more collapse to one. *)
Definition root_of (s : string) : string :=
  match s with
  | String "/" (String "/" (String "/" _)) => "/"
  | String "/" (String "/" _) => "//"
  | String "/" _ => "/"
  | _ => EmptyString
  end.

Definition is_component (p : string) : bool :=
  negb (String.eqb p EmptyString) && negb (String.eqb p ".").

(** [Path(s)]. *)
Definition of_string (s : string) : Path :=
  mkPath (root_of s) (filter (λ p, is_component p = true) (split slash s)).

(** [p / s]: an anchored right operand replaces the left one. *)
Definition joinpath (p : Path) (s : string) : Path :=
  let q := of_string s in
  if truthy (root q) then q else mkPath (root p) (parts p ++ parts q).

(** [p.name]. *)
Definition name (p : Path) : string := List.last (parts p) EmptyString.

(** [p.parent]. *)
Definition parent (p : Path) : Path := mkPath (root p) (removelast (parts p)).

(** [str(p)]. *)
Definition to_string (p : Path) : string :=
  match root p, parts p with
  | EmptyString, [] => "."
  | r, ps => r +:+ join "/" ps
  end.

(** A string that is one path component: a proper file name. *)
Definition single_component (n : string) : Prop :=
  split slash n = [n] ∧ is_component n = true.

(** [p] and every ancestor of [p] that has at least one component, the
    directories [mkdir(parents=True)] walks through, outermost first. *)
Definition chain (p : Path) : list Path :=
  map (λ k, mkPath (root p) (List.firstn k (parts p)))
      (seq 1 (length (parts p))).

End PurePath.

Notation "p </> s" := (PurePath.joinpath p s) (at level 40, left associativity).

(** ** The filing engine: destination folders *)

Definition DOCUMENTS_BASE_PATH : Path :=
  PurePath.of_string
    "/Users/anthonywheeler/Library/Mobile Documents/com~apple~CloudDocs/Documents".

Definition folder_name_map : gmap string string :=
  list_to_map
    [ ("Bills", "Bills"); ("Cards", "Cards"); ("Checks", "Checks");
      ("Class Action", "Class Action");
      ("Home Maintenance", "Home Maintenance");
      ("Insurance", "Insurance"); ("Investments", "Investments");
      ("Legal", "Legal"); ("Mortgage", "Mortgage");
      ("Paystubs", "Paystubs"); ("Receipts", "Receipts");
      ("Taxes", "Taxes"); ("Tolls", "Tolls"); ("Misc", "Misc.") ].

Definition subcat_folder_map : gmap string string :=
  list_to_map
    [ ("Sams Club", "Sam's Club");
      ("Auto Home", "Encompass:Safeco");
      ("Health Dental Vision", "Health:Dental:Vision") ].

(** The catch-all folder; its name ends in a space. *)
Definition MISC_FOLDER : Path := DOCUMENTS_BASE_PATH </> "Misc. ".

(** [path / subcategory] under [if subcategory:]. *)
Definition with_subcategory (path : Path) (subcategory : option string) : Path :=
  match subcategory with
  | Some s => if PyStr.truthy s then path </> s else path
  | None => path
  end.

Definition get_folder_path_for_category
    (category : string) (subcategory : option string) : Path :=
  let base := DOCUMENTS_BASE_PATH in
  let category_parts := PyStr.split PyStr.slash category in
  (* [category_parts[1]]: present whenever a prefix test below holds *)
  let part1 := default EmptyString (category_parts !! 1%nat) in
  if String.eqb category "Medical" then
    with_subcategory (base </> "Medical") subcategory
  else if PyStr.startswith "Financial/" category then
    let folder_name := default part1 (folder_name_map !! part1) in
    let path := base </> "Financial" </> folder_name in
    match subcategory with
    | Some s =>
        if PyStr.truthy s
        then path </> default s (subcat_folder_map !! s)
        else path
    | None => path
    end
  else if String.eqb category "Career" then
    with_subcategory (base </> "Career") subcategory
  else if String.eqb category "Cars" then
    with_subcategory (base </> "Cars") subcategory
  else if PyStr.startswith "Kids/" category then
    base </> "Kids" </> part1
  else if PyStr.startswith "Personal/" category then
    base </> "Personal" </> part1
  else if PyStr.startswith "Purchases/" category then
    with_subcategory (base </> "Purchases" </> part1) subcategory
  else if String.eqb category "Sheet Music" then base </> "Sheet Music"
  else if String.eqb category "Recipes" then base </> "Recipes"
  else if String.eqb category "User Manuals" then base </> "User Manuals"
  else if String.eqb category "Misc" then base </> "Misc. "
  else base </> "Misc. ".

(** ** The world: files, directories and the audit log *)

(** What a path holds.  A regular file carries its content. *)
Inductive Node := File (content : string) | Dir.

#[global] Instance Node_eq_dec : EqDecision Node.
Proof. solve_decision. Defined.

(** A row of the CSV file, as [csv.reader] yields it and [csv.writer]
    takes it. *)
Abbreviation Row := (list string).

(** The file system and the audit log.  The CSV file at [log_file_path]
    is kept apart from the other files, as the rows [csv.reader] reads
    from it ([None]: the file does not exist); writing rows and reading
    them back is taken to give the same rows. *)
Record World := mkWorld {
  fs : gmap Path Node;
  audit : option (list Row)
}.

Module FS.

(** [p.exists()]. *)
Definition exists_ (m : gmap Path Node) (p : Path) : bool :=
  bool_decide (is_Some (m !! p)).

(** [p.stat().st_size] of a regular file. *)
Definition size (m : gmap Path Node) (p : Path) : nat :=
  match m !! p with
  | Some (File content) => String.length content
  | _ => 0
  end.

(** [p.mkdir(parents=True, exist_ok=True)]: [None] when it raises, which
    it does when [p] or an ancestor is a regular file. *)
Definition mkdir_step (acc : option (gmap Path Node)) (d : Path)
  : option (gmap Path Node) :=
  m' ← acc;
  match m' !! d with
  | Some (File _) => None
  | Some Dir => Some m'
  | None => Some (<[d := Dir]> m')
  end.

Definition mkdir_parents (m : gmap Path Node) (p : Path)
  : option (gmap Path Node) :=
  foldl mkdir_step (Some m) (PurePath.chain p).

(** [src.rename(dst)] for a regular file [src]: [None] when it raises.
    Renaming a file onto itself does nothing; moving a directory is not
    part of the model and counts as raising. *)
Definition rename (m : gmap Path Node) (src dst : Path)
  : option (gmap Path Node) :=
  match m !! src with
  | Some (File content) =>
      if decide (src = dst) then Some m
      else match m !! dst with
           | Some Dir => None
           | _ => Some (<[dst := File content]> (delete src m))
           end
  | _ => None
  end.

(** [p.unlink()]: [None] when it raises. *)
Definition unlink (m : gmap Path Node) (p : Path) : option (gmap Path Node) :=
  match m !! p with
  | Some (File _) => Some (delete p m)
  | _ => None
  end.

End FS.

(** ** The audit log *)

Module Audit.

Definition HEADER : Row :=
  ["DateTime"; "Old Filename"; "New Filename"; "Destination"].

(** The rows [log_file_move] keeps from the file it finds: everything but
    a first row equal to the header. *)
Definition existing_entries (log : option (list Row)) : list Row :=
  match log with
  | None => []
  | Some [] => []
  | Some (header :: rest) =>
      if decide (header = HEADER) then rest else header :: rest
  end.

Definition new_entry (timestamp old_filename new_filename : string)
    (destination : Path) : Row :=
  [timestamp; old_filename; new_filename; PurePath.to_string destination].

(** [log_file_move]: the rows of the file after the call, given the clock
    reading [timestamp] and the file before the call. *)
Definition log_file_move (timestamp : string) (log : option (list Row))
    (old_filename new_filename : string) (destination : Path)
  : option (list Row) :=
  Some (HEADER
        :: new_entry timestamp old_filename new_filename destination
        :: existing_entries log).

(** One append request: clock reading, old name, new name, destination. *)
Record Append := mkAppend {
  a_time : string; a_old : string; a_new : string; a_dest : Path
}.

Definition row_of (a : Append) : Row :=
  new_entry (a_time a) (a_old a) (a_new a) (a_dest a).

(** A sequence of calls of [log_file_move], oldest first. *)
Definition append_all (log : option (list Row)) (appends : list Append)
  : option (list Row) :=
  foldl (λ l a, log_file_move (a_time a) l (a_old a) (a_new a) (a_dest a))
        log appends.

(** What reading the file back gives: the first row and the data rows. *)
Definition read_back (log : option (list Row)) : option (Row * list Row) :=
  match log with
  | Some (first :: rest) => Some (first, rest)
  | _ => None
  end.

End Audit.

(** ** The filing engine: moving a file *)

Module Filing.

(** What the environment decides during one call of
    [move_file_to_destination]: whether [mkdir], [rename] or the writing of
    the log raise for a reason outside the file system model, and the
    clock. *)
Record MoveEnv := mkMoveEnv {
  mkdir_raises : bool;
  rename_raises : bool;
  log_raises : bool;
  now : string
}.

(** [original_filename if original_filename else source_file.name]. *)
Definition logged_old_name (original_filename : option string)
    (source_file : Path) : string :=
  if PyStr.truthy_opt original_filename
  then default EmptyString original_filename
  else PurePath.name source_file.

(** [move_file_to_destination].  [dest_folder] is [None] for Python's
    [None]; a raising log write leaves the log as it was. *)
Definition move_file_to_destination (env : MoveEnv) (w : World)
    (source_file : Path) (dest_folder : option Path)
    (original_filename : option string) : bool * World :=
  match dest_folder with
  | None => (false, w)
  | Some dest_folder =>
      match (if mkdir_raises env then None
             else FS.mkdir_parents (fs w) dest_folder) with
      | None => (false, w)
      | Some m1 =>
          let dest_file := dest_folder </> PurePath.name source_file in
          if FS.exists_ m1 dest_file
             && negb (bool_decide (dest_file = source_file))
          then (false, mkWorld m1 (audit w))
          else
            let old_filename :=
              logged_old_name original_filename source_file in
            let new_filename := PurePath.name source_file in
            match (if rename_raises env then None
                   else FS.rename m1 source_file dest_file) with
            | None => (false, mkWorld m1 (audit w))
            | Some m2 =>
                if log_raises env then (false, mkWorld m2 (audit w))
                else (true,
                      mkWorld m2
                        (Audit.log_file_move (now env) (audit w)
                           old_filename new_filename dest_folder))
            end
      end
  end.

End Filing.

(** ** The availability resolver *)

Module Availability.

(** One call of [shutil.copy2]: the copy is made, or it raises, an
    [IOError]/[OSError] or something else, possibly leaving a partial file
    behind. *)
Inductive CopyOutcome :=
| CopyOk (data : string)
| CopyOSError (left_behind : option string)
| CopyOther (left_behind : option string).

(** One direct read of the original in the third method. *)
Inductive ReadOutcome := ReadOk | ReadOSError | ReadOther.

(** What the environment decides during one call of
    [ensure_file_downloaded].  The [xattr] probe, [brctl] and the sleeps
    only log or wait and have no field. *)
Record DownloadEnv := mkDownloadEnv {
  tempdir : Path;                       (* [tempfile.gettempdir()] *)
  copies : nat → CopyOutcome;           (* the copy attempts, by number *)
  original_readable : bool;             (* the 1 KB read of the original *)
  cleanup_unlink_raises : bool;         (* the unlink of the handler raises *)
  reads : nat → ReadOutcome             (* the direct reads, by number *)
}.

(** The three answers: [True], [False], or the path of the scratch copy. *)
Inductive DownloadResult := DTrue | DFalse | DTemp (temp_file : Path).

Definition max_copy_retries : nat := 5.
Definition max_retries : nat := 5.

Definition leave (m : gmap Path Node) (temp_file : Path)
    (left_behind : option string) : gmap Path Node :=
  match left_behind with
  | Some data => <[temp_file := File data]> m
  | None => m
  end.

(** The copy loop, from attempt number [attempt] with [remaining] rounds to
    go: [true] when the loop is left normally, [false] when it raises. *)
Fixpoint copy_attempts (copies : nat → CopyOutcome) (m : gmap Path Node)
    (temp_file : Path) (attempt remaining : nat) : bool * gmap Path Node :=
  match remaining with
  | O => (true, m)
  | S remaining' =>
      match copies attempt with
      | CopyOk data => (true, <[temp_file := File data]> m)
      | CopyOSError left_behind =>
          if (attempt <? max_copy_retries - 1)%nat
          then copy_attempts copies (leave m temp_file left_behind)
                 temp_file (S attempt) remaining'
          else (false, leave m temp_file left_behind)
      | CopyOther left_behind => (false, leave m temp_file left_behind)
      end
  end.

(** The read loop of the third method; after the loop the source checks
    that the original exists and is not empty. *)
Fixpoint read_attempts (reads : nat → ReadOutcome) (m : gmap Path Node)
    (file_path : Path) (attempt remaining : nat) : bool :=
  match remaining with
  | O => FS.exists_ m file_path && (0 <? FS.size m file_path)%nat
  | S remaining' =>
      match reads attempt with
      | ReadOk => true
      | ReadOSError =>
          if (attempt <? max_retries - 1)%nat
          then read_attempts reads m file_path (S attempt) remaining'
          else false
      | ReadOther => false
      end
  end.

Definition temp_file_for (env : DownloadEnv) (file_path : Path) : Path :=
  tempdir env </> ("icloud_download_" +:+ PurePath.name file_path).

(** The second method after the copy loop: [Some r] when it returns [r],
    [None] when it leaves through its exception handler. *)
Definition verify_scratch (env : DownloadEnv) (m : gmap Path Node)
    (temp_file : Path) : option DownloadResult * gmap Path Node :=
  if FS.exists_ m temp_file && (0 <? FS.size m temp_file)%nat then
    if original_readable env then
      if FS.exists_ m temp_file then
        match FS.unlink m temp_file with
        | Some m' => (Some DTrue, m')
        | None => (Some (DTemp temp_file), m)
        end
      else (Some DTrue, m)
    else (Some (DTemp temp_file), m)
  else
    if FS.exists_ m temp_file then
      match FS.unlink m temp_file with
      | Some m' => (Some DFalse, m')
      | None => (None, m)
      end
    else (Some DFalse, m).

Definition ensure_file_downloaded (env : DownloadEnv) (m : gmap Path Node)
    (file_path : Path) : DownloadResult * gmap Path Node :=
  let temp_file := temp_file_for env file_path in
  let '(copied, m1) :=
    copy_attempts (copies env) m temp_file 0 max_copy_retries in
  let '(answer, m2) :=
    if copied then verify_scratch env m1 temp_file else (None, m1) in
  match answer with
  | Some r => (r, m2)
  | None =>
      (* the handler of the second method, then the third method *)
      let m3 :=
        if FS.exists_ m2 temp_file then
          default m2 (if cleanup_unlink_raises env then None
                      else FS.unlink m2 temp_file)
        else m2 in
      (if read_attempts (reads env) m3 file_path 0 max_retries
       then DTrue else DFalse, m3)
  end.

End Availability.

(** ** The text extractor *)

Module Extraction.
Import PyStr.

(** One page (or one page image) handed to a reader: text, [None], or an
    exception. *)
Inductive PageOutcome := PageText (s : string) | PageNone | PageRaises.

(** One run of a reader over the file: whether opening it works, the
    pages in order, and whether the reader itself raises once these pages
    are done. *)
Record ReaderRun := mkRun {
  run_opens : bool;
  run_pages : list PageOutcome;
  run_abort : bool
}.

Record ExtractEnv := mkExtractEnv {
  download : Availability.DownloadEnv;
  pypdf2_available : bool;
  pypdf2_first : ReaderRun;
  pypdf2_retry : ReaderRun;
  pdfplumber_available : bool;
  pdfplumber_run : ReaderRun;
  ocr_available : bool;            (* [pytesseract] and [pdf2image] import *)
  ocr_run : ReaderRun;             (* rendering, then recognition by page *)
  unlink_raises : bool
}.

(** What the extractor does that the properties below speak of. *)
Inductive Event :=
| StageA | StageB | StageC
| UnlinkScratch (temp_file : Path) (failed : bool).

Definition nl : string := String (ascii_of_nat 10) EmptyString.

Definition MIN_TEXT : nat := 50.

(** [len(text.strip()) < 50]. *)
Definition too_short (text : string) : bool :=
  (String.length (strip isspace text) <? MIN_TEXT)%nat.

(** The page loop: the text and whether an exception left the loop.  A
    [tolerant] loop catches the exception of a page and goes on. *)
Fixpoint read_pages (tolerant : bool) (pages : list PageOutcome)
    (text : string) : string * bool :=
  match pages with
  | [] => (text, false)
  | PageText s :: rest =>
      read_pages tolerant rest (if truthy s then text +:+ s +:+ nl else text)
  | PageNone :: rest => read_pages tolerant rest text
  | PageRaises :: rest =>
      if tolerant then read_pages tolerant rest text else (text, true)
  end.

(** One run; [reset] says that [text] is emptied once the file is open. *)
Definition run_reader (tolerant reset : bool) (run : ReaderRun)
    (text : string) : string * bool :=
  if run_opens run then
    let '(t, raised) :=
      read_pages tolerant (run_pages run)
                 (if reset then EmptyString else text) in
    (t, raised || run_abort run)
  else (text, true).

(** Stage A: PyPDF2, a second time with a fresh handle when the first
    attempt raises; text adds up over both. *)
Definition stage_a (env : ExtractEnv) : string :=
  if pypdf2_available env then
    let '(t1, raised) :=
      run_reader true false (pypdf2_first env) EmptyString in
    if raised then (run_reader false false (pypdf2_retry env) t1).1 else t1
  else EmptyString.

(** Stage B: pdfplumber. *)
Definition stage_b (env : ExtractEnv) (text : string) : string :=
  if pdfplumber_available env
  then (run_reader false true (pdfplumber_run env) text).1
  else text.

(** Stage C: OCR; [None] when the function returns the empty text from
    one of its two handlers. *)
Definition stage_c (env : ExtractEnv) : option string :=
  if ocr_available env then
    let '(t, raised) := run_reader false true (ocr_run env) EmptyString in
    if raised then None else Some t
  else None.

Record Extracted := mkExtracted {
  text_of : string;
  events_of : list Event;
  fs_of : gmap Path Node
}.

(** The end of the function: the scratch copy is removed, the text
    stripped. *)
Definition finish (env : ExtractEnv) (m : gmap Path Node) (use_temp : bool)
    (actual_pdf_path : Path) (text : string) (events : list Event)
  : Extracted :=
  if use_temp && FS.exists_ m actual_pdf_path then
    match (if unlink_raises env then None
           else FS.unlink m actual_pdf_path) with
    | Some m' =>
        mkExtracted (strip isspace text)
          (events ++ [UnlinkScratch actual_pdf_path false]) m'
    | None =>
        mkExtracted (strip isspace text)
          (events ++ [UnlinkScratch actual_pdf_path true]) m
    end
  else mkExtracted (strip isspace text) events m.

Definition extract_text_from_pdf (env : ExtractEnv) (m : gmap Path Node)
    (pdf_path : Path) : Extracted :=
  let '(download_result, m0) :=
    Availability.ensure_file_downloaded (download env) m pdf_path in
  match download_result with
  | Availability.DFalse => mkExtracted EmptyString [] m0
  | _ =>
      let '(actual_pdf_path, use_temp) :=
        match download_result with
        | Availability.DTemp p => (p, true)
        | _ => (pdf_path, false)
        end in
      let text_a := stage_a env in
      let '(text_b, events_b) :=
        if too_short text_a then (stage_b env text_a, [StageA; StageB])
        else (text_a, [StageA]) in
      if too_short text_b then
        match stage_c env with
        | Some text_c =>
            finish env m0 use_temp actual_pdf_path text_c
                   (events_b ++ [StageC])
        | None => mkExtracted EmptyString (events_b ++ [StageC]) m0
        end
      else finish env m0 use_temp actual_pdf_path text_b events_b
  end.

End Extraction.

(** ** Regular expressions, for the filename pattern *)

Module Regex.

Inductive re :=
| Void
| Eps
| Chr (P : ascii → bool)
| Cat (r s : re)
| Alt (r s : re)
| Star (r : re).

Fixpoint nullable (r : re) : bool :=
  match r with
  | Void => false
  | Eps => true
  | Chr _ => false
  | Cat r s => nullable r && nullable s
  | Alt r s => nullable r || nullable s
  | Star _ => true
  end.

(** The derivative of [r] by the character [c]. *)
Fixpoint deriv (c : ascii) (r : re) : re :=
  match r with
  | Void => Void
  | Eps => Void
  | Chr P => if P c then Eps else Void
  | Cat r s =>
      if nullable r then Alt (Cat (deriv c r) s) (deriv c s)
      else Cat (deriv c r) s
  | Alt r s => Alt (deriv c r) (deriv c s)
  | Star r => Cat (deriv c r) (Star r)
  end.

(** Whether the whole of [s] is in the language of [r]. *)
Fixpoint fullmatch (r : re) (s : string) : bool :=
  match s with
  | EmptyString => nullable r
  | String c s' => fullmatch (deriv c r) s'
  end.

Definition plus (r : re) : re := Cat r (Star r).
Definition lit (c : ascii) : re := Chr (Ascii.eqb c).

Fixpoint seq_of (rs : list re) : re :=
  match rs with
  | [] => Eps
  | r :: rest => Cat r (seq_of rest)
  end.

(** [\d], [\s] and [.] on code points below 256. *)
Definition digit : re :=
  Chr (λ c, let n := nat_of_ascii c in (48 <=? n)%nat && (n <=? 57)%nat).
Definition space : re := Chr PyStr.isspace.
Definition dot : re := Chr (λ c, negb (Ascii.eqb c (ascii_of_nat 10))).

(** [$]: the end of the string, or just before a newline that ends it. *)
Definition dollar : re := Alt Eps (lit (ascii_of_nat 10)).

End Regex.

(** ** The run driver *)

Module Driver.
Import PyStr.

(** [^\d{4}-\d{2}-\d{2}\s+-\s+.+\.pdf$] *)
Definition filename_pattern : Regex.re :=
  Regex.seq_of
    [ Regex.digit; Regex.digit; Regex.digit; Regex.digit; Regex.lit "-";
      Regex.digit; Regex.digit; Regex.lit "-"; Regex.digit; Regex.digit;
      Regex.plus Regex.space; Regex.lit "-"; Regex.plus Regex.space;
      Regex.plus Regex.dot;
      Regex.lit "."; Regex.lit "p"; Regex.lit "d"; Regex.lit "f";
      Regex.dollar ].

(** [re.match(pattern, name)] is not [None]. *)
Definition follows_format (name : string) : bool :=
  Regex.fullmatch filename_pattern name.

(** What the environment decides while one file is processed. *)
Record FileEnv := mkFileEnv {
  extraction : Extraction.ExtractEnv;
  shortcuts_run : string → ProcOutcome;
  created_date : string;               (* [get_file_created_date] *)
  inbox_rename_raises : bool;          (* the rename in the inbox raises *)
  moving : Filing.MoveEnv
}.

(** What the driver does with one file, in order. *)
Inductive Action :=
| Classified (category subcategory : option string)
| AskedFilename (answer : option string)
| Renamed (src dst : Path) (applied : bool)
| MoveCalled (source_file dest_folder : Path) (original_filename : string)
             (moved : bool).

(** The cleaning of the suggested name: strips, then the extension. *)
Definition clean_filename (suggested : string) : string :=
  let s := strip (is_char squote)
             (strip (is_char dquote) (strip isspace suggested)) in
  if endswith ".pdf" s then s else s +:+ ".pdf".

Section OneFile.
Variable texts : Texts.
Variable env : FileEnv.

Definition classify (file_contents : string) :=
  Classifier.classify_file_category texts (shortcuts_run env) file_contents.

(** The branch for a name that already follows the format. *)
Definition file_as_named (w : World) (pdf_file : Path)
    (file_contents : string) : World * list Action :=
  let '(category, subcategory) := classify file_contents in
  if truthy_opt category then
    let dest_folder :=
      get_folder_path_for_category (default EmptyString category)
                                   subcategory in
    let '(moved, w') :=
      Filing.move_file_to_destination (moving env) w pdf_file
        (Some dest_folder) (Some (PurePath.name pdf_file)) in
    (w', [Classified category subcategory;
          MoveCalled pdf_file dest_folder (PurePath.name pdf_file) moved])
  else (w, [Classified category subcategory]).

(** The renaming step: the path the file has afterwards. *)
Definition rename_in_inbox (w : World) (pdf_file : Path)
    (suggested_filename : string) : Path * World * list Action :=
  if String.eqb (PurePath.name pdf_file) suggested_filename
  then (pdf_file, w, [])
  else
    let new_file_path := PurePath.parent pdf_file </> suggested_filename in
    if FS.exists_ (fs w) new_file_path
       && negb (bool_decide (new_file_path = pdf_file))
    then (pdf_file, w, [])
    else
      match (if inbox_rename_raises env then None
             else FS.rename (fs w) pdf_file new_file_path) with
      | Some m' =>
          (new_file_path, mkWorld m' (audit w),
           [Renamed pdf_file new_file_path true])
      | None => (pdf_file, w, [Renamed pdf_file new_file_path false])
      end.

(** The branch for any other name. *)
Definition file_renamed (w : World) (pdf_file : Path)
    (file_contents : string) : World * list Action :=
  let '(category, subcategory) := classify file_contents in
  let dest_folder :=
    if truthy_opt category
    then Some (get_folder_path_for_category
                 (default EmptyString category) subcategory)
    else None in
  let suggested :=
    Classifier.generate_filename texts (shortcuts_run env)
      file_contents (created_date env) in
  if negb (truthy_opt suggested)
  then (w, [Classified category subcategory; AskedFilename suggested])
  else
    let suggested_filename :=
      clean_filename (default EmptyString suggested) in
    let original_filename := PurePath.name pdf_file in
    let '(current_file_path, w1, renames) :=
      rename_in_inbox w pdf_file suggested_filename in
    let asked := ([Classified category subcategory;
                   AskedFilename suggested] ++ renames)%list in
    match dest_folder with
    | Some d =>
        let '(moved, w2) :=
          Filing.move_file_to_destination (moving env) w1
            current_file_path (Some d) (Some original_filename) in
        (w2, (asked ++ [MoveCalled current_file_path d original_filename
                                   moved])%list)
    | None => (w1, asked)
    end.

(** The body of the loop of [main] for one file of the inbox. *)
Definition process_pdf (w : World) (pdf_file : Path)
  : World * list Action :=
  let ex := Extraction.extract_text_from_pdf (extraction env) (fs w)
              pdf_file in
  let w0 := mkWorld (Extraction.fs_of ex) (audit w) in
  let file_contents := Extraction.text_of ex in
  if negb (truthy file_contents) then (w0, [])
  else if follows_format (PurePath.name pdf_file)
  then file_as_named w0 pdf_file file_contents
  else file_renamed w0 pdf_file file_contents.

End OneFile.

(** The loop of [main]: the files in order, each with its environment. *)
Fixpoint main_loop (texts : Texts) (w : World)
    (pdf_files : list (Path * FileEnv)) : World * list (list Action) :=
  match pdf_files with
  | [] => (w, [])
  | (pdf_file, env) :: rest =>
      let '(w', actions) := process_pdf texts env w pdf_file in
      let '(w'', more) := main_loop texts w' rest in
      (w'', actions :: more)
  end.

End Driver.

(** ** The environment set up at import time *)

Module Environment.
Import PyStr.

(** [sub in s] for strings. *)
Fixpoint contains (sub s : string) : bool :=
  String.prefix sub s
  || match s with
     | EmptyString => false
     | String _ s' => contains sub s'
     end.

Definition homebrew_paths : list string :=
  ["/opt/homebrew/bin"; "/usr/local/bin"].

Definition poppler_paths : list string :=
  ["/opt/homebrew/opt/poppler/bin"; "/usr/local/opt/poppler/bin"].

(** The first loop of [setup_environment]: [current_path] is read once,
    before the loop, and every assignment is made from it. *)
Definition add_homebrew (m : gmap Path Node) (current_path : string)
    (PATH : option string) : option string :=
  foldl (λ acc path,
           if FS.exists_ m (PurePath.of_string path)
              && negb (contains path current_path)
           then Some (path +:+ ":" +:+ current_path)
           else acc)
        PATH homebrew_paths.

(** The second loop: the first poppler directory that exists is put in
    front of the value [PATH] has by then, and the loop is left. *)
Fixpoint add_poppler (m : gmap Path Node) (candidates : list string)
    (PATH : option string) : option string :=
  match candidates with
  | [] => PATH
  | poppler_path :: rest =>
      if FS.exists_ m (PurePath.of_string poppler_path)
      then Some (poppler_path +:+ ":" +:+ default EmptyString PATH)
      else add_poppler m rest PATH
  end.

(** [setup_environment]: the value of [PATH] afterwards, [None] when it
    is still unset. *)
Definition setup_environment (m : gmap Path Node) (PATH : option string)
  : option string :=
  let current_path := default EmptyString PATH in
  add_poppler m poppler_paths (add_homebrew m current_path PATH).

End Environment.

(** ** The viewer: [view-ocr.py] *)

Module Viewer.
Import PyStr Extraction.

Inductive Method := PyPDF2 | Pdfplumber | OCR.

(** [if text.strip(): method_used.append(method)], reached only when
    the stage has not raised. *)
Definition note (raised : bool) (text : string) (method : Method)
  : list Method :=
  if negb raised && truthy (strip isspace text) then [method] else [].

(** The first stage of the viewer: one PyPDF2 run, no retry, an exception
    of a page ends the stage. *)
Definition first_stage (env : ExtractEnv) : string * list Method :=
  if pypdf2_available env then
    let '(t, raised) :=
      run_reader false false (pypdf2_first env) EmptyString in
    (t, note raised t PyPDF2)
  else (EmptyString, []).

Definition second_stage (env : ExtractEnv) (text : string)
  : string * list Method :=
  if pdfplumber_available env then
    let '(t, raised) := run_reader false true (pdfplumber_run env) text in
    (t, note raised t Pdfplumber)
  else (text, []).

(** [extract_text_from_pdf] of the viewer: the text and the methods. *)
Definition extract_text_from_pdf (env : ExtractEnv) : string * list Method :=
  let '(text_a, methods_a) := first_stage env in
  let '(text_b, methods_b) :=
    if too_short text_a
    then let '(t, ms) := second_stage env text_a in (t, methods_a ++ ms)
    else (text_a, methods_a) in
  if too_short text_b then
    if ocr_available env then
      let '(t, raised) := run_reader false true (ocr_run env) EmptyString in
      if raised then (EmptyString, [])
      else (strip isspace t, methods_b ++ note false t OCR)
    else (EmptyString, [])
  else (strip isspace text_b, methods_b).

End Viewer.

(** ** Readings of results *)

(** Small functions in which the properties further down are stated. *)
Module Readings.

(** The pair the parser returns, written again as one string. *)
Definition rejoined (answer : option string * option string)
  : option string :=
  match answer with
  | (Some category, Some subcategory) =>
      Some (category +:+ "/" +:+ subcategory)
  | (Some category, None) => Some category
  | (None, _) => None
  end.

(** Whether [p] lies below [base], component by component. *)
Definition below (base p : Path) : Prop :=
  root p = root base ∧ ∃ more, parts p = parts base ++ more.


(** The moves of a run that succeeded. *)
Definition is_move_done (a : Driver.Action) : bool :=
  match a with
  | Driver.MoveCalled _ _ _ moved => moved
  | _ => false
  end.

Definition moves_done (actions : list Driver.Action) : nat :=
  length (List.filter is_move_done actions).

End Readings.

(** ** The language of a pattern *)

(** What it is for a string to be in the language of a pattern, and the
    form of name that the pattern of the driver describes. *)
Module Language.
Import Regex.

Inductive matches : re → string → Prop :=
| MEps : matches Eps EmptyString
| MChr (P : ascii → bool) (c : ascii) :
    P c = true → matches (Chr P) (String c EmptyString)
| MCat (r s : re) (u v : string) :
    matches r u → matches s v → matches (Cat r s) (u +:+ v)
| MAltL (r s : re) (u : string) : matches r u → matches (Alt r s) u
| MAltR (r s : re) (u : string) : matches s u → matches (Alt r s) u
| MStar0 (r : re) : matches (Star r) EmptyString
| MStarS (r : re) (u v : string) :
    matches r u → matches (Star r) v → matches (Star r) (u +:+ v).

Fixpoint all_chars (P : ascii → bool) (s : string) : bool :=
  match s with
  | EmptyString => true
  | String c s' => P c && all_chars P s'
  end.

Definition is_digit (c : ascii) : bool :=
  let n := nat_of_ascii c in (48 <=? n)%nat && (n <=? 57)%nat.

Definition not_newline (c : ascii) : bool :=
  negb (Ascii.eqb c (ascii_of_nat 10)).

(** [k] digits. *)
Definition digits (k : nat) (s : string) : Prop :=
  String.length s = k ∧ all_chars is_digit s = true.

(** One blank or more. *)
Definition blanks (s : string) : Prop :=
  s ≠ EmptyString ∧ all_chars PyStr.isspace s = true.

(** A name of the form [YYYY-MM-DD - description.pdf]: the date in
    digits, a dash with blanks on both sides, a description of at least
    one character on one line, the extension, and nothing more but
    possibly one newline. *)
Definition dated (name : string) : Prop :=
  ∃ year month day gap1 gap2 body tail,
    name = year +:+ "-" +:+ month +:+ "-" +:+ day
           +:+ gap1 +:+ "-" +:+ gap2 +:+ body +:+ ".pdf" +:+ tail
    ∧ digits 4 year ∧ digits 2 month ∧ digits 2 day
    ∧ blanks gap1 ∧ blanks gap2
    ∧ body ≠ EmptyString ∧ all_chars not_newline body = true
    ∧ (tail = EmptyString ∨ tail = Extraction.nl).

End Language.

(** ** Sample inputs *)

(** Concrete texts, environments and worlds on which the definitions
    above are run. *)
Module Samples.
Import Availability Extraction Filing Driver.

Definition texts : Texts :=
  {| classify_head := "classify: ";
     classify_tail := " :end";
     filename_head := "name: ";
     filename_mid1 := " | ";
     filename_mid2 := " | ";
     filename_tail := " :end";
     extract_text_from_rtf := λ s, s |}.

(** The shortcut answering a zero exit code and [s]. *)
Definition said (s : string) : ProcOutcome := Completed 0 s EmptyString.

(** An assistant that answers the classification prompt one way and the
    filename prompt another way. *)
Definition assistant (classification filename : ProcOutcome)
    (prompt : string) : ProcOutcome :=
  if PyStr.startswith "classify: " prompt then classification else filename.

Definition inbox : Path :=
  DOCUMENTS_BASE_PATH </> "00 - Scan Inbox".

Definition tmp : Path := PurePath.of_string "/tmp".

(** A page of text of more than 50 characters. *)
Definition page : string :=
  "Electric bill for January, amount due 120 dollars, pay by 2025-02-01.".

(** The original can be read once the scratch copy is made. *)
Definition materialized : DownloadEnv :=
  {| tempdir := tmp;
     copies := λ _, CopyOk "%PDF-1.7";
     original_readable := true;
     cleanup_unlink_raises := false;
     reads := λ _, ReadOk |}.

(** The original stays unreadable: the scratch copy is used. *)
Definition scratch_only : DownloadEnv :=
  {| tempdir := tmp;
     copies := λ _, CopyOk "%PDF-1.7";
     original_readable := false;
     cleanup_unlink_raises := false;
     reads := λ _, ReadOSError |}.

Definition pages (ps : list PageOutcome) : ReaderRun := mkRun true ps false.

(** A PDF with a text layer. *)
Definition text_pdf (d : DownloadEnv) : ExtractEnv :=
  {| download := d;
     pypdf2_available := true;
     pypdf2_first := pages [PageText page];
     pypdf2_retry := pages [];
     pdfplumber_available := true;
     pdfplumber_run := pages [PageText page];
     ocr_available := true;
     ocr_run := pages [PageText page];
     unlink_raises := false |}.

(** A scanned PDF on a machine without the OCR libraries. *)
Definition scan_without_ocr (d : DownloadEnv) : ExtractEnv :=
  {| download := d;
     pypdf2_available := true;
     pypdf2_first := pages [PageText EmptyString];
     pypdf2_retry := pages [];
     pdfplumber_available := true;
     pdfplumber_run := pages [PageNone];
     ocr_available := false;
     ocr_run := pages [];
     unlink_raises := false |}.

(** A PDF of blank pages: no stage finds text. *)
Definition blank_pdf (d : DownloadEnv) : ExtractEnv :=
  {| download := d;
     pypdf2_available := true;
     pypdf2_first := pages [PageText EmptyString];
     pypdf2_retry := pages [];
     pdfplumber_available := true;
     pdfplumber_run := pages [PageNone];
     ocr_available := true;
     ocr_run := pages [PageText EmptyString];
     unlink_raises := false |}.

Definition quiet : MoveEnv :=
  {| mkdir_raises := false; rename_raises := false; log_raises := false;
     now := "2025-01-02 03:04:05" |}.

Definition file_env (extraction : ExtractEnv)
    (classification filename : ProcOutcome) : FileEnv :=
  {| extraction := extraction;
     shortcuts_run := assistant classification filename;
     created_date := "2025-01-01";
     inbox_rename_raises := false;
     moving := quiet |}.

Definition named_pdf : Path := inbox </> "2025-01-01 - x.pdf".
Definition scan001 : Path := inbox </> "scan001.pdf".
Definition other_inbox : Path := DOCUMENTS_BASE_PATH </> "01 - Second Inbox".
Definition scan001_bis : Path := other_inbox </> "scan001.pdf".

(** A world with the given regular files and no audit log yet. *)
Definition world_of (files : list (Path * string)) : World :=
  mkWorld (list_to_map (map (λ pc, (pc.1, File pc.2)) files)) None.

End Samples.

(** Further inputs. *)
Module MoreSamples.
Import Availability Extraction Filing Driver Samples.

(** Every copy comes out empty. *)
Definition empty_copies : DownloadEnv :=
  {| tempdir := tmp;
     copies := λ _, CopyOk EmptyString;
     original_readable := true;
     cleanup_unlink_raises := false;
     reads := λ _, ReadOk |}.

(** As [materialized] for the first five attempts of each loop, failing
    from then on. *)
Definition materialized_at_first : DownloadEnv :=
  {| tempdir := tmp;
     copies := λ i, if (i <? 5)%nat then CopyOk "%PDF-1.7"
                    else CopyOther None;
     original_readable := true;
     cleanup_unlink_raises := false;
     reads := λ i, if (i <? 5)%nat then ReadOk else ReadOther |}.

(** The destination folder cannot be made. *)
Definition read_only : MoveEnv :=
  {| mkdir_raises := true; rename_raises := false; log_raises := false;
     now := "2025-01-02 03:04:05" |}.

(** The audit log cannot be written. *)
Definition log_fails : MoveEnv :=
  {| mkdir_raises := false; rename_raises := false; log_raises := true;
     now := "2025-01-02 03:04:05" |}.

(** A machine with both Homebrew directories. *)
Definition both_homebrews : gmap Path Node :=
  list_to_map [(PurePath.of_string "/opt/homebrew/bin", Dir);
               (PurePath.of_string "/usr/local/bin", Dir)].

End MoreSamples.

(** * Properties *)

(** ** Strings *)

Module PyStrFacts.
Import PyStr.

Lemma split_nonempty sep s : split sep s ≠ [].
Proof.
  destruct s as [|c s]; simpl; [done|].
  destruct (Ascii.eqb c sep); [done|].
  by destruct (split sep s).
Qed.

(** Joining what [split] gives with the separator gives the string back. *)
Lemma join_split sep s :
  join (String sep EmptyString) (split sep s) = s.
Proof.
  induction s as [|c s IH]; simpl; [done|].
  destruct (Ascii.eqb_spec c sep) as [->|Hne].
  - pose proof (split_nonempty sep s) as Hs.
    destruct (split sep s) as [|h t]; [done|].
    simpl in *. by rewrite IH.
  - pose proof (split_nonempty sep s) as Hs.
    destruct (split sep s) as [|h t]; [done|].
    destruct t as [|h' t]; simpl in *; by rewrite <- IH.
Qed.

(** No piece of a split contains the separator. *)
Lemma split_pieces_free sep s :
  Forall (λ p, has_char sep p = false) (split sep s).
Proof.
  induction s as [|c s IH]; simpl.
  - by constructor.
  - destruct (Ascii.eqb c sep) eqn:Hc.
    + by constructor.
    + destruct (split sep s) as [|h t]; [by repeat constructor; simpl; rewrite Hc|].
      inversion IH as [|? ? Hh Ht]; subst. constructor; [|done].
      simpl. by rewrite Hc, Hh.
Qed.

(** A string with a prefix that contains [c] contains [c]. *)
Lemma prefix_has_char c : ∀ pre s,
  String.prefix pre s = true → has_char c pre = true → has_char c s = true.
Proof.
  induction pre as [|a pre IH]; intros s Hpre Hc; [done|].
  destruct s as [|b s]; [done|]. simpl in *.
  destruct (Ascii.ascii_dec a b) as [->|]; [|done].
  destruct (Ascii.eqb b c); [done|]. simpl in *. by apply IH.
Qed.

End PyStrFacts.

(** ** The classifier *)

Module ClassifierFacts.
Import PyStr Classifier.

Section Parser.
Variable texts : Texts.
Variable shortcuts_run : string → ProcOutcome.

(** With an answer from the assistant that is not empty, the result of
    [classify_file_category] is the parse of that answer. *)
Lemma classify_parses file_contents result :
  call_chatgpt_shortcut texts shortcuts_run
    (classify_prompt texts file_contents) = Some result →
  truthy result = true →
  classify_file_category texts shortcuts_run file_contents
  = parse_classification result.
Proof.
  intros Hcall Hres. unfold classify_file_category.
  by rewrite Hcall, Hres.
Qed.

(** Without an answer, or with an empty one, nothing is classified. *)
Lemma classify_absent file_contents :
  truthy_opt (call_chatgpt_shortcut texts shortcuts_run
                (classify_prompt texts file_contents)) = false →
  classify_file_category texts shortcuts_run file_contents = (None, None).
Proof.
  unfold classify_file_category.
  destruct (call_chatgpt_shortcut _ _ _) as [r|]; simpl; [|done].
  by intros ->.
Qed.

End Parser.

Lemma parse_one result p0 :
  split slash (cleaned result) = [p0] →
  parse_classification result = (Some p0, None).
Proof. unfold parse_classification, cleaned. by intros ->. Qed.

Lemma parse_two result p0 p1 :
  split slash (cleaned result) = [p0; p1] →
  parse_classification result
  = if in_CATEGORY_STRUCTURE (p0 +:+ "/" +:+ p1)
    then (Some (p0 +:+ "/" +:+ p1), None)
    else (Some p0, Some p1).
Proof. unfold parse_classification, cleaned. by intros ->. Qed.

Lemma parse_many result p0 p1 p2 rest :
  split slash (cleaned result) = p0 :: p1 :: p2 :: rest →
  parse_classification result
  = if in_CATEGORY_STRUCTURE (p0 +:+ "/" +:+ p1)
    then (Some (p0 +:+ "/" +:+ p1), Some (join "/" (p2 :: rest)))
    else (Some p0, Some (join "/" (p1 :: p2 :: rest))).
Proof. unfold parse_classification, cleaned. by intros ->. Qed.

(** A response of two parts is the two parts around a slash. *)
Lemma two_parts_whole s p0 p1 :
  split slash s = [p0; p1] → s = p0 +:+ "/" +:+ p1.
Proof.
  intros Hs. rewrite <- (PyStrFacts.join_split slash s) at 1.
  by rewrite Hs.
Qed.

(** C1. For every response of the assistant, the parser follows the
    longest-known-prefix rule.  The response [Financial/Bills/Electric]
    gives the category [Financial/Bills] and the subcategory [Electric];
    the one-part response [Misc] gives the category [Misc] and no
    subcategory, as does every response of one part; a response of two
    parts [Part0/Part1] is returned whole as the category, with no
    subcategory, exactly when it is a key of the taxonomy, and otherwise
    [Part0] is the category and [Part1] the subcategory; a longer response
    whose first two parts form a key has that key as the category and the
    remaining parts as the subcategory. *)
Theorem C1_longest_known_prefix
    (texts : Texts) (shortcuts_run : string → ProcOutcome)
    (file_contents result : string) :
  call_chatgpt_shortcut texts shortcuts_run
    (classify_prompt texts file_contents) = Some result →
  truthy result = true →
  let answer := classify_file_category texts shortcuts_run file_contents in
  (cleaned result = "Financial/Bills/Electric" →
     answer = (Some "Financial/Bills", Some "Electric"))
  ∧ (cleaned result = "Misc" → answer = (Some "Misc", None))
  ∧ (∀ p0, split slash (cleaned result) = [p0] → answer = (Some p0, None))
  ∧ (∀ p0 p1, split slash (cleaned result) = [p0; p1] →
       cleaned result = p0 +:+ "/" +:+ p1
       ∧ (in_CATEGORY_STRUCTURE (cleaned result) = true →
            answer = (Some (cleaned result), None))
       ∧ (in_CATEGORY_STRUCTURE (cleaned result) = false →
            answer = (Some p0, Some p1)))
  ∧ (∀ p0 p1 p2 rest,
       split slash (cleaned result) = p0 :: p1 :: p2 :: rest →
       in_CATEGORY_STRUCTURE (p0 +:+ "/" +:+ p1) = true →
       answer = (Some (p0 +:+ "/" +:+ p1), Some (join "/" (p2 :: rest)))).
Proof.
  intros Hcall Hres answer. subst answer.
  rewrite (classify_parses _ _ _ _ Hcall Hres).
  repeat split.
  - intros Hc. unfold parse_classification. fold (cleaned result).
    rewrite Hc. by vm_compute.
  - intros Hc. unfold parse_classification. fold (cleaned result).
    rewrite Hc. by vm_compute.
  - intros p0 Hs. by apply parse_one.
  - by apply two_parts_whole.
  - intros Hin. rewrite (parse_two _ _ _ H).
    rewrite <- (two_parts_whole _ _ _ H). by rewrite Hin.
  - intros Hin. rewrite (parse_two _ _ _ H).
    rewrite <- (two_parts_whole _ _ _ H). by rewrite Hin.
  - intros p0 p1 p2 rest Hs Hin. rewrite (parse_many _ _ _ _ _ Hs).
    by rewrite Hin.
Qed.

(** C10. For every response of three or more slash-separated parts whose
    first two parts joined by a slash are not a key of the taxonomy, the
    parser returns the first part alone as the category and all the
    remaining parts, joined again with slashes, as the subcategory; so
    [A/B/C] gives the category [A] and the subcategory [B/C]. *)
Theorem C10_unknown_prefix_keeps_first_part
    (texts : Texts) (shortcuts_run : string → ProcOutcome)
    (file_contents result : string) (p0 p1 p2 : string) (rest : list string) :
  call_chatgpt_shortcut texts shortcuts_run
    (classify_prompt texts file_contents) = Some result →
  truthy result = true →
  split slash (cleaned result) = p0 :: p1 :: p2 :: rest →
  in_CATEGORY_STRUCTURE (p0 +:+ "/" +:+ p1) = false →
  classify_file_category texts shortcuts_run file_contents
  = (Some p0, Some (join "/" (p1 :: p2 :: rest))).
Proof.
  intros Hcall Hres Hs Hin.
  rewrite (classify_parses _ _ _ _ Hcall Hres).
  rewrite (parse_many _ _ _ _ _ Hs). by rewrite Hin.
Qed.

End ClassifierFacts.

(** ** Destination folders *)

Module FolderFacts.
Import PyStr.

(** The categories the resolver names one by one are keys of the
    taxonomy. *)
Lemma named_categories_known category :
  in_CATEGORY_STRUCTURE category = false →
  String.eqb category "Medical" = false
  ∧ String.eqb category "Career" = false
  ∧ String.eqb category "Cars" = false
  ∧ String.eqb category "Sheet Music" = false
  ∧ String.eqb category "Recipes" = false
  ∧ String.eqb category "User Manuals" = false.
Proof.
  intros Hin.
  repeat split;
    match goal with
    | |- String.eqb ?c ?k = false =>
        destruct (String.eqb_spec c k) as [->|]; [|done];
        by vm_compute in Hin
    end.
Qed.

(** What the resolver does with a category that is not a key of the
    taxonomy: only the four prefix branches and the catch-all are left. *)
Lemma resolver_on_unknown category subcategory :
  in_CATEGORY_STRUCTURE category = false →
  get_folder_path_for_category category subcategory
  = let part1 := default EmptyString (split slash category !! 1%nat) in
    if startswith "Financial/" category then
      let path :=
        DOCUMENTS_BASE_PATH </> "Financial"
          </> default part1 (folder_name_map !! part1) in
      match subcategory with
      | Some s =>
          if truthy s then path </> default s (subcat_folder_map !! s)
          else path
      | None => path
      end
    else if startswith "Kids/" category then
      DOCUMENTS_BASE_PATH </> "Kids" </> part1
    else if startswith "Personal/" category then
      DOCUMENTS_BASE_PATH </> "Personal" </> part1
    else if startswith "Purchases/" category then
      with_subcategory (DOCUMENTS_BASE_PATH </> "Purchases" </> part1)
                       subcategory
    else MISC_FOLDER.
Proof.
  intros Hin.
  destruct (named_categories_known _ Hin) as (Hm & Hca & Hcs & Hs & Hr & Hu).
  unfold get_folder_path_for_category.
  rewrite Hm, Hca, Hcs, Hs, Hr, Hu. cbv zeta.
  destruct (startswith "Financial/" category); [done|].
  destruct (startswith "Kids/" category); [done|].
  destruct (startswith "Personal/" category); [done|].
  destruct (startswith "Purchases/" category); [done|].
  by destruct (String.eqb category "Misc").
Qed.

(** A category without a slash has none of the four prefixes. *)
Lemma slash_free_unprefixed category :
  has_char slash category = false →
  startswith "Financial/" category = false
  ∧ startswith "Kids/" category = false
  ∧ startswith "Personal/" category = false
  ∧ startswith "Purchases/" category = false.
Proof.
  intros Hfree. unfold startswith.
  split_and!;
    match goal with
    | |- String.prefix ?pre _ = false =>
        destruct (String.prefix pre category) eqn:Hpre; [|done];
        by rewrite (PyStrFacts.prefix_has_char slash pre category Hpre eq_refl)
          in Hfree
    end.
Qed.

(** Along the path of the program the catch-all holds as the
    specification words it: a category that the parser returns and that
    is not a key of the taxonomy is resolved to the catch-all folder. *)
Lemma parsed_unknown_goes_to_misc result category subcategory sub' :
  Classifier.parse_classification result = (Some category, subcategory) →
  in_CATEGORY_STRUCTURE category = false →
  get_folder_path_for_category category sub' = MISC_FOLDER.
Proof.
  intros Hparse Hin.
  assert (has_char slash category = false) as Hfree.
  { unfold Classifier.parse_classification in Hparse.
    pose proof (PyStrFacts.split_pieces_free slash
                  (strip (is_char squote)
                     (strip (is_char dquote) (strip isspace result))))
      as Hpieces.
    pose proof (PyStrFacts.split_nonempty slash
                  (strip (is_char squote)
                     (strip (is_char dquote) (strip isspace result))))
      as Hne.
    destruct (split slash _) as [|p0 [|p1 [|p2 rest]]]; [done| | |].
    - injection Hparse as <- _. by inversion Hpieces.
    - destruct (in_CATEGORY_STRUCTURE (p0 +:+ "/" +:+ p1)) eqn:Hkey.
      + injection Hparse as <- _. congruence.
      + injection Hparse as <- _. by inversion Hpieces.
    - destruct (in_CATEGORY_STRUCTURE (p0 +:+ "/" +:+ p1)) eqn:Hkey.
      + injection Hparse as <- _. congruence.
      + injection Hparse as <- _. by inversion Hpieces. }
  destruct (slash_free_unprefixed _ Hfree) as (Hf & Hk & Hpe & Hpu).
  rewrite (resolver_on_unknown _ _ Hin). cbv zeta.
  by rewrite Hf, Hk, Hpe, Hpu.
Qed.

(** C7, as the code has it. For every category string that is not a key
    of the taxonomy and does not begin with one of the four prefixes
    [Financial/], [Kids/], [Personal/] and [Purchases/], destination
    resolution gives the catch-all folder, whatever the subcategory. *)
Theorem C7_unknown_unprefixed_goes_to_misc
    (category : string) (subcategory : option string) :
  in_CATEGORY_STRUCTURE category = false →
  startswith "Financial/" category = false →
  startswith "Kids/" category = false →
  startswith "Personal/" category = false →
  startswith "Purchases/" category = false →
  get_folder_path_for_category category subcategory = MISC_FOLDER.
Proof.
  intros Hin Hf Hk Hpe Hpu.
  rewrite (resolver_on_unknown _ _ Hin). cbv zeta.
  by rewrite Hf, Hk, Hpe, Hpu.
Qed.

(** C7, as stated, fails: [Financial/Foo] is not a key of the taxonomy,
    and it is sent to a folder of its own under [Financial]. *)
Lemma C7_counterexample :
  in_CATEGORY_STRUCTURE "Financial/Foo" = false
  ∧ get_folder_path_for_category "Financial/Foo" None
    = DOCUMENTS_BASE_PATH </> "Financial" </> "Foo"
  ∧ get_folder_path_for_category "Financial/Foo" None ≠ MISC_FOLDER.
Proof. by vm_compute. Qed.

End FolderFacts.

(** ** The audit log *)

Module AuditFacts.
Import Audit.

(** The rows kept from a file that [log_file_move] wrote are its data
    rows. *)
Lemma existing_after_append timestamp log old_filename new_filename dest :
  existing_entries
    (log_file_move timestamp log old_filename new_filename dest)
  = new_entry timestamp old_filename new_filename dest
    :: existing_entries log.
Proof.
  unfold log_file_move, existing_entries.
  by destruct (decide (HEADER = HEADER)).
Qed.

Lemma existing_after_appends appends : ∀ log,
  existing_entries (append_all log appends)
  = rev (map row_of appends) ++ existing_entries log.
Proof.
  induction appends as [|a appends IH]; intros log; simpl; [done|].
  unfold append_all in *. simpl. rewrite IH, existing_after_append.
  unfold row_of. by rewrite <- app_assoc.
Qed.

Lemma append_all_snoc log appends a :
  append_all log (appends ++ [a])
  = log_file_move (a_time a) (append_all log appends)
      (a_old a) (a_new a) (a_dest a).
Proof. unfold append_all. by rewrite foldl_app. Qed.

(** C6. For every sequence of appends to the audit log, at least one,
    starting from any prior state of the log (no file, an empty file, a
    file with or without the header), reading the log back gives the
    header row first, then the new records with the most recent first,
    then all data rows that were there before; and each single append
    writes the whole file anew: header, new record, then the rows
    found. *)
Theorem C6_log_round_trip
    (log : option (list Row)) (first : Append) (more : list Append) :
  read_back (append_all log (first :: more))
  = Some (HEADER,
          rev (map row_of (first :: more)) ++ existing_entries log)
  ∧ ∀ timestamp old_filename new_filename dest,
      log_file_move timestamp log old_filename new_filename dest
      = Some (HEADER
              :: new_entry timestamp old_filename new_filename dest
              :: existing_entries log).
Proof.
  split; [|done].
  destruct (exists_last (l := first :: more)) as (init & a & Heq); [done|].
  rewrite Heq, append_all_snoc. unfold log_file_move. simpl.
  rewrite map_app, rev_app_distr. simpl.
  by rewrite existing_after_appends.
Qed.

End AuditFacts.

(** ** Paths and the file system *)

Module FSFacts.
Import PyStr PurePath FS.

Lemma exists_Some (m : gmap Path Node) p n :
  m !! p = Some n → exists_ m p = true.
Proof. intros H. unfold exists_. apply bool_decide_eq_true. by exists n. Qed.

Lemma exists_None (m : gmap Path Node) p :
  m !! p = None → exists_ m p = false.
Proof.
  intros H. unfold exists_. apply bool_decide_eq_false.
  rewrite H. by intros [? ?].
Qed.

Lemma exists_true_inv (m : gmap Path Node) p :
  exists_ m p = true → is_Some (m !! p).
Proof. unfold exists_. by intros H%bool_decide_eq_true. Qed.

(** A string that splits into itself has no root. *)
Lemma root_of_unsplit n : split slash n = [n] → root_of n = EmptyString.
Proof.
  destruct n as [|c n]; [done|]. simpl.
  destruct (Ascii.eqb_spec c slash) as [->|Hne].
  - intros H. exfalso. injection H as H1 H2. discriminate.
  - intros _. destruct c as [[] [] [] [] [] [] [] []]; try done.
Qed.

(** Joining a proper file name adds one component. *)
Lemma joinpath_single d n :
  single_component n → d </> n = mkPath (root d) (parts d ++ [n]).
Proof.
  intros [Hs Hc]. unfold joinpath, of_string. simpl.
  rewrite (root_of_unsplit _ Hs), Hs. simpl.
  rewrite filter_cons_True by done. by rewrite filter_nil.
Qed.

Lemma name_joinpath_single d n : single_component n → name (d </> n) = n.
Proof.
  intros H. rewrite (joinpath_single _ _ H). unfold name. simpl.
  by rewrite last_last.
Qed.

(** A path with one component more than [d] is not on the chain of [d]. *)
Lemma longer_not_in_chain d n :
  mkPath (root d) (parts d ++ [n]) ∉ chain d.
Proof.
  unfold chain. intros Hin%list_elem_of_fmap. destruct Hin as (k & Heq & _).
  injection Heq as Heq. apply (f_equal length) in Heq.
  rewrite length_app, length_firstn in Heq. simpl in Heq. lia.
Qed.

Lemma mkdir_fold_None l : foldl mkdir_step None l = None.
Proof. by induction l. Qed.

Lemma mkdir_step_Some (m : gmap Path Node) d :
  mkdir_step (Some m) d
  = match m !! d with
    | Some (File _) => None
    | Some Dir => Some m
    | None => Some (<[d := Dir]> m)
    end.
Proof. done. Qed.

Lemma foldl_mkdir_cons acc d l :
  foldl mkdir_step acc (d :: l) = foldl mkdir_step (mkdir_step acc d) l.
Proof. done. Qed.

Lemma mkdir_fold_spec l : ∀ m m',
  foldl mkdir_step (Some m) l = Some m' →
  (∀ q n, m !! q = Some n → m' !! q = Some n)
  ∧ (∀ q, q ∉ l → m' !! q = m !! q)
  ∧ (∀ q, q ∈ l → m' !! q = Some Dir).
Proof.
  induction l as [|d l IH]; intros m m' H.
  - injection H as <-. split_and!; [done|done|]. by intros q ?%elem_of_nil.
  - rewrite foldl_mkdir_cons, mkdir_step_Some in H.
    destruct (m !! d) as [[c|]|] eqn:Hd.
    + by rewrite mkdir_fold_None in H.
    + destruct (IH _ _ H) as (Hkeep & Hout & Hin). split_and!; [done| |].
      * intros q Hq. apply Hout. intros ?. apply Hq. by right.
      * intros q [->|Hq]%elem_of_cons; [by apply Hkeep|by apply Hin].
    + destruct (IH _ _ H) as (Hkeep & Hout & Hin). split_and!.
      * intros q n Hq. apply Hkeep. rewrite lookup_insert_ne; [done|].
        intros ->. by rewrite Hd in Hq.
      * intros q Hq. rewrite Hout.
        -- apply lookup_insert_ne. intros ->. apply Hq. by left.
        -- intros ?. apply Hq. by right.
      * intros q [->|Hq]%elem_of_cons; [|by apply Hin].
        apply Hkeep. by rewrite lookup_insert_eq.
Qed.

(** [mkdir_parents] changes nothing when the directories are there. *)
Lemma mkdir_fold_id l : ∀ m,
  (∀ q, q ∈ l → m !! q = Some Dir) →
  foldl mkdir_step (Some m) l = Some m.
Proof.
  induction l as [|d l IH]; intros m H; [done|].
  rewrite foldl_mkdir_cons, mkdir_step_Some.
  rewrite (H d) by by left. apply IH. intros q Hq. apply H. by right.
Qed.

End FSFacts.

(** ** Moving a file *)

Module FilingFacts.
Import PurePath FS Filing FSFacts.

(** What a successful call has done. *)
Lemma move_success_inv env w source_file d original w1 :
  move_file_to_destination env w source_file (Some d) original = (true, w1) →
  ∃ m1 c,
    mkdir_parents (fs w) d = Some m1
    ∧ m1 !! source_file = Some (File c)
    ∧ ((d </> name source_file = source_file ∧ fs w1 = m1)
       ∨ (d </> name source_file ≠ source_file
          ∧ m1 !! (d </> name source_file) = None
          ∧ fs w1 = <[d </> name source_file := File c]>
                      (delete source_file m1)))
    ∧ audit w1
      = Audit.log_file_move (now env) (audit w)
          (logged_old_name original source_file) (name source_file) d.
Proof.
  unfold move_file_to_destination.
  destruct (mkdir_raises env); [done|].
  destruct (mkdir_parents (fs w) d) as [m1|] eqn:Hmk; [|done].
  destruct (exists_ m1 (d </> name source_file)
            && negb (bool_decide (d </> name source_file = source_file)))
    eqn:Hguard; [done|].
  destruct (rename_raises env); [done|].
  unfold rename.
  destruct (m1 !! source_file) as [[c|]|] eqn:Hsrc; [|done|done].
  destruct (decide (source_file = d </> name source_file)) as [Heq|Hne].
  - destruct (log_raises env); [done|]. intros [= <-].
    exists m1, c. split_and!; [done|done| |done]. left. by rewrite <- Heq.
  - assert (m1 !! (d </> name source_file) = None) as Hfree.
    { apply andb_false_iff in Hguard as [Hex|Hsame].
      - destruct (m1 !! (d </> name source_file)) eqn:E; [|done].
        by rewrite (exists_Some _ _ _ E) in Hex.
      - apply negb_false_iff, bool_decide_eq_true in Hsame. by symmetry in Hsame. }
    rewrite Hfree. destruct (log_raises env); [done|]. intros [= <-].
    exists m1, c. split_and!; [done|done| |done]. right.
    split_and!; [by intros ?|done|done].
Qed.

(** After a successful move of one document, a second document of the
    same name is refused at that folder, and nothing changes. *)
Lemma second_refused env1 env2 w w1 s1 s2 d c2 o1 o2 :
  s1 ≠ s2 →
  name s1 = name s2 →
  fs w !! s2 = Some (File c2) →
  move_file_to_destination env1 w s1 (Some d) o1 = (true, w1) →
  move_file_to_destination env2 w1 s2 (Some d) o2 = (false, w1)
  ∧ fs w1 !! s2 = Some (File c2)
  ∧ ∃ c1, fs w1 !! (d </> name s1) = Some (File c1).
Proof.
  intros Hne Hname Hs2 Hfirst.
  destruct (move_success_inv _ _ _ _ _ _ Hfirst)
    as (m1 & c1 & Hmk & Hsrc & Hcase & _).
  destruct (mkdir_fold_spec _ _ _ Hmk) as (Hkeep & _ & Hdirs).
  pose proof (Hkeep _ _ Hs2) as Hs2'.
  assert (fs w1 !! s2 = Some (File c2)
          ∧ fs w1 !! (d </> name s1) = Some (File c1)
          ∧ d </> name s1 ≠ s2
          ∧ ∀ q, q ∈ chain d → fs w1 !! q = Some Dir) as (H2 & Hd & Hds & Hch).
  { destruct Hcase as [[Hsame ->]|(Hdiff & Hfree & ->)].
    - split_and!; [done|by rewrite Hsame|by rewrite Hsame|done].
    - assert (d </> name s1 ≠ s2) as Hds.
      { intros E. rewrite E in Hfree. by rewrite Hfree in Hs2'. }
      split_and!; [|by rewrite lookup_insert_eq|done|].
      + rewrite lookup_insert_ne by done. by rewrite lookup_delete_ne.
      + intros q Hq. pose proof (Hdirs _ Hq) as Hqd.
        rewrite lookup_insert_ne, lookup_delete_ne; [done| |].
        * intros E. rewrite E in Hsrc. by rewrite Hsrc in Hqd.
        * intros E. rewrite E in Hfree. by rewrite Hfree in Hqd. }
  split_and!; [|done|by exists c1].
  unfold move_file_to_destination.
  destruct (mkdir_raises env2); [done|].
  unfold mkdir_parents. rewrite (mkdir_fold_id _ _ Hch).
  rewrite <- Hname, (exists_Some _ _ _ Hd).
  rewrite bool_decide_eq_false_2 by done. simpl. by destruct w1.
Qed.

(** C4. Two distinct documents that carry the same file name are filed
    into the same destination folder, one after the other; the
    destination holds no file of that name, the folder can be made, and
    nothing outside the file system makes the first call fail.  Then
    exactly one move succeeds: the first call returns true, moves its
    document to the destination and writes one audit record; the second
    call raises nothing and returns false, writes no audit record, and
    leaves the world as it found it, with its document at its prior
    path. *)
Theorem C4_collision_safety
    (env1 env2 : MoveEnv) (w : World) (s1 s2 d : Path) (c1 c2 : string)
    (o1 o2 : option string) :
  s1 ≠ s2 →
  name s1 = name s2 →
  single_component (name s1) →
  fs w !! s1 = Some (File c1) →
  fs w !! s2 = Some (File c2) →
  fs w !! (d </> name s1) = None →
  is_Some (mkdir_parents (fs w) d) →
  mkdir_raises env1 = false →
  rename_raises env1 = false →
  log_raises env1 = false →
  ∃ w1,
    move_file_to_destination env1 w s1 (Some d) o1 = (true, w1)
    ∧ move_file_to_destination env2 w1 s2 (Some d) o2 = (false, w1)
    ∧ audit w1
      = Some (Audit.HEADER
              :: Audit.new_entry (now env1) (logged_old_name o1 s1)
                   (name s1) d
              :: Audit.existing_entries (audit w))
    ∧ fs w1 !! (d </> name s1) = Some (File c1)
    ∧ fs w1 !! s1 = None
    ∧ fs w1 !! s2 = Some (File c2).
Proof.
  intros Hne Hname Hsingle Hs1 Hs2 Hfree [m1 Hmk] Hm Hr Hl.
  destruct (mkdir_fold_spec _ _ _ Hmk) as (Hkeep & Hout & _).
  assert (m1 !! (d </> name s1) = None) as Hfree1.
  { rewrite Hout; [done|]. rewrite (joinpath_single _ _ Hsingle).
    apply longer_not_in_chain. }
  assert (s1 ≠ d </> name s1) as Hsd.
  { intros E. rewrite <- E in Hfree. by rewrite Hfree in Hs1. }
  assert (move_file_to_destination env1 w s1 (Some d) o1
          = (true,
             mkWorld (<[d </> name s1 := File c1]> (delete s1 m1))
               (Audit.log_file_move (now env1) (audit w)
                  (logged_old_name o1 s1) (name s1) d))) as Hfirst.
  { unfold move_file_to_destination. rewrite Hm, Hmk, Hr, Hl.
    rewrite (exists_None _ _ Hfree1). simpl.
    unfold rename. rewrite (Hkeep _ _ Hs1), Hfree1.
    by rewrite decide_False. }
  eexists. split; [exact Hfirst|].
  destruct (second_refused env1 env2 _ _ _ _ _ _ o1 o2 Hne Hname Hs2 Hfirst)
    as (Hsecond & H2 & _).
  split_and!; [done|done| | |done]; simpl.
  - by rewrite lookup_insert_eq.
  - rewrite lookup_insert_ne by done. by rewrite lookup_delete_eq.
Qed.

End FilingFacts.

(** ** The availability resolver *)

Module AvailabilityFacts.
Import PurePath FS Availability FSFacts.

(** A path of positive size holds a regular file that is not empty. *)
Lemma size_pos_file (m : gmap Path Node) p :
  (0 < size m p)%nat →
  ∃ data, m !! p = Some (File data) ∧ data ≠ EmptyString.
Proof.
  unfold size. destruct (m !! p) as [[data|]|]; [|lia|lia].
  intros H. exists data. split; [done|]. intros ->. simpl in H. lia.
Qed.

(** What [verify_scratch] does with a scratch copy that is not empty. *)
Lemma verify_nonempty env (m : gmap Path Node) temp_file :
  (0 < size m temp_file)%nat →
  verify_scratch env m temp_file
  = if original_readable env
    then (Some DTrue, delete temp_file m)
    else (Some (DTemp temp_file), m).
Proof.
  intros Hsize. destruct (size_pos_file _ _ Hsize) as (data & Hfile & _).
  unfold verify_scratch. rewrite (exists_Some _ _ _ Hfile).
  apply Nat.ltb_lt in Hsize. rewrite Hsize. simpl.
  destruct (original_readable env); [|done].
  unfold unlink. by rewrite Hfile.
Qed.

(** The resolver after a copy loop that leaves a scratch copy which is
    not empty. *)
Lemma ensure_with_scratch env (m m1 : gmap Path Node) file_path :
  copy_attempts (copies env) m (temp_file_for env file_path) 0
    max_copy_retries = (true, m1) →
  (0 < size m1 (temp_file_for env file_path))%nat →
  ensure_file_downloaded env m file_path
  = if original_readable env
    then (DTrue, delete (temp_file_for env file_path) m1)
    else (DTemp (temp_file_for env file_path), m1).
Proof.
  intros Hcopy Hsize. unfold ensure_file_downloaded. rewrite Hcopy.
  rewrite (verify_nonempty _ _ _ Hsize).
  by destruct (original_readable env).
Qed.

(** The resolver answers with a scratch path only when that path holds a
    file that is not empty. *)
Lemma scratch_answer_exists env m file_path temp_file m' :
  ensure_file_downloaded env m file_path = (DTemp temp_file, m') →
  temp_file = temp_file_for env file_path
  ∧ ∃ data, m' !! temp_file = Some (File data) ∧ data ≠ EmptyString.
Proof.
  unfold ensure_file_downloaded.
  destruct (copy_attempts _ _ _ _ _) as [copied m1].
  destruct copied.
  - unfold verify_scratch.
    destruct (exists_ m1 _ && (0 <? size m1 _)%nat) eqn:Hok.
    + apply andb_true_iff in Hok as [_ Hsize%Nat.ltb_lt].
      destruct (size_pos_file _ _ Hsize) as (data & Hfile & Hne).
      rewrite (exists_Some _ _ _ Hfile).
      destruct (original_readable env).
      * unfold unlink. rewrite Hfile. by intros [=].
      * intros [= <- <-]. split; [done|]. by exists data.
    + destruct (exists_ m1 _).
      * destruct (unlink m1 _); [by intros [=]|].
        by destruct (read_attempts _ _ _ _ _); destruct (exists_ _ _).
      * by intros [=].
  - by destruct (read_attempts _ _ _ _ _).
Qed.

(** C9. In the availability resolver, whenever the copy loop ends with a
    scratch copy that is not empty: if the original can then be read, the
    scratch copy is deleted and the answer is that the original is ready;
    if the original still cannot be read, the answer is the scratch path,
    and the scratch file is left in place, not empty, for the caller to
    delete. *)
Theorem C9_scratch_copy_resolution
    (env : DownloadEnv) (m m1 : gmap Path Node) (file_path : Path) :
  let temp_file := temp_file_for env file_path in
  copy_attempts (copies env) m temp_file 0 max_copy_retries = (true, m1) →
  (0 < size m1 temp_file)%nat →
  (original_readable env = true →
     ∃ m', ensure_file_downloaded env m file_path = (DTrue, m')
           ∧ m' = delete temp_file m1
           ∧ exists_ m' temp_file = false)
  ∧ (original_readable env = false →
       ensure_file_downloaded env m file_path = (DTemp temp_file, m1)
       ∧ exists_ m1 temp_file = true
       ∧ (0 < size m1 temp_file)%nat).
Proof.
  intros temp_file Hcopy Hsize.
  destruct (size_pos_file _ _ Hsize) as (data & Hfile & _).
  rewrite (ensure_with_scratch _ _ _ _ Hcopy Hsize). fold temp_file.
  split; intros ->.
  - eexists. split_and!; [done|done|].
    apply exists_None. by rewrite lookup_delete_eq.
  - split_and!; [done| |done]. by apply (exists_Some _ _ _ Hfile).
Qed.

End AvailabilityFacts.

(** ** The text extractor *)

Module ExtractionFacts.
Import PurePath FS Availability Extraction FSFacts.

(** Membership in a list written out: one case by element. *)
Ltac in_cases H :=
  repeat first
    [ apply elem_of_nil in H; destruct H
    | apply elem_of_app in H as [H|H]
    | apply elem_of_cons in H as [H|H] ].

(** The end of the function adds at most the record of the deletion. *)
Lemma finish_events env m use_temp p text events e :
  e ∈ events_of (finish env m use_temp p text events) →
  e ∈ events ∨ ∃ q failed, e = UnlinkScratch q failed.
Proof.
  unfold finish.
  destruct (use_temp && exists_ m p); [|by left].
  destruct (if unlink_raises env then None else unlink m p); simpl;
    intros [?|Hlast%list_elem_of_singleton]%elem_of_app; eauto.
Qed.

(** C2. For every document whose stage A text has at least 50 characters
    after trimming, neither stage B nor stage C is invoked; and whenever
    stage B is invoked the text of stage A is shorter than 50 trimmed
    characters, whenever stage C is invoked the text gathered so far,
    after stages A and B, is shorter than 50 trimmed characters. *)
Theorem C2_cascade_short_circuits
    (env : ExtractEnv) (m : gmap Path Node) (pdf_path : Path) :
  let ex := extract_text_from_pdf env m pdf_path in
  let text_a := stage_a env in
  let text_b := if too_short text_a then stage_b env text_a else text_a in
  (too_short text_a = false →
     (StageB ∉ events_of ex) ∧ (StageC ∉ events_of ex))
  ∧ (StageB ∈ events_of ex → too_short text_a = true)
  ∧ (StageC ∈ events_of ex → too_short text_b = true).
Proof.
  intros ex text_a text_b.
  assert (∀ e, e ∈ events_of ex →
            e = StageA
            ∨ (e = StageB ∧ too_short text_a = true)
            ∨ (e = StageC ∧ too_short text_b = true)
            ∨ ∃ q failed, e = UnlinkScratch q failed) as Hshape.
  { subst ex text_b text_a. unfold extract_text_from_pdf.
    destruct (ensure_file_downloaded _ _ _) as [r m0].
    assert (∀ actual use_temp e,
      e ∈ events_of
        (let '(tb, evb) :=
           if too_short (stage_a env)
           then (stage_b env (stage_a env), [StageA; StageB])
           else (stage_a env, [StageA]) in
         if too_short tb then
           match stage_c env with
           | Some text_c =>
               finish env m0 use_temp actual text_c (evb ++ [StageC])
           | None => mkExtracted EmptyString (evb ++ [StageC]) m0
           end
         else finish env m0 use_temp actual tb evb) →
      e = StageA
      ∨ (e = StageB ∧ too_short (stage_a env) = true)
      ∨ (e = StageC
         ∧ too_short (if too_short (stage_a env)
                      then stage_b env (stage_a env)
                      else stage_a env) = true)
      ∨ ∃ q failed, e = UnlinkScratch q failed) as Hbody.
    { intros actual use_temp e.
      destruct (too_short (stage_a env)) eqn:Ha.
      - destruct (too_short (stage_b env (stage_a env))) eqn:Hb.
        + destruct (stage_c env); simpl.
          * intros [He|?]%finish_events; [|by eauto 6].
            in_cases He; subst; eauto.
          * intros He. in_cases He; subst; eauto.
        + intros [He|?]%finish_events; [|by eauto 6].
          in_cases He; subst; eauto.
      - rewrite Ha. intros [He|?]%finish_events; [|by eauto 6].
        in_cases He; subst; eauto. }
    destruct r; simpl; [by apply Hbody| |by apply Hbody].
    intros e He. by apply elem_of_nil in He. }
  split_and!.
  - intros Ha. split; intros Hin; destruct (Hshape _ Hin)
      as [?|[[? Hs]|[[? Hs]|(? & ? & ?)]]]; try done.
    + congruence.
    + subst text_b. rewrite Ha in Hs. congruence.
  - intros Hin. by destruct (Hshape _ Hin) as [?|[[? Hs]|[[? Hs]|(? & ? & ?)]]].
  - intros Hin. by destruct (Hshape _ Hin) as [?|[[? Hs]|[[? Hs]|(? & ? & ?)]]].
Qed.

(** C3, what the code does. When the resolver hands back a scratch copy,
    the text after stages A and B is shorter than 50 trimmed characters,
    and stage C ends in one of its two handlers (the OCR libraries are
    missing, or rendering or recognition raises), the function returns
    the empty text at once: no deletion of the scratch copy is attempted,
    and the scratch file is still there, not empty, when the function has
    returned. *)
Theorem C3_scratch_left_after_ocr_failure
    (env : ExtractEnv) (m m0 : gmap Path Node) (pdf_path temp_file : Path) :
  ensure_file_downloaded (download env) m pdf_path = (DTemp temp_file, m0) →
  too_short (if too_short (stage_a env)
             then stage_b env (stage_a env) else stage_a env) = true →
  stage_c env = None →
  let ex := extract_text_from_pdf env m pdf_path in
  text_of ex = EmptyString
  ∧ fs_of ex = m0
  ∧ (∀ q failed, UnlinkScratch q failed ∉ events_of ex)
  ∧ exists_ (fs_of ex) temp_file = true
  ∧ (0 < size (fs_of ex) temp_file)%nat.
Proof.
  intros Hdl Hshort Hc ex. subst ex.
  destruct (AvailabilityFacts.scratch_answer_exists _ _ _ _ _ Hdl)
    as (_ & data & Hfile & Hne).
  unfold extract_text_from_pdf. rewrite Hdl.
  destruct (too_short (stage_a env)) eqn:Ha; rewrite Hshort, Hc; simpl;
    (split_and!; [done|done| | |]);
    try (by apply (exists_Some _ _ _ Hfile));
    try (unfold size; rewrite Hfile; destruct data; [done|simpl; lia]);
    intros q failed Hin; in_cases Hin; discriminate.
Qed.

(** On every other way out of the cascade the end of the function is
    reached: the scratch copy is deleted, or the failure of the deletion
    is recorded and the text is returned all the same. *)
Lemma scratch_deleted_at_the_end
    (env : ExtractEnv) (m : gmap Path Node) (temp_file : Path)
    (text : string) (events : list Event) (data : string) :
  m !! temp_file = Some (File data) →
  let ex := finish env m true temp_file text events in
  text_of ex = PyStr.strip PyStr.isspace text
  ∧ (unlink_raises env = false →
       exists_ (fs_of ex) temp_file = false
       ∧ UnlinkScratch temp_file false ∈ events_of ex)
  ∧ (unlink_raises env = true →
       fs_of ex = m ∧ UnlinkScratch temp_file true ∈ events_of ex).
Proof.
  intros Hfile ex. subst ex. unfold finish.
  rewrite (exists_Some _ _ _ Hfile). simpl. unfold unlink. rewrite Hfile.
  destruct (unlink_raises env); simpl; split_and!; try done.
  - intros _. split; [done|]. apply elem_of_app. right. by left.
  - intros _. split; [|apply elem_of_app; right; by left].
    apply exists_None. by rewrite lookup_delete_eq.
Qed.

End ExtractionFacts.

(** ** The run driver *)

Module DriverFacts.
Import PyStr PurePath FS Filing Extraction Driver FSFacts.

(** A failure of the assistant reaches the caller as [None] or as the
    empty string, both falsy. *)
Lemma failure_is_absence texts shortcuts_run prompt :
  Classifier.fails texts (shortcuts_run prompt) →
  truthy_opt (Classifier.call_chatgpt_shortcut texts shortcuts_run prompt)
  = false.
Proof.
  unfold Classifier.fails, Classifier.call_chatgpt_shortcut.
  destruct (shortcuts_run prompt) as [rc out err| |]; [|done|done].
  intros [Hrc|Hempty].
  - by rewrite bool_decide_eq_false_2.
  - destruct (bool_decide (rc = 0%Z)); [|done]. simpl. by rewrite Hempty.
Qed.

(** The driver passes the file's own name as the original name, and that
    is the name the log gets as the old one. *)
Lemma logged_own_name pdf_file :
  logged_old_name (Some (name pdf_file)) pdf_file = name pdf_file.
Proof.
  unfold logged_old_name. simpl. by destruct (truthy (name pdf_file)).
Qed.

(** C5. For every input file whose name already follows the pattern
    [YYYY-MM-DD - description.pdf], whatever the environment answers: no
    filename is asked of the assistant and no rename is tried; once text
    has been extracted the document is classified; once the
    classification names a category the document is filed by a move of
    the file under its own path and name to the resolved folder; a move
    that succeeds puts the file at the folder under its unchanged name
    and writes one audit record whose old and new name are both that
    name; and when no text is extracted or no category is named, the
    world is as the extraction left it. *)
Theorem C5_formatted_name_is_kept
    (texts : Texts) (env : FileEnv) (w : World) (pdf_file : Path) :
  follows_format (name pdf_file) = true →
  let ex := extract_text_from_pdf (extraction env) (fs w) pdf_file in
  let w0 := mkWorld (fs_of ex) (audit w) in
  let result := process_pdf texts env w pdf_file in
  let answer :=
    Classifier.classify_file_category texts (shortcuts_run env)
      (text_of ex) in
  let dest_folder :=
    get_folder_path_for_category (default EmptyString answer.1) answer.2 in
  let moved :=
    move_file_to_destination (moving env) w0 pdf_file (Some dest_folder)
      (Some (name pdf_file)) in
  (∀ a, a ∈ result.2 →
     (∀ ans, a ≠ AskedFilename ans) ∧ (∀ src dst b, a ≠ Renamed src dst b))
  ∧ (truthy (text_of ex) = true → Classified answer.1 answer.2 ∈ result.2)
  ∧ (truthy (text_of ex) = true → truthy_opt answer.1 = true →
       result.1 = moved.2
       ∧ MoveCalled pdf_file dest_folder (name pdf_file) moved.1 ∈ result.2
       ∧ (moved.1 = true →
            (∃ c, fs result.1 !! (dest_folder </> name pdf_file)
                  = Some (File c))
            ∧ audit result.1
              = Some (Audit.HEADER
                      :: Audit.new_entry (now (moving env))
                           (name pdf_file) (name pdf_file) dest_folder
                      :: Audit.existing_entries (audit w))))
  ∧ (truthy (text_of ex) = false ∨ truthy_opt answer.1 = false →
       result.1 = w0).
Proof.
  intros Hformat ex w0 result answer dest_folder moved.
  subst result. unfold process_pdf. fold ex. fold w0. rewrite Hformat.
  destruct (truthy (text_of ex)) eqn:Htext; simpl.
  2: { split_and!; [by intros a ?%elem_of_nil|done|done|done]. }
  unfold file_as_named, classify. fold answer.
  destruct answer as [category subcategory] eqn:Hanswer. simpl in *.
  destruct (truthy_opt category) eqn:Hcat.
  - fold dest_folder. fold moved. destruct moved as [ok w1] eqn:Hmoved.
    simpl. split_and!.
    + intros a Ha.
      apply elem_of_cons in Ha as [->|Ha]; [done|].
      apply elem_of_cons in Ha as [->|Ha]; [done|].
      by apply elem_of_nil in Ha.
    + intros _. by left.
    + intros _ _. split_and!; [done|by right; left|].
      intros ->.
      destruct (FilingFacts.move_success_inv _ _ _ _ _ _ Hmoved)
        as (m1 & c & _ & Hsrc & Hcase & Haudit).
      split.
      * exists c. destruct Hcase as [[Hsame ->]|(_ & _ & ->)].
        -- by rewrite Hsame.
        -- by rewrite lookup_insert_eq.
      * by rewrite Haudit, logged_own_name.
    + by intros [?|?].
  - split_and!.
    + intros a Ha. apply elem_of_cons in Ha as [->|Ha]; [done|].
      by apply elem_of_nil in Ha.
    + intros _. by left.
    + done.
    + done.
Qed.

(** C8, what the code does. For every document with extracted text whose
    name does not follow the pattern: when the assistant fails to give a
    filename (a timeout, an exit code other than zero, or an empty
    response), the failure reaches the driver as absence, and the driver
    goes on to the next file at once.  Whatever the classification was,
    the file is not moved and no audit record is written: the world is
    as the extraction left it. *)
Theorem C8_no_filename_no_filing
    (texts : Texts) (env : FileEnv) (w : World) (pdf_file : Path) :
  let ex := extract_text_from_pdf (extraction env) (fs w) pdf_file in
  let suggested :=
    Classifier.generate_filename texts (shortcuts_run env) (text_of ex)
      (created_date env) in
  let answer :=
    Classifier.classify_file_category texts (shortcuts_run env)
      (text_of ex) in
  truthy (text_of ex) = true →
  follows_format (name pdf_file) = false →
  Classifier.fails texts
    (shortcuts_run env
       (Classifier.filename_prompt texts (text_of ex) (created_date env))) →
  truthy_opt suggested = false
  ∧ process_pdf texts env w pdf_file
    = (mkWorld (fs_of ex) (audit w),
       [Classified answer.1 answer.2; AskedFilename suggested]).
Proof.
  intros ex suggested answer Htext Hformat Hfails.
  assert (truthy_opt suggested = false) as Habsent.
  { by apply failure_is_absence. }
  split; [done|].
  unfold process_pdf. fold ex. rewrite Htext, Hformat. simpl.
  unfold file_renamed, classify. fold answer. fold suggested.
  destruct answer as [category subcategory]. simpl.
  by rewrite Habsent.
Qed.

End DriverFacts.

(** ** The theorems at sample inputs *)

Module Witnesses.
Import PyStr PurePath FS Availability Extraction Filing Driver Samples.

(** C1 at the answer [Financial/Bills]: two parts that form a key. *)
Lemma C1_witness :
  Classifier.call_chatgpt_shortcut texts
    (assistant (said "Financial/Bills") TimeoutExpired)
    (Classifier.classify_prompt texts page) = Some "Financial/Bills"
  ∧ truthy "Financial/Bills" = true
  ∧ Classifier.classify_file_category texts
      (assistant (said "Financial/Bills") TimeoutExpired) page
    = (Some "Financial/Bills", None).
Proof.
  assert (Classifier.call_chatgpt_shortcut texts
            (assistant (said "Financial/Bills") TimeoutExpired)
            (Classifier.classify_prompt texts page)
          = Some "Financial/Bills") as Hcall by (vm_compute; reflexivity).
  split; [exact Hcall|]. split; [reflexivity|].
  destruct (ClassifierFacts.C1_longest_known_prefix _ _ _ _ Hcall eq_refl)
    as (_ & _ & _ & Htwo & _).
  destruct (Htwo "Financial" "Bills") as (_ & Hkey & _).
  - vm_compute. reflexivity.
  - apply Hkey. vm_compute. reflexivity.
Defined.

(** C10 at the answer [A/B/C]. *)
Lemma C10_witness :
  Classifier.call_chatgpt_shortcut texts
    (assistant (said "A/B/C") TimeoutExpired)
    (Classifier.classify_prompt texts page) = Some "A/B/C"
  ∧ truthy "A/B/C" = true
  ∧ split slash (Classifier.cleaned "A/B/C") = ["A"; "B"; "C"]
  ∧ in_CATEGORY_STRUCTURE ("A" +:+ "/" +:+ "B") = false
  ∧ Classifier.classify_file_category texts
      (assistant (said "A/B/C") TimeoutExpired) page
    = (Some "A", Some "B/C").
Proof.
  assert (Classifier.call_chatgpt_shortcut texts
            (assistant (said "A/B/C") TimeoutExpired)
            (Classifier.classify_prompt texts page)
          = Some "A/B/C") as Hcall by (vm_compute; reflexivity).
  assert (split slash (Classifier.cleaned "A/B/C") = ["A"; "B"; "C"])
    as Hsplit by (vm_compute; reflexivity).
  assert (in_CATEGORY_STRUCTURE ("A" +:+ "/" +:+ "B") = false)
    as Hkey by (vm_compute; reflexivity).
  split_and!; [exact Hcall|reflexivity|exact Hsplit|exact Hkey|].
  exact (ClassifierFacts.C10_unknown_prefix_keeps_first_part
           _ _ _ _ _ _ _ _ Hcall eq_refl Hsplit Hkey).
Defined.

(** C7 at the category [Nonsense] with a subcategory. *)
Lemma C7_witness :
  in_CATEGORY_STRUCTURE "Nonsense" = false
  ∧ startswith "Financial/" "Nonsense" = false
  ∧ startswith "Kids/" "Nonsense" = false
  ∧ startswith "Personal/" "Nonsense" = false
  ∧ startswith "Purchases/" "Nonsense" = false
  ∧ get_folder_path_for_category "Nonsense" (Some "2025") = MISC_FOLDER.
Proof.
  assert (in_CATEGORY_STRUCTURE "Nonsense" = false)
    as Hkey by (vm_compute; reflexivity).
  split_and!; [exact Hkey|reflexivity|reflexivity|reflexivity|reflexivity|].
  exact (FolderFacts.C7_unknown_unprefixed_goes_to_misc
           "Nonsense" (Some "2025") Hkey eq_refl eq_refl eq_refl eq_refl).
Defined.

(** C4: [scan001.pdf] from two inboxes, both sent to the catch-all
    folder. *)
Lemma C4_witness :
  scan001 ≠ scan001_bis
  ∧ name scan001 = name scan001_bis
  ∧ single_component (name scan001)
  ∧ ∃ w1,
      move_file_to_destination quiet
        (world_of [(scan001, "first"); (scan001_bis, "second")])
        scan001 (Some MISC_FOLDER) None = (true, w1)
      ∧ move_file_to_destination quiet w1 scan001_bis (Some MISC_FOLDER) None
        = (false, w1)
      ∧ fs w1 !! scan001_bis = Some (File "second")
      ∧ fs w1 !! (MISC_FOLDER </> "scan001.pdf") = Some (File "first").
Proof.
  assert (scan001 ≠ scan001_bis) as Hne by (vm_compute; discriminate).
  assert (single_component (name scan001)) as Hsingle
    by (split; vm_compute; reflexivity).
  split_and!; [exact Hne|reflexivity|exact Hsingle|].
  destruct (FilingFacts.C4_collision_safety quiet quiet
              (world_of [(scan001, "first"); (scan001_bis, "second")])
              scan001 scan001_bis MISC_FOLDER "first" "second" None None)
    as (w1 & Hfirst & Hsecond & _ & Hdest & _ & Hkept).
  - exact Hne.
  - reflexivity.
  - exact Hsingle.
  - vm_compute. reflexivity.
  - vm_compute. reflexivity.
  - vm_compute. reflexivity.
  - apply (bool_decide_unpack _). vm_compute. exact I.
  - reflexivity.
  - reflexivity.
  - reflexivity.
  - exists w1. split_and!; [exact Hfirst|exact Hsecond|exact Hkept|exact Hdest].
Defined.

(** C9: the scratch copy of [scan001.pdf] is made at the first attempt,
    and the original is then readable. *)
Lemma C9_witness :
  copy_attempts (copies materialized)
    (fs (world_of [(scan001, "%PDF-1.7")]))
    (temp_file_for materialized scan001) 0 max_copy_retries
  = (true,
     <[temp_file_for materialized scan001 := File "%PDF-1.7"]>
       (fs (world_of [(scan001, "%PDF-1.7")])))
  ∧ (0 < size (<[temp_file_for materialized scan001 := File "%PDF-1.7"]>
                 (fs (world_of [(scan001, "%PDF-1.7")])))
              (temp_file_for materialized scan001))%nat
  ∧ ensure_file_downloaded materialized
      (fs (world_of [(scan001, "%PDF-1.7")])) scan001
    = (DTrue,
       delete (temp_file_for materialized scan001)
         (<[temp_file_for materialized scan001 := File "%PDF-1.7"]>
            (fs (world_of [(scan001, "%PDF-1.7")])))).
Proof.
  assert (copy_attempts (copies materialized)
            (fs (world_of [(scan001, "%PDF-1.7")]))
            (temp_file_for materialized scan001) 0 max_copy_retries
          = (true,
             <[temp_file_for materialized scan001 := File "%PDF-1.7"]>
               (fs (world_of [(scan001, "%PDF-1.7")])))) as Hcopy
    by reflexivity.
  assert (0 < size (<[temp_file_for materialized scan001 := File "%PDF-1.7"]>
                      (fs (world_of [(scan001, "%PDF-1.7")])))
                   (temp_file_for materialized scan001))%nat as Hsize.
  { unfold size. rewrite lookup_insert_eq. simpl. lia. }
  split_and!; [exact Hcopy|exact Hsize|].
  destruct (AvailabilityFacts.C9_scratch_copy_resolution
              materialized _ _ scan001 Hcopy Hsize) as (Hread & _).
  destruct (Hread eq_refl) as (m' & Hanswer & -> & _). exact Hanswer.
Defined.

(** C3 at the failing input: [scan001.pdf] is a scan, its original stays
    unreadable so that the scratch copy is used, and the OCR libraries are
    not installed.  The scratch copy is still there at the end. *)
Lemma C3_witness :
  ensure_file_downloaded (download (scan_without_ocr scratch_only))
    (fs (world_of [(scan001, "%PDF-1.7")])) scan001
  = (DTemp (temp_file_for scratch_only scan001),
     <[temp_file_for scratch_only scan001 := File "%PDF-1.7"]>
       (fs (world_of [(scan001, "%PDF-1.7")])))
  ∧ too_short
      (if too_short (stage_a (scan_without_ocr scratch_only))
       then stage_b (scan_without_ocr scratch_only)
              (stage_a (scan_without_ocr scratch_only))
       else stage_a (scan_without_ocr scratch_only)) = true
  ∧ stage_c (scan_without_ocr scratch_only) = None
  ∧ text_of (extract_text_from_pdf (scan_without_ocr scratch_only)
               (fs (world_of [(scan001, "%PDF-1.7")])) scan001)
    = EmptyString
  ∧ exists_
      (fs_of (extract_text_from_pdf (scan_without_ocr scratch_only)
                (fs (world_of [(scan001, "%PDF-1.7")])) scan001))
      (temp_file_for scratch_only scan001) = true.
Proof.
  assert (ensure_file_downloaded (download (scan_without_ocr scratch_only))
            (fs (world_of [(scan001, "%PDF-1.7")])) scan001
          = (DTemp (temp_file_for scratch_only scan001),
             <[temp_file_for scratch_only scan001 := File "%PDF-1.7"]>
               (fs (world_of [(scan001, "%PDF-1.7")])))) as Hdl.
  { apply (AvailabilityFacts.ensure_with_scratch scratch_only);
      [reflexivity|].
    unfold size. rewrite lookup_insert_eq. simpl. lia. }
  assert (too_short
            (if too_short (stage_a (scan_without_ocr scratch_only))
             then stage_b (scan_without_ocr scratch_only)
                    (stage_a (scan_without_ocr scratch_only))
             else stage_a (scan_without_ocr scratch_only)) = true)
    as Hshort by (vm_compute; reflexivity).
  assert (stage_c (scan_without_ocr scratch_only) = None)
    as Hocr by reflexivity.
  destruct (ExtractionFacts.C3_scratch_left_after_ocr_failure
              (scan_without_ocr scratch_only) _ _ scan001 _
              Hdl Hshort Hocr) as (Htext & _ & _ & Hthere & _).
  split_and!; [exact Hdl|exact Hshort|exact Hocr|exact Htext|exact Hthere].
Defined.

(** C5 at [2025-01-01 - x.pdf], classified as [Medical/Oliver]. *)
Lemma C5_witness :
  follows_format (name named_pdf) = true
  ∧ ∀ a,
      a ∈ (process_pdf texts
             (file_env (text_pdf materialized) (said "Medical/Oliver")
                       TimeoutExpired)
             (world_of [(named_pdf, "%PDF-1.7")]) named_pdf).2 →
      (∀ ans, a ≠ AskedFilename ans) ∧ (∀ src dst b, a ≠ Renamed src dst b).
Proof.
  assert (follows_format (name named_pdf) = true) as Hformat
    by (vm_compute; reflexivity).
  split; [exact Hformat|].
  exact (proj1 (DriverFacts.C5_formatted_name_is_kept texts
                  (file_env (text_pdf materialized) (said "Medical/Oliver")
                            TimeoutExpired)
                  (world_of [(named_pdf, "%PDF-1.7")]) named_pdf Hformat)).
Defined.

(** C8 at the failing input: [scan001.pdf] has text and is classified as
    [Misc]; the assistant times out on the filename. *)
Lemma C8_witness :
  truthy (text_of (extract_text_from_pdf (text_pdf materialized)
                     (fs (world_of [(scan001, "%PDF-1.7")])) scan001))
  = true
  ∧ follows_format (name scan001) = false
  ∧ Classifier.fails texts TimeoutExpired
  ∧ process_pdf texts
      (file_env (text_pdf materialized) (said "Misc") TimeoutExpired)
      (world_of [(scan001, "%PDF-1.7")]) scan001
    = (mkWorld
         (fs_of (extract_text_from_pdf (text_pdf materialized)
                   (fs (world_of [(scan001, "%PDF-1.7")])) scan001))
         None,
       [Classified (Some "Misc") None; AskedFilename None]).
Proof.
  assert (truthy (text_of (extract_text_from_pdf (text_pdf materialized)
                             (fs (world_of [(scan001, "%PDF-1.7")]))
                             scan001)) = true) as Htext
    by (vm_compute; reflexivity).
  assert (follows_format (name scan001) = false) as Hformat
    by (vm_compute; reflexivity).
  assert (Classifier.classify_file_category texts
            (assistant (said "Misc") TimeoutExpired)
            (text_of (extract_text_from_pdf (text_pdf materialized)
                        (fs (world_of [(scan001, "%PDF-1.7")])) scan001))
          = (Some "Misc", None)) as Hanswer by (vm_compute; reflexivity).
  assert (Classifier.generate_filename texts
            (assistant (said "Misc") TimeoutExpired)
            (text_of (extract_text_from_pdf (text_pdf materialized)
                        (fs (world_of [(scan001, "%PDF-1.7")])) scan001))
            "2025-01-01"
          = None) as Hname by (vm_compute; reflexivity).
  split_and!; [exact Htext|exact Hformat|exact I|].
  destruct (DriverFacts.C8_no_filename_no_filing texts
              (file_env (text_pdf materialized) (said "Misc") TimeoutExpired)
              (world_of [(scan001, "%PDF-1.7")]) scan001 Htext Hformat)
    as (_ & Hrun).
  - vm_compute. exact I.
  - rewrite Hrun. cbn [extraction shortcuts_run created_date file_env].
    by rewrite Hanswer, Hname.
Defined.

(** C8 at the failing input, read off the world: the document was
    classified, its destination is the catch-all folder, and after the
    run it is still in the inbox, the destination is empty and there is
    no audit log. *)
Lemma C8_failing_input :
  let run :=
    process_pdf texts
      (file_env (text_pdf materialized) (said "Misc") TimeoutExpired)
      (world_of [(scan001, "%PDF-1.7")]) scan001 in
  run.2 = [Classified (Some "Misc") None; AskedFilename None]
  ∧ get_folder_path_for_category "Misc" None = MISC_FOLDER
  ∧ fs run.1 !! scan001 = Some (File "%PDF-1.7")
  ∧ fs run.1 !! (MISC_FOLDER </> "scan001.pdf") = None
  ∧ audit run.1 = None.
Proof. by vm_compute. Qed.

(** C5, as stated, fails at [2025-01-01 - x.pdf] in two ways.  With text
    extracted and an assistant that times out on the classification,
    nothing is filed: the file stays in the inbox and no audit record is
    written.  With no text extracted, nothing is classified either. *)
Lemma C5_counterexample :
  follows_format (name named_pdf) = true
  ∧ (let run :=
       process_pdf texts
         (file_env (text_pdf materialized) TimeoutExpired TimeoutExpired)
         (world_of [(named_pdf, "%PDF-1.7")]) named_pdf in
     run.2 = [Classified None None]
     ∧ fs run.1 !! named_pdf = Some (File "%PDF-1.7")
     ∧ audit run.1 = None)
  ∧ (let run :=
       process_pdf texts
         (file_env (blank_pdf materialized) (said "Misc") TimeoutExpired)
         (world_of [(named_pdf, "%PDF-1.7")]) named_pdf in
     run.2 = []
     ∧ fs run.1 !! named_pdf = Some (File "%PDF-1.7")
     ∧ audit run.1 = None).
Proof. by vm_compute. Qed.

(** C2 at two documents: one with a text layer, one blank. *)
Example cascade_runs :
  events_of (extract_text_from_pdf (text_pdf materialized)
               (fs (world_of [(scan001, "%PDF-1.7")])) scan001)
  = [StageA]
  ∧ events_of (extract_text_from_pdf (blank_pdf materialized)
                 (fs (world_of [(scan001, "%PDF-1.7")])) scan001)
    = [StageA; StageB; StageC].
Proof. by vm_compute. Qed.

(** C6 at two appends to a log that held one record. *)
Example log_after_two_appends :
  Audit.append_all
    (Some [Audit.HEADER; ["t0"; "a.pdf"; "a.pdf"; "/x"]])
    [Audit.mkAppend "t1" "b.pdf" "b.pdf" (PurePath.of_string "/x");
     Audit.mkAppend "t2" "c.pdf" "d.pdf" (PurePath.of_string "/y")]
  = Some [Audit.HEADER;
          ["t2"; "c.pdf"; "d.pdf"; "/y"];
          ["t1"; "b.pdf"; "b.pdf"; "/x"];
          ["t0"; "a.pdf"; "a.pdf"; "/x"]].
Proof. by vm_compute. Qed.

End Witnesses.

(** * Further properties *)

(** ** Trimming *)

Module TrimFacts.
Import PyStr.

Lemma app_assoc (a b c : string) : (a +:+ b) +:+ c = a +:+ (b +:+ c).
Proof.
  induction a as [|x a IH]; [done|].
  change (String x ((a +:+ b) +:+ c) = String x (a +:+ (b +:+ c))).
  by f_equal.
Qed.

Lemma rstrip_idem P s : rstrip P (rstrip P s) = rstrip P s.
Proof.
  induction s as [|c s IH]; simpl; [done|].
  destruct (rstrip P s) as [|c' r] eqn:Hr.
  - destruct (P c) eqn:Hc; simpl; [done|]. by rewrite Hc.
  - simpl in *. by rewrite IH.
Qed.

Lemma lstrip_idem P s : lstrip P (lstrip P s) = lstrip P s.
Proof.
  induction s as [|c s IH]; simpl; [done|].
  destruct (P c) eqn:Hc; [done|]. simpl. by rewrite Hc.
Qed.

(** Stripping on the left keeps a string clean on the right. *)
Lemma lstrip_keeps_right P s :
  rstrip P s = s → rstrip P (lstrip P s) = lstrip P s.
Proof.
  induction s as [|c s IH]; simpl; [done|].
  destruct (P c) eqn:Hc; [|intros Hclean; simpl; by rewrite Hc].
  intros Hclean. apply IH. destruct (rstrip P s) as [|c' r] eqn:Hr.
  - done.
  - by injection Hclean.
Qed.

(** [s.strip(chars).strip(chars)] is [s.strip(chars)]. *)
Lemma strip_idem P s : strip P (strip P s) = strip P s.
Proof.
  unfold strip.
  rewrite (lstrip_keeps_right P (rstrip P s)) by apply rstrip_idem.
  apply lstrip_idem.
Qed.

(** A stripped string neither starts nor ends with a stripped
    character. *)
Lemma lstrip_head P s c rest : lstrip P s = String c rest → P c = false.
Proof.
  induction s as [|c' s IH]; simpl; [done|].
  destruct (P c') eqn:Hc; [done|]. by intros [= <- _].
Qed.

(** The answer of the assistant reaches the callers trimmed: stripping it
    again changes nothing, and it does not begin with white space. *)
Theorem answer_is_trimmed
    (texts : Texts) (shortcuts_run : string → ProcOutcome)
    (prompt answer : string) :
  Classifier.call_chatgpt_shortcut texts shortcuts_run prompt = Some answer →
  strip isspace answer = answer
  ∧ ∀ c rest, answer = String c rest → isspace c = false.
Proof.
  unfold Classifier.call_chatgpt_shortcut.
  destruct (shortcuts_run prompt) as [rc out err| |]; [|done|done].
  destruct (bool_decide (rc = 0%Z)); [|done].
  intros [= <-]. split; [apply strip_idem|].
  intros c rest Heq. unfold strip in Heq. by apply lstrip_head in Heq.
Qed.

End TrimFacts.

(** ** The parser, beyond the prefix rule *)

Module ParserFacts.
Import PyStr Classifier Readings.

(** The parse of an answer, written again as one string, is the answer
    after the three strips: nothing of the response is lost. *)
Lemma parse_rejoins result :
  rejoined (parse_classification result) = Some (cleaned result).
Proof.
  unfold parse_classification. fold (cleaned result).
  pose proof (PyStrFacts.join_split slash (cleaned result)) as Hjoin.
  destruct (split slash (cleaned result)) as [|p0 [|p1 [|p2 rest]]].
  - done.
  - simpl in *. by rewrite Hjoin.
  - destruct (in_CATEGORY_STRUCTURE _); simpl; by rewrite <- Hjoin.
  - destruct (in_CATEGORY_STRUCTURE _); simpl; rewrite <- Hjoin.
    + change (join (String slash EmptyString) (p0 :: p1 :: p2 :: rest))
        with (p0 +:+ "/" +:+ (p1 +:+ "/" +:+ join "/" (p2 :: rest))).
      by rewrite !TrimFacts.app_assoc.
    + done.
Qed.

(** A category that the parser returns has a slash only when it is a key
    of the taxonomy. *)
Lemma parsed_slash_is_key result category subcategory :
  parse_classification result = (Some category, subcategory) →
  has_char slash category = true →
  in_CATEGORY_STRUCTURE category = true.
Proof.
  unfold parse_classification. fold (cleaned result).
  pose proof (PyStrFacts.split_pieces_free slash (cleaned result)) as Hfree.
  pose proof (PyStrFacts.split_nonempty slash (cleaned result)) as Hne.
  destruct (split slash (cleaned result)) as [|p0 [|p1 [|p2 rest]]];
    [done| | |].
  - intros [= <- _] Hslash. inversion Hfree; congruence.
  - destruct (in_CATEGORY_STRUCTURE _) eqn:Hkey.
    + by intros [= <- _].
    + intros [= <- _] Hslash. inversion Hfree; congruence.
  - destruct (in_CATEGORY_STRUCTURE _) eqn:Hkey.
    + by intros [= <- _].
    + intros [= <- _] Hslash. inversion Hfree; congruence.
Qed.

(** Whatever [classify_file_category] returns comes from the parser or
    is the pair of two [None]s. *)
Lemma classify_cases texts shortcuts_run file_contents :
  classify_file_category texts shortcuts_run file_contents = (None, None)
  ∨ ∃ result,
      call_chatgpt_shortcut texts shortcuts_run
        (classify_prompt texts file_contents) = Some result
      ∧ truthy result = true
      ∧ classify_file_category texts shortcuts_run file_contents
        = parse_classification result.
Proof.
  unfold classify_file_category.
  destruct (call_chatgpt_shortcut _ _ _) as [result|]; [|by left].
  destruct (truthy result) eqn:Hres; [|by left].
  right. by exists result.
Qed.

(** Classification loses nothing of the answer: the category and the
    subcategory that [classify_file_category] returns, joined by a slash
    again, are the answer of the assistant with its quotes stripped. *)
Theorem classification_is_lossless
    (texts : Texts) (shortcuts_run : string → ProcOutcome)
    (file_contents result : string) :
  call_chatgpt_shortcut texts shortcuts_run
    (classify_prompt texts file_contents) = Some result →
  truthy result = true →
  rejoined (classify_file_category texts shortcuts_run file_contents)
  = Some (cleaned result).
Proof.
  intros Hcall Hres.
  rewrite (ClassifierFacts.classify_parses _ _ _ _ Hcall Hres).
  apply parse_rejoins.
Qed.

(** A category with a slash in it is returned only when it is a key of
    the taxonomy; every other category returned is free of slashes. *)
Theorem slashed_category_is_known
    (texts : Texts) (shortcuts_run : string → ProcOutcome)
    (file_contents category : string) (subcategory : option string) :
  classify_file_category texts shortcuts_run file_contents
  = (Some category, subcategory) →
  has_char slash category = true →
  in_CATEGORY_STRUCTURE category = true.
Proof.
  intros Hanswer Hslash.
  destruct (classify_cases texts shortcuts_run file_contents)
    as [Hnone|(result & _ & _ & Hparse)].
  - by rewrite Hnone in Hanswer.
  - rewrite Hparse in Hanswer.
    by apply (parsed_slash_is_key _ _ _ Hanswer).
Qed.

(** When the assistant fails on the classification prompt (a timeout, an
    exit code other than zero, an empty response), the classifier
    returns no category and no subcategory. *)
Theorem failed_assistant_gives_no_category
    (texts : Texts) (shortcuts_run : string → ProcOutcome)
    (file_contents : string) :
  fails texts (shortcuts_run (classify_prompt texts file_contents)) →
  classify_file_category texts shortcuts_run file_contents = (None, None).
Proof.
  intros Hfails. apply ClassifierFacts.classify_absent.
  by apply DriverFacts.failure_is_absence.
Qed.

End ParserFacts.

(** ** The resolver of destination folders, beyond the catch-all *)

Module ResolverFacts.
Import PyStr PurePath Readings.

Lemma root_of_slash_free s :
  has_char slash s = false → root_of s = EmptyString.
Proof.
  destruct s as [|c s]; [done|]. simpl.
  destruct (Ascii.eqb_spec c slash) as [->|Hne]; [done|].
  intros _. destruct c as [[] [] [] [] [] [] [] []]; try done.
Qed.

Lemma joinpath_rootless p s :
  root_of s = EmptyString →
  p </> s = mkPath (root p) (parts p ++ parts (of_string s)).
Proof. intros Hroot. unfold joinpath, of_string. simpl. by rewrite Hroot. Qed.

Lemma joinpath_rooted p s :
  truthy (root_of s) = true → p </> s = of_string s.
Proof. intros Hroot. unfold joinpath, of_string. simpl. by rewrite Hroot. Qed.

Lemma below_refl base : below base base.
Proof. split; [done|]. exists []. by rewrite app_nil_r. Qed.

Lemma below_join base p s :
  below base p → root_of s = EmptyString → below base (p </> s).
Proof.
  intros [Hroot [more Hparts]] Hs. rewrite (joinpath_rootless _ _ Hs).
  split; [done|]. simpl. rewrite Hparts.
  exists (more ++ parts (of_string s)). by rewrite app_assoc.
Qed.

Lemma below_with_subcategory base p subcategory :
  below base p →
  (∀ s, subcategory = Some s → root_of s = EmptyString) →
  below base (with_subcategory p subcategory).
Proof.
  intros Hp Hs. unfold with_subcategory.
  destruct subcategory as [s|]; [|done].
  destruct (truthy s); [|done]. apply below_join; [done|]. by apply Hs.
Qed.

(** The folder names of the two remapping tables have no root. *)
Lemma folder_names_rootless k v :
  folder_name_map !! k = Some v → root_of v = EmptyString.
Proof.
  unfold folder_name_map. intros H%elem_of_list_to_map_2.
  repeat (apply elem_of_cons in H as [H|H];
          [injection H as Hk Hv; by subst|]).
  by apply elem_of_nil in H.
Qed.

Lemma subcat_folders_rootless k v :
  subcat_folder_map !! k = Some v → root_of v = EmptyString.
Proof.
  unfold subcat_folder_map. intros H%elem_of_list_to_map_2.
  repeat (apply elem_of_cons in H as [H|H];
          [injection H as Hk Hv; by subst|]).
  by apply elem_of_nil in H.
Qed.

(** The second piece of a split, or the empty string, has no root. *)
Lemma second_piece_rootless s :
  root_of (default EmptyString (split slash s !! 1%nat)) = EmptyString.
Proof.
  destruct (split slash s !! 1%nat) as [p|] eqn:Hp; [|done]. simpl.
  apply root_of_slash_free.
  pose proof (PyStrFacts.split_pieces_free slash s) as Hfree.
  rewrite Forall_forall in Hfree. apply Hfree.
  by apply list_elem_of_lookup_2 in Hp.
Qed.

(** Two prefixes of one string begin with the same character. *)
Lemma prefix_heads a p b q s :
  String.prefix (String a p) s = true →
  String.prefix (String b q) s = true → a = b.
Proof.
  destruct s as [|c s]; [done|]. simpl.
  destruct (Ascii.ascii_dec a c) as [->|]; [|done].
  by destruct (Ascii.ascii_dec b c) as [->|].
Qed.

(** For every category, known or not, and every subcategory that is
    absent or does not begin with a slash, the resolved folder lies below
    the documents base path: the base path's components are a prefix of
    its components. *)
Theorem resolved_folder_below_base
    (category : string) (subcategory : option string) :
  (∀ s, subcategory = Some s → root_of s = EmptyString) →
  below DOCUMENTS_BASE_PATH
        (get_folder_path_for_category category subcategory).
Proof.
  intros Hsub. unfold get_folder_path_for_category.
  pose proof (second_piece_rootless category) as Hpart.
  pose proof (below_refl DOCUMENTS_BASE_PATH) as Hbase.
  repeat match goal with
         | |- below _ (if ?b then _ else _) => destruct b
         end;
    try (apply below_with_subcategory; [|done]);
    try (by repeat (apply below_join; [|done])).
  assert (below DOCUMENTS_BASE_PATH
            (DOCUMENTS_BASE_PATH </> "Financial"
               </> default (default EmptyString
                              (split slash category !! 1%nat))
                     (folder_name_map
                        !! default EmptyString
                             (split slash category !! 1%nat)))) as Hfin.
  { apply below_join; [by apply below_join|].
    destruct (folder_name_map !! _) as [v|] eqn:Hv; simpl; [|done].
    by apply folder_names_rootless in Hv. }
  destruct subcategory as [s|]; [|done].
  destruct (truthy s); [|done].
  apply below_join; [done|].
  destruct (subcat_folder_map !! s) as [v|] eqn:Hv; simpl.
  - by apply subcat_folders_rootless in Hv.
  - by apply Hsub.
Qed.

(** A subcategory that begins with a slash replaces the whole
    destination: for the categories [Medical], [Career] and [Cars] the
    resolved folder is then the subcategory read as a path, outside the
    documents base path. *)
Theorem rooted_subcategory_replaces_folder
    (category subcategory : string) :
  category = "Medical" ∨ category = "Career" ∨ category = "Cars" →
  truthy (root_of subcategory) = true →
  get_folder_path_for_category category (Some subcategory)
  = of_string subcategory.
Proof.
  intros Hcat Hroot.
  assert (truthy subcategory = true) as Htruthy.
  { by destruct subcategory. }
  destruct Hcat as [Hc|[Hc|Hc]]; subst category;
    unfold get_folder_path_for_category, with_subcategory;
    cbn [String.eqb Ascii.eqb Bool.eqb startswith String.prefix];
    rewrite ?Htruthy; by apply joinpath_rooted.
Qed.

(** A category under [Kids/] or [Personal/] is resolved without regard to
    the subcategory. *)
Theorem kids_and_personal_ignore_subcategory
    (category : string) (subcategory : option string) :
  startswith "Kids/" category = true
  ∨ startswith "Personal/" category = true →
  get_folder_path_for_category category subcategory
  = get_folder_path_for_category category None.
Proof.
  intros Hprefix. unfold get_folder_path_for_category.
  assert (String.eqb category "Medical" = false
          ∧ startswith "Financial/" category = false
          ∧ String.eqb category "Career" = false
          ∧ String.eqb category "Cars" = false) as (Hm & Hf & Hca & Hcs).
  { split_and!.
    - destruct (String.eqb_spec category "Medical") as [->|]; [|done].
      by destruct Hprefix as [H|H]; vm_compute in H.
    - destruct (startswith "Financial/" category) eqn:Hf; [|done].
      by destruct Hprefix as [H|H];
        pose proof (prefix_heads _ _ _ _ _ Hf H).
    - destruct (String.eqb_spec category "Career") as [->|]; [|done].
      by destruct Hprefix as [H|H]; vm_compute in H.
    - destruct (String.eqb_spec category "Cars") as [->|]; [|done].
      by destruct Hprefix as [H|H]; vm_compute in H. }
  rewrite Hm, Hf, Hca, Hcs.
  destruct (startswith "Kids/" category) eqn:Hk; [done|].
  destruct Hprefix as [?|Hp]; [done|]. by rewrite Hp.
Qed.

End ResolverFacts.

(** ** Moving a file, beyond collisions *)

Module MoveFacts.
Import PurePath FS Filing FSFacts.

(** The guard of [move_file_to_destination] lets a rename through only
    onto a free path or onto the file itself. *)
Lemma guard_passed (m : gmap Path Node) dest_file source_file :
  exists_ m dest_file && negb (bool_decide (dest_file = source_file))
  = false →
  dest_file = source_file ∨ m !! dest_file = None.
Proof.
  intros [Hex|Hsame]%andb_false_iff.
  - right. destruct (m !! dest_file) eqn:E; [|done].
    by rewrite (exists_Some _ _ _ E) in Hex.
  - left. by apply negb_false_iff, bool_decide_eq_true in Hsame.
Qed.

(** What [rename] leaves in place when the target is free or is the file
    itself. *)
Lemma rename_keeps_others (m m' : gmap Path Node) src dst p n :
  dst = src ∨ m !! dst = None →
  rename m src dst = Some m' →
  p ≠ src → m !! p = Some n → m' !! p = Some n.
Proof.
  intros Hdst Hren Hp Hn. unfold rename in Hren.
  destruct (m !! src) as [[c|]|]; [|done|done].
  destruct (decide (src = dst)) as [|Hne]; [by injection Hren as <-|].
  destruct Hdst as [->|Hfree]; [done|]. rewrite Hfree in Hren.
  injection Hren as <-.
  rewrite lookup_insert_ne, lookup_delete_ne; [done|done|].
  intros ->. by rewrite Hfree in Hn.
Qed.

(** A call of [move_file_to_destination] that returns false writes no
    audit record: the log is as it was. *)
Theorem failed_move_writes_no_record
    (env : MoveEnv) (w w' : World) (source_file : Path)
    (dest_folder : option Path) (original_filename : option string) :
  move_file_to_destination env w source_file dest_folder original_filename
  = (false, w') →
  audit w' = audit w.
Proof.
  unfold move_file_to_destination.
  destruct dest_folder as [d|]; [|by intros [= <-]].
  destruct (if mkdir_raises env then None else mkdir_parents (fs w) d)
    as [m1|]; [|by intros [= <-]].
  destruct (exists_ m1 _ && negb _); [by intros [= <-]|].
  destruct (if rename_raises env then None else rename m1 _ _)
    as [m2|]; [|by intros [= <-]].
  destruct (log_raises env); [by intros [= <-]|done].
Qed.

(** [move_file_to_destination] leaves every path but that of its file
    as it was, where something was. *)
Lemma move_others
    (env : MoveEnv) (w : World) (source_file : Path)
    (dest_folder : option Path) (original_filename : option string)
    (p : Path) (n : Node) :
  p ≠ source_file →
  fs w !! p = Some n →
  fs (move_file_to_destination env w source_file dest_folder
        original_filename).2 !! p = Some n.
Proof.
  intros Hp Hn. unfold move_file_to_destination.
  destruct dest_folder as [d|]; [|done].
  destruct (mkdir_raises env); [done|].
  destruct (mkdir_parents (fs w) d) as [m1|] eqn:Hmk; [|done].
  destruct (mkdir_fold_spec _ _ _ Hmk) as (Hkeep & _ & _).
  pose proof (Hkeep _ _ Hn) as Hn1.
  destruct (exists_ m1 _ && negb _) eqn:Hguard; [done|].
  apply guard_passed in Hguard.
  destruct (rename_raises env); [done|].
  destruct (rename m1 source_file _) as [m2|] eqn:Hren; [|done].
  pose proof (rename_keeps_others _ _ _ _ _ _ Hguard Hren Hp Hn1) as Hn2.
  by destruct (log_raises env).
Qed.




(** When only the writing of the log fails, the call returns false
    although the file has been moved: the file is at the destination and
    no longer at its source, and the log has no record of it. *)
Theorem log_failure_moves_without_record
    (env : MoveEnv) (w : World) (source_file d : Path) (content : string)
    (original_filename : option string) :
  single_component (name source_file) →
  fs w !! source_file = Some (File content) →
  fs w !! (d </> name source_file) = None →
  is_Some (mkdir_parents (fs w) d) →
  mkdir_raises env = false →
  rename_raises env = false →
  log_raises env = true →
  ∃ w',
    move_file_to_destination env w source_file (Some d) original_filename
    = (false, w')
    ∧ fs w' !! (d </> name source_file) = Some (File content)
    ∧ fs w' !! source_file = None
    ∧ audit w' = audit w.
Proof.
  intros Hsingle Hsrc Hfree [m1 Hmk] Hm Hr Hl.
  destruct (mkdir_fold_spec _ _ _ Hmk) as (Hkeep & Hout & _).
  assert (m1 !! (d </> name source_file) = None) as Hfree1.
  { rewrite Hout; [done|]. rewrite (joinpath_single _ _ Hsingle).
    apply longer_not_in_chain. }
  assert (source_file ≠ d </> name source_file) as Hne.
  { intros E. rewrite <- E in Hfree. by rewrite Hfree in Hsrc. }
  eexists. unfold move_file_to_destination.
  rewrite Hm, Hmk, Hr, Hl, (exists_None _ _ Hfree1). simpl.
  unfold rename. rewrite (Hkeep _ _ Hsrc), Hfree1.
  rewrite decide_False by done. split_and!; [done| | |done]; simpl.
  - by rewrite lookup_insert_eq.
  - rewrite lookup_insert_ne by done. by rewrite lookup_delete_eq.
Qed.

End MoveFacts.

(** ** The availability resolver, beyond the scratch copy *)

Module ResolverScratchFacts.
Import PurePath FS Availability FSFacts.

Lemma leave_others (m : gmap Path Node) temp_file left_behind p :
  p ≠ temp_file → leave m temp_file left_behind !! p = m !! p.
Proof.
  intros Hp. unfold leave. destruct left_behind; [|done].
  by rewrite lookup_insert_ne.
Qed.

(** The copy loop writes the scratch path only. *)
Lemma copy_attempts_others copies temp_file p remaining :
  ∀ (m : gmap Path Node) attempt copied m',
  p ≠ temp_file →
  copy_attempts copies m temp_file attempt remaining = (copied, m') →
  m' !! p = m !! p.
Proof.
  induction remaining as [|r IH]; intros m attempt copied m' Hp; simpl.
  - by intros [= _ <-].
  - destruct (copies attempt) as [data|left_behind|left_behind].
    + intros [= _ <-]. by rewrite lookup_insert_ne.
    + destruct (attempt <? _)%nat.
      * intros H. rewrite (IH _ _ _ _ Hp H). by apply leave_others.
      * intros [= _ <-]. by apply leave_others.
    + intros [= _ <-]. by apply leave_others.
Qed.

(** A copy loop that is left normally within its five rounds has just
    written the scratch file. *)
Lemma copy_attempts_wrote copies temp_file remaining :
  ∀ (m : gmap Path Node) attempt m',
  attempt + remaining = max_copy_retries →
  (0 < remaining)%nat →
  copy_attempts copies m temp_file attempt remaining = (true, m') →
  ∃ data, m' !! temp_file = Some (File data).
Proof.
  induction remaining as [|r IH]; intros m attempt m' Hsum Hpos; [lia|].
  simpl. destruct (copies attempt) as [data|left_behind|left_behind].
  - intros [= <-]. exists data. by rewrite lookup_insert_eq.
  - destruct (attempt <? _)%nat eqn:Hlt; [|done].
    apply Nat.ltb_lt in Hlt. unfold max_copy_retries in *.
    apply IH; lia.
  - done.
Qed.

(** The loops look at the attempts below their bound only. *)
Lemma copy_attempts_bounded copies copies' temp_file remaining :
  ∀ (m : gmap Path Node) attempt,
  (∀ i, (attempt ≤ i < attempt + remaining)%nat → copies i = copies' i) →
  copy_attempts copies m temp_file attempt remaining
  = copy_attempts copies' m temp_file attempt remaining.
Proof.
  induction remaining as [|r IH]; intros m attempt Hagree; [done|].
  simpl. rewrite <- (Hagree attempt) by lia.
  destruct (copies attempt); [done| |done].
  destruct (attempt <? _)%nat; [|done].
  apply IH. intros i Hi. apply Hagree. lia.
Qed.

Lemma read_attempts_bounded reads reads' (m : gmap Path Node) file_path
    remaining :
  ∀ attempt,
  (∀ i, (attempt ≤ i < attempt + remaining)%nat → reads i = reads' i) →
  read_attempts reads m file_path attempt remaining
  = read_attempts reads' m file_path attempt remaining.
Proof.
  induction remaining as [|r IH]; intros attempt Hagree; [done|].
  simpl. rewrite <- (Hagree attempt) by lia.
  destruct (reads attempt); [done| |done].
  destruct (attempt <? _)%nat; [|done].
  apply IH. intros i Hi. apply Hagree. lia.
Qed.

Lemma unlink_others (m m' : gmap Path Node) q p :
  unlink m q = Some m' → p ≠ q → m' !! p = m !! p.
Proof.
  unfold unlink. destruct (m !! q) as [[c|]|]; [|done|done].
  intros [= <-] Hp. by rewrite lookup_delete_ne.
Qed.

Lemma unlink_gone (m m' : gmap Path Node) q :
  unlink m q = Some m' → m' !! q = None.
Proof.
  unfold unlink. destruct (m !! q) as [[c|]|]; [|done|done].
  intros [= <-]. by rewrite lookup_delete_eq.
Qed.

Lemma unlink_file (m : gmap Path Node) q data :
  m !! q = Some (File data) → unlink m q = Some (delete q m).
Proof. intros H. unfold unlink. by rewrite H. Qed.

Lemma verify_others env (m m' : gmap Path Node) temp_file answer p :
  verify_scratch env m temp_file = (answer, m') →
  p ≠ temp_file → m' !! p = m !! p.
Proof.
  unfold verify_scratch. intros H Hp.
  repeat match type of H with
         | (if ?b then _ else _) = _ => destruct b
         | match unlink ?a ?b with _ => _ end = _ =>
             destruct (unlink a b) eqn:Hu
         end;
    injection H as _ <-; try done;
    by apply (unlink_others _ _ _ _ Hu).
Qed.

(** The resolver writes and deletes the scratch path only. *)
Lemma ensure_others
    (env : DownloadEnv) (m : gmap Path Node) (file_path p : Path) :
  p ≠ temp_file_for env file_path →
  (ensure_file_downloaded env m file_path).2 !! p = m !! p.
Proof.
  intros Hp. unfold ensure_file_downloaded.
  destruct (copy_attempts _ _ _ _ _) as [copied m1] eqn:Hcopy.
  pose proof (copy_attempts_others _ _ _ _ _ _ _ _ Hp Hcopy) as H1.
  destruct copied.
  - destruct (verify_scratch _ _ _) as [answer m2] eqn:Hv.
    pose proof (verify_others _ _ _ _ _ _ Hv Hp) as H2.
    destruct answer as [r|]; simpl; [by rewrite H2|].
    destruct (exists_ m2 _); simpl; [|by rewrite H2].
    destruct (cleanup_unlink_raises env); simpl; [by rewrite H2|].
    destruct (unlink m2 _) as [m3|] eqn:Hu; simpl; [|by rewrite H2].
    by rewrite (unlink_others _ _ _ _ Hu Hp), H2.
  - simpl. destruct (exists_ m1 _); simpl; [|done].
    destruct (cleanup_unlink_raises env); simpl; [done|].
    destruct (unlink m1 _) as [m3|] eqn:Hu; simpl; [|done].
    by rewrite (unlink_others _ _ _ _ Hu Hp).
Qed.

(** The resolver leaves no scratch file behind unless it hands it to the
    caller: when the answer is not the scratch path and the deletion in
    the handler does not raise, the scratch path holds no regular file
    afterwards. *)
Theorem no_scratch_left_unless_handed_over
    (env : DownloadEnv) (m m' : gmap Path Node) (file_path : Path)
    (answer : DownloadResult) :
  ensure_file_downloaded env m file_path = (answer, m') →
  answer ≠ DTemp (temp_file_for env file_path) →
  cleanup_unlink_raises env = false →
  ∀ data, m' !! temp_file_for env file_path ≠ Some (File data).
Proof.
  unfold ensure_file_downloaded.
  destruct (copy_attempts _ _ _ _ _) as [copied m1] eqn:Hcopy.
  intros Hrun Hanswer Hclean data.
  assert (∀ m2, m' = (if exists_ m2 (temp_file_for env file_path)
                      then default m2 (unlink m2 (temp_file_for env file_path))
                      else m2) →
                m' !! temp_file_for env file_path ≠ Some (File data))
    as Hcleanup.
  { intros m2 ->. destruct (exists_ m2 _) eqn:Hex.
    - destruct (unlink m2 _) as [m3|] eqn:Hu; simpl.
      + by rewrite (unlink_gone _ _ _ Hu).
      + unfold unlink in Hu.
        by destruct (m2 !! temp_file_for env file_path) as [[c|]|].
    - destruct (m2 !! temp_file_for env file_path) eqn:E; [|done].
      by rewrite (exists_Some _ _ _ E) in Hex. }
  rewrite Hclean in Hrun.
  destruct copied.
  - destruct (copy_attempts_wrote _ _ max_copy_retries _ 0%nat _ eq_refl
                ltac:(unfold max_copy_retries; lia) Hcopy)
      as (written & Hfile).
    unfold verify_scratch in Hrun. rewrite (exists_Some _ _ _ Hfile) in Hrun.
    rewrite (unlink_file _ _ _ Hfile) in Hrun. simpl in Hrun.
    destruct (0 <? size m1 _)%nat.
    + destruct (original_readable env).
      * injection Hrun as _ <-. by rewrite lookup_delete_eq.
      * by injection Hrun as <- _.
    + injection Hrun as _ <-. by rewrite lookup_delete_eq.
  - apply (Hcleanup m1). by injection Hrun as _ <-.
Qed.

(** The retries are bounded: the answer of the resolver depends on the
    first five copy attempts and the first five direct reads only. *)
Theorem resolver_retries_are_bounded
    (env env' : DownloadEnv) (m : gmap Path Node) (file_path : Path) :
  tempdir env' = tempdir env →
  original_readable env' = original_readable env →
  cleanup_unlink_raises env' = cleanup_unlink_raises env →
  (∀ i, (i < 5)%nat → copies env' i = copies env i) →
  (∀ i, (i < 5)%nat → reads env' i = reads env i) →
  ensure_file_downloaded env' m file_path
  = ensure_file_downloaded env m file_path.
Proof.
  intros Htmp Hread Hclean Hcopies Hreads.
  unfold ensure_file_downloaded, temp_file_for, verify_scratch.
  rewrite Htmp, Hread, Hclean.
  rewrite (copy_attempts_bounded (copies env') (copies env)).
  2: { intros i Hi. apply Hcopies. unfold max_copy_retries in Hi. lia. }
  destruct (copy_attempts _ _ _ _ _) as [copied m1].
  assert (∀ m3, read_attempts (reads env') m3 file_path 0 max_retries
                = read_attempts (reads env) m3 file_path 0 max_retries)
    as Hsame.
  { intros m3. apply read_attempts_bounded. intros i Hi.
    apply Hreads. unfold max_retries in Hi. lia. }
  destruct copied; [|by rewrite Hsame].
  repeat match goal with
         | |- context [if ?b then _ else _] =>
             lazymatch b with
             | read_attempts _ _ _ _ _ => fail
             | _ => destruct b
             end
         | |- context [match unlink ?a ?b with _ => _ end] =>
             destruct (unlink a b)
         end; by rewrite ?Hsame.
Qed.

(** A copy that goes through but is empty ends the resolver at once:
    the answer is False and the empty scratch file is deleted, whatever
    the direct reads of the third method would give. *)
Theorem empty_copy_gives_up
    (env : DownloadEnv) (m m1 : gmap Path Node) (file_path : Path) :
  copy_attempts (copies env) m (temp_file_for env file_path) 0
    max_copy_retries = (true, m1) →
  size m1 (temp_file_for env file_path) = 0%nat →
  ensure_file_downloaded env m file_path
  = (DFalse, delete (temp_file_for env file_path) m1).
Proof.
  intros Hcopy Hsize.
  destruct (copy_attempts_wrote _ _ max_copy_retries _ 0%nat _ eq_refl
              ltac:(unfold max_copy_retries; lia) Hcopy) as (data & Hfile).
  unfold ensure_file_downloaded. rewrite Hcopy.
  unfold verify_scratch. rewrite (exists_Some _ _ _ Hfile), Hsize. simpl.
  by rewrite (unlink_file _ _ _ Hfile).
Qed.

End ResolverScratchFacts.

(** ** The text extractor, beyond the cascade *)

Module ExtractorFacts.
Import PyStr PurePath FS Availability Extraction FSFacts.

Lemma finish_text env m use_temp p text events :
  text_of (finish env m use_temp p text events) = strip isspace text.
Proof.
  unfold finish. destruct (use_temp && exists_ m p); [|done].
  by destruct (if unlink_raises env then None else unlink m p).
Qed.

Lemma finish_others env (m : gmap Path Node) use_temp p text events q :
  q ≠ p → fs_of (finish env m use_temp p text events) !! q = m !! q.
Proof.
  intros Hq. unfold finish. destruct (use_temp && exists_ m p); [|done].
  destruct (unlink_raises env); [done|].
  destruct (unlink m p) as [m'|] eqn:Hu; [|done]. simpl.
  by apply (ResolverScratchFacts.unlink_others _ _ _ _ Hu).
Qed.

Lemma finish_keeps_events env m use_temp p text events e :
  e ∈ events → e ∈ events_of (finish env m use_temp p text events).
Proof.
  intros He. unfold finish. destruct (use_temp && exists_ m p); [|done].
  destruct (if unlink_raises env then None else unlink m p); simpl;
    apply elem_of_app; by left.
Qed.

(** The text that [extract_text_from_pdf] returns is trimmed on every
    path: stripping it again changes nothing. *)
Theorem extracted_text_is_trimmed
    (env : ExtractEnv) (m : gmap Path Node) (pdf_path : Path) :
  strip isspace (text_of (extract_text_from_pdf env m pdf_path))
  = text_of (extract_text_from_pdf env m pdf_path).
Proof.
  unfold extract_text_from_pdf.
  destruct (ensure_file_downloaded _ _ _) as [r m0].
  assert (∀ actual use_temp,
    strip isspace
      (text_of
         (let '(tb, evb) :=
            if too_short (stage_a env)
            then (stage_b env (stage_a env), [StageA; StageB])
            else (stage_a env, [StageA]) in
          if too_short tb then
            match stage_c env with
            | Some text_c =>
                finish env m0 use_temp actual text_c (evb ++ [StageC])
            | None => mkExtracted EmptyString (evb ++ [StageC]) m0
            end
          else finish env m0 use_temp actual tb evb))
    = text_of
        (let '(tb, evb) :=
           if too_short (stage_a env)
           then (stage_b env (stage_a env), [StageA; StageB])
           else (stage_a env, [StageA]) in
         if too_short tb then
           match stage_c env with
           | Some text_c =>
               finish env m0 use_temp actual text_c (evb ++ [StageC])
           | None => mkExtracted EmptyString (evb ++ [StageC]) m0
           end
         else finish env m0 use_temp actual tb evb)) as Hbody.
  { intros actual use_temp.
    destruct (too_short (stage_a env)).
    - destruct (too_short (stage_b env (stage_a env))).
      + destruct (stage_c env); [|done].
        rewrite finish_text. apply TrimFacts.strip_idem.
      + rewrite finish_text. apply TrimFacts.strip_idem.
    - destruct (too_short (stage_a env)).
      + destruct (stage_c env); [|done].
        rewrite finish_text. apply TrimFacts.strip_idem.
      + rewrite finish_text. apply TrimFacts.strip_idem. }
  destruct r; [apply Hbody|done|apply Hbody].
Qed.

(** The extractor writes and deletes the scratch path only. *)
Lemma extract_others
    (env : ExtractEnv) (m : gmap Path Node) (pdf_path p : Path) :
  p ≠ temp_file_for (download env) pdf_path →
  fs_of (extract_text_from_pdf env m pdf_path) !! p = m !! p.
Proof.
  intros Hp.
  pose proof (ResolverScratchFacts.ensure_others (download env) m pdf_path p Hp)
    as Hres.
  unfold extract_text_from_pdf.
  destruct (ensure_file_downloaded _ _ _) as [r m0] eqn:Hdl. simpl in Hres.
  destruct r as [| |temp_file]; [|done|].
  - destruct (too_short (stage_a env)).
    + destruct (too_short (stage_b env (stage_a env)));
        [destruct (stage_c env); [|done]|];
        unfold finish; by simpl.
    + destruct (too_short (stage_a env));
        [destruct (stage_c env); [|done]|];
        unfold finish; by simpl.
  - destruct (AvailabilityFacts.scratch_answer_exists _ _ _ _ _ Hdl)
      as (-> & _).
    destruct (too_short (stage_a env)).
    + destruct (too_short (stage_b env (stage_a env)));
        [destruct (stage_c env); [|done]|];
        by rewrite finish_others.
    + destruct (too_short (stage_a env));
        [destruct (stage_c env); [|done]|];
        by rewrite finish_others.
Qed.

(** The resolver and the extractor write and delete the scratch path
    only: every other path, the PDF itself among them, holds after the
    resolver and after the whole extraction what it held before. *)
Theorem extraction_touches_scratch_only
    (env : ExtractEnv) (m : gmap Path Node) (pdf_path p : Path) :
  p ≠ temp_file_for (download env) pdf_path →
  (ensure_file_downloaded (download env) m pdf_path).2 !! p = m !! p
  ∧ fs_of (extract_text_from_pdf env m pdf_path) !! p = m !! p.
Proof.
  intros Hp. split.
  - by apply ResolverScratchFacts.ensure_others.
  - by apply extract_others.
Qed.

(** Whenever the end of the function is reached with a scratch copy in
    use (stage C not entered, or entered and gone through) and the
    deletion does not raise, the scratch file is gone when the function
    returns. *)
Theorem scratch_removed_at_normal_end
    (env : ExtractEnv) (m m0 : gmap Path Node) (pdf_path temp_file : Path) :
  ensure_file_downloaded (download env) m pdf_path = (DTemp temp_file, m0) →
  unlink_raises env = false →
  too_short (if too_short (stage_a env)
             then stage_b env (stage_a env) else stage_a env) = false
  ∨ is_Some (stage_c env) →
  exists_ (fs_of (extract_text_from_pdf env m pdf_path)) temp_file = false.
Proof.
  intros Hdl Hun Hend.
  destruct (AvailabilityFacts.scratch_answer_exists _ _ _ _ _ Hdl)
    as (_ & data & Hfile & _).
  assert (∀ text events,
            exists_ (fs_of (finish env m0 true temp_file text events))
                    temp_file = false) as Hfinish.
  { intros text events.
    destruct (ExtractionFacts.scratch_deleted_at_the_end env m0 temp_file
                text events data Hfile) as (_ & Hgone & _).
    by destruct (Hgone Hun). }
  unfold extract_text_from_pdf. rewrite Hdl.
  destruct (too_short (stage_a env)) eqn:Ha.
  - destruct (too_short (stage_b env (stage_a env))) eqn:Hb; [|done].
    destruct Hend as [?|[t Ht]]; [done|]. by rewrite Ht.
  - rewrite Ha. done.
Qed.

(** A text of fewer than 50 characters is returned only after OCR has
    been tried: when the file was available and stage C was not entered,
    the returned text has at least 50 characters. *)
Theorem short_text_only_after_ocr
    (env : ExtractEnv) (m : gmap Path Node) (pdf_path : Path) :
  events_of (extract_text_from_pdf env m pdf_path) ≠ [] →
  StageC ∉ events_of (extract_text_from_pdf env m pdf_path) →
  (MIN_TEXT ≤ String.length
                (text_of (extract_text_from_pdf env m pdf_path)))%nat.
Proof.
  unfold extract_text_from_pdf.
  destruct (ensure_file_downloaded _ _ _) as [r m0].
  assert (∀ actual use_temp,
    StageC ∉ events_of
      (let '(tb, evb) :=
         if too_short (stage_a env)
         then (stage_b env (stage_a env), [StageA; StageB])
         else (stage_a env, [StageA]) in
       if too_short tb then
         match stage_c env with
         | Some text_c =>
             finish env m0 use_temp actual text_c (evb ++ [StageC])
         | None => mkExtracted EmptyString (evb ++ [StageC]) m0
         end
       else finish env m0 use_temp actual tb evb) →
    (MIN_TEXT ≤ String.length
       (text_of
          (let '(tb, evb) :=
             if too_short (stage_a env)
             then (stage_b env (stage_a env), [StageA; StageB])
             else (stage_a env, [StageA]) in
           if too_short tb then
             match stage_c env with
             | Some text_c =>
                 finish env m0 use_temp actual text_c (evb ++ [StageC])
             | None => mkExtracted EmptyString (evb ++ [StageC]) m0
             end
           else finish env m0 use_temp actual tb evb)))%nat) as Hbody.
  { intros actual use_temp.
    assert (∀ text, too_short text = false →
              (MIN_TEXT ≤ String.length (strip isspace text))%nat) as Hlong.
    { intros text Hs. unfold too_short in Hs.
      apply Nat.ltb_ge in Hs. lia. }
    destruct (too_short (stage_a env)) eqn:Ha.
    - destruct (too_short (stage_b env (stage_a env))) eqn:Hb.
      + intros Hno. exfalso. apply Hno.
        destruct (stage_c env); simpl;
          [apply finish_keeps_events|]; by repeat constructor.
      + intros _. rewrite finish_text. by apply Hlong.
    - rewrite Ha. intros _. rewrite finish_text. by apply Hlong. }
  destruct r; simpl; intros Hev Hno; [by apply Hbody|done|by apply Hbody].
Qed.

End ExtractorFacts.

(** ** The run driver, beyond the two branches *)

Module RunFacts.
Import PyStr PurePath FS Filing Extraction Driver FSFacts.

Lemma rev_app_app s t acc :
  String.rev_app (s +:+ t) acc = String.rev_app t (String.rev_app s acc).
Proof.
  revert acc. induction s as [|c s IH]; intros acc; [done|].
  change (String.rev_app (s +:+ t) (String c acc)
          = String.rev_app t (String.rev_app s (String c acc))).
  apply IH.
Qed.

(** The name that the driver makes of the assistant's suggestion always
    ends in [.pdf]. *)
Theorem cleaned_name_ends_in_pdf (suggested : string) :
  endswith ".pdf" (clean_filename suggested) = true.
Proof.
  unfold clean_filename.
  set (s := strip (is_char squote) _).
  destruct (endswith ".pdf" s) eqn:Hends; [done|].
  unfold endswith, String.rev. rewrite rev_app_app.
  simpl. by destruct (String.rev_app s _).
Qed.

(** What the renaming step leaves in place, and where the file is
    afterwards. *)
Lemma rename_in_inbox_others env w pdf_file suggested p n :
  p ≠ pdf_file →
  fs w !! p = Some n →
  let '(current, w1, _) := rename_in_inbox env w pdf_file suggested in
  p ≠ current ∧ fs w1 !! p = Some n ∧ audit w1 = audit w.
Proof.
  intros Hp Hn. unfold rename_in_inbox.
  destruct (String.eqb _ _); [done|].
  destruct (exists_ (fs w) _ && negb _) eqn:Hguard; [done|].
  apply MoveFacts.guard_passed in Hguard.
  destruct (inbox_rename_raises env); [done|].
  destruct (rename (fs w) pdf_file _) as [m'|] eqn:Hren; [|done].
  split_and!; [|by apply (MoveFacts.rename_keeps_others _ _ _ _ _ _ Hguard Hren)|done].
  destruct Hguard as [->|Hfree]; [done|].
  intros ->. by rewrite Hfree in Hn.
Qed.

Lemma rename_in_inbox_actions env w pdf_file suggested a :
  a ∈ (rename_in_inbox env w pdf_file suggested).2 →
  ∃ src dst applied, a = Renamed src dst applied.
Proof.
  unfold rename_in_inbox.
  destruct (String.eqb _ _); [by intros ?%elem_of_nil|].
  destruct (exists_ (fs w) _ && negb _); [by intros ?%elem_of_nil|].
  destruct (if inbox_rename_raises env then None else _); simpl;
    intros ->%list_elem_of_singleton; eauto.
Qed.

(** Processing one file leaves every path but the file's own and the
    scratch path as it was, where something was. *)
Lemma process_others
    (texts : Texts) (env : FileEnv) (w : World) (pdf_file p : Path)
    (n : Node) :
  p ≠ pdf_file →
  p ≠ Availability.temp_file_for (download (extraction env)) pdf_file →
  fs w !! p = Some n →
  fs (process_pdf texts env w pdf_file).1 !! p = Some n.
Proof.
  intros Hp Htemp Hn. unfold process_pdf.
  pose proof (ExtractorFacts.extract_others (extraction env) (fs w)
                pdf_file p Htemp) as Hex.
  rewrite Hn in Hex.
  set (ex := extract_text_from_pdf (extraction env) (fs w) pdf_file) in *.
  destruct (negb (truthy (text_of ex))); [done|].
  destruct (follows_format (name pdf_file)).
  - unfold file_as_named.
    destruct (classify texts env (text_of ex)) as [category subcategory].
    destruct (truthy_opt category); [|done].
    pose proof (MoveFacts.move_others (moving env)
                  (mkWorld (fs_of ex) (audit w)) pdf_file
                  (Some (get_folder_path_for_category
                           (default EmptyString category) subcategory))
                  (Some (name pdf_file)) p n Hp Hex) as Hmove.
    by destruct (move_file_to_destination _ _ _ _ _).
  - unfold file_renamed.
    destruct (classify texts env (text_of ex)) as [category subcategory].
    destruct (negb (truthy_opt _)); [done|].
    pose proof (rename_in_inbox_others env (mkWorld (fs_of ex) (audit w))
                  pdf_file
                  (clean_filename
                     (default EmptyString
                        (Classifier.generate_filename texts
                           (shortcuts_run env) (text_of ex)
                           (created_date env))))
                  p n Hp Hex) as Hren.
    destruct (rename_in_inbox _ _ _ _) as [[current w1] renames].
    destruct Hren as (Hcur & Hn1 & _).
    destruct (truthy_opt category); [|done].
    pose proof (MoveFacts.move_others (moving env) w1 current
                  (Some (get_folder_path_for_category
                           (default EmptyString category) subcategory))
                  (Some (name pdf_file)) p n Hcur Hn1) as Hmove.
    by destruct (move_file_to_destination _ _ _ _ _).
Qed.

(** The driver moves a file only after a classification that names a
    category, only to the folder resolved for that classification, and
    always with the file's first name as the original name. *)
Theorem no_move_without_category
    (texts : Texts) (env : FileEnv) (w : World) (pdf_file : Path)
    (source_file dest_folder : Path) (original : string) (moved : bool) :
  MoveCalled source_file dest_folder original moved
  ∈ (process_pdf texts env w pdf_file).2 →
  let answer :=
    Classifier.classify_file_category texts (shortcuts_run env)
      (text_of (extract_text_from_pdf (extraction env) (fs w) pdf_file)) in
  truthy_opt answer.1 = true
  ∧ dest_folder
    = get_folder_path_for_category (default EmptyString answer.1) answer.2
  ∧ original = name pdf_file.
Proof.
  unfold process_pdf.
  set (ex := extract_text_from_pdf (extraction env) (fs w) pdf_file).
  destruct (negb (truthy (text_of ex))); [by intros ?%elem_of_nil|].
  destruct (follows_format (name pdf_file)).
  - unfold file_as_named, classify.
    destruct (Classifier.classify_file_category _ _ _)
      as [category subcategory].
    destruct (truthy_opt category) eqn:Hcat.
    + destruct (move_file_to_destination _ _ _ _ _). simpl.
      intros Hin. repeat (apply elem_of_cons in Hin as [Hin|Hin]; [try done|]).
      * by injection Hin as -> -> -> ->.
      * by apply elem_of_nil in Hin.
    + simpl. intros Hin.
      repeat (apply elem_of_cons in Hin as [Hin|Hin]; [try done|]).
      by apply elem_of_nil in Hin.
  - unfold file_renamed, classify.
    destruct (Classifier.classify_file_category _ _ _)
      as [category subcategory].
    destruct (negb (truthy_opt _)).
    + simpl. intros Hin.
      repeat (apply elem_of_cons in Hin as [Hin|Hin]; [try done|]).
      by apply elem_of_nil in Hin.
    + pose proof (rename_in_inbox_actions env
                    (mkWorld (fs_of ex) (audit w)) pdf_file
                    (clean_filename
                       (default EmptyString
                          (Classifier.generate_filename texts
                             (shortcuts_run env) (text_of ex)
                             (created_date env))))) as Hren.
      destruct (rename_in_inbox _ _ _ _) as [[current w1] renames].
      simpl in Hren.
      destruct (truthy_opt category) eqn:Hcat.
      * destruct (move_file_to_destination _ _ _ _ _). simpl.
        intros Hin.
        apply elem_of_cons in Hin as [Hin|Hin]; [done|].
        apply elem_of_cons in Hin as [Hin|Hin]; [done|].
        apply elem_of_app in Hin as [Hin|Hin].
        -- by destruct (Hren _ Hin) as (? & ? & ? & ?).
        -- apply list_elem_of_singleton in Hin.
           by injection Hin as -> -> -> ->.
      * simpl. intros Hin.
        apply elem_of_cons in Hin as [Hin|Hin]; [done|].
        apply elem_of_cons in Hin as [Hin|Hin]; [done|].
        by destruct (Hren _ Hin) as (? & ? & ? & ?).
Qed.

End RunFacts.

(** ** The search path set up at import time *)

Module EnvironmentFacts.
Import PyStr FS Environment.

(** The first loop leaves [PATH] alone or sets it to one Homebrew
    directory in front of the value read before the loop. *)
Lemma add_homebrew_cases m current_path PATH :
  add_homebrew m current_path PATH = PATH
  ∨ ∃ path, path ∈ homebrew_paths
      ∧ add_homebrew m current_path PATH
        = Some (path +:+ ":" +:+ current_path).
Proof.
  unfold add_homebrew, homebrew_paths. simpl.
  destruct (exists_ m (PurePath.of_string "/usr/local/bin") && _).
  - right. exists "/usr/local/bin". split; [|done]. by repeat constructor.
  - destruct (exists_ m (PurePath.of_string "/opt/homebrew/bin") && _).
    + right. exists "/opt/homebrew/bin". split; [|done]. by repeat constructor.
    + by left.
Qed.

(** The second loop leaves [PATH] alone or puts one poppler directory in
    front of it. *)
Lemma add_poppler_cases m PATH :
  add_poppler m poppler_paths PATH = PATH
  ∨ ∃ poppler_path, poppler_path ∈ poppler_paths
      ∧ add_poppler m poppler_paths PATH
        = Some (poppler_path +:+ ":" +:+ default EmptyString PATH).
Proof.
  unfold poppler_paths. simpl.
  destruct (exists_ m (PurePath.of_string "/opt/homebrew/opt/poppler/bin")).
  - right. eexists. split; [|done]. by repeat constructor.
  - destruct (exists_ m (PurePath.of_string "/usr/local/opt/poppler/bin")).
    + right. eexists. split; [|done]. by repeat constructor.
    + by left.
  Qed.

(** [setup_environment] only ever extends the search path at its front:
    the value [PATH] had is the end of the value it has afterwards, and a
    [PATH] that was set stays set. *)
Theorem search_path_is_only_extended (m : gmap Path Node)
    (PATH : option string) :
  (∃ front,
     default EmptyString (setup_environment m PATH)
     = front +:+ default EmptyString PATH)
  ∧ (is_Some PATH → is_Some (setup_environment m PATH)).
Proof.
  unfold setup_environment.
  destruct (add_homebrew_cases m (default EmptyString PATH) PATH)
    as [Hh|(h & _ & Hh)]; rewrite Hh.
  - destruct (add_poppler_cases m PATH) as [Hp|(p & _ & Hp)]; rewrite Hp.
    + split; [by exists EmptyString|done].
    + split; [|done]. exists (p +:+ ":"). simpl.
      by rewrite TrimFacts.app_assoc.
  - destruct (add_poppler_cases m
                (Some (h +:+ ":" +:+ default EmptyString PATH)))
      as [Hp|(p & _ & Hp)]; rewrite Hp.
    + split; [|done]. exists (h +:+ ":"). simpl.
      by rewrite TrimFacts.app_assoc.
    + split; [|done]. exists (p +:+ ":" +:+ h +:+ ":"). simpl.
      by rewrite !TrimFacts.app_assoc.
Qed.

(** When both Homebrew directories exist and neither is named in the
    search path, only the second one is added: the assignment made for
    [/opt/homebrew/bin] is overwritten by the one made for
    [/usr/local/bin] from the same old value, and [/opt/homebrew/bin] is
    not in the search path afterwards, whatever the second loop adds. *)
Theorem first_homebrew_directory_is_dropped (m : gmap Path Node)
    (PATH : option string) :
  let current_path := default EmptyString PATH in
  exists_ m (PurePath.of_string "/opt/homebrew/bin") = true →
  exists_ m (PurePath.of_string "/usr/local/bin") = true →
  contains "/opt/homebrew/bin" current_path = false →
  contains "/usr/local/bin" current_path = false →
  add_homebrew m current_path PATH
  = Some ("/usr/local/bin" +:+ ":" +:+ current_path)
  ∧ contains "/opt/homebrew/bin"
      (default EmptyString (setup_environment m PATH)) = false.
Proof.
  intros current_path Hopt Husr Hno_opt Hno_usr.
  assert (add_homebrew m current_path PATH
          = Some ("/usr/local/bin" +:+ ":" +:+ current_path)) as Hh.
  { unfold add_homebrew, homebrew_paths. simpl.
    by rewrite Husr, Hno_usr. }
  split; [done|].
  unfold setup_environment. fold current_path. rewrite Hh.
  unfold poppler_paths. simpl add_poppler.
  destruct (exists_ m (PurePath.of_string "/opt/homebrew/opt/poppler/bin"));
    [|destruct (exists_ m
                  (PurePath.of_string "/usr/local/opt/poppler/bin"))];
    simpl; exact Hno_opt.
Qed.

End EnvironmentFacts.

(** ** The viewer against the sorter *)

Module ViewerFacts.
Import PyStr Availability Extraction Readings.






Lemma note_cases raised text method :
  (Viewer.note raised text method = []
   ∧ (raised = false → strip isspace text = EmptyString))
  ∨ (Viewer.note raised text method = [method]
     ∧ truthy (strip isspace text) = true).
Proof.
  unfold Viewer.note.
  destruct raised; simpl; [by left|].
  destruct (strip isspace text); [by left|by right].
Qed.

(** The methods the viewer reports: they come in the order of the
    stages, each at most once; pdfplumber is among them only when the
    text of PyPDF2 was shorter than 50 trimmed characters; OCR is among
    them only when the text returned is not empty; and a text returned
    without OCR among the methods is empty or has at least 50
    characters. *)
Theorem viewer_methods
    (env : ExtractEnv) (text : string) (methods : list Viewer.Method) :
  Viewer.extract_text_from_pdf env = (text, methods) →
  sublist methods [Viewer.PyPDF2; Viewer.Pdfplumber; Viewer.OCR]
  ∧ (Viewer.Pdfplumber ∈ methods →
       too_short (Viewer.first_stage env).1 = true)
  ∧ (Viewer.OCR ∈ methods → truthy text = true)
  ∧ (Viewer.OCR ∉ methods →
       text = EmptyString ∨ (MIN_TEXT ≤ String.length text)%nat).
Proof.
  unfold Viewer.extract_text_from_pdf.
  assert (∀ raised t, Viewer.note raised t Viewer.PyPDF2 = []
            ∨ Viewer.note raised t Viewer.PyPDF2 = [Viewer.PyPDF2]) as Hn1.
  { intros raised t. destruct (note_cases raised t Viewer.PyPDF2)
      as [[? _]|[? _]]; eauto. }
  assert (∃ ta ma, Viewer.first_stage env = (ta, ma)
            ∧ (ma = [] ∨ ma = [Viewer.PyPDF2])) as (ta & ma & Hfirst & Hma).
  { unfold Viewer.first_stage. destruct (pypdf2_available env); [|by eauto].
    destruct (run_reader _ _ _ _) as [t raised]. eauto. }
  rewrite Hfirst. simpl.
  assert (∀ x, ∃ tb mb, Viewer.second_stage env x = (tb, mb)
            ∧ (mb = [] ∨ mb = [Viewer.Pdfplumber])) as Hsecond.
  { intros x. unfold Viewer.second_stage.
    destruct (pdfplumber_available env); [|by eauto].
    destruct (run_reader _ _ _ _) as [t raised].
    destruct (note_cases raised t Viewer.Pdfplumber) as [[? _]|[? _]];
      eauto. }
  assert (∀ tb, too_short tb = false →
            (MIN_TEXT ≤ String.length (strip isspace tb))%nat) as Hlong.
  { intros tb Hb. unfold too_short in Hb. by apply Nat.ltb_ge in Hb. }
  assert (∀ mb : list Viewer.Method,
            sublist mb [Viewer.PyPDF2; Viewer.Pdfplumber] →
            Viewer.OCR ∉ mb) as Hno_ocr.
  { intros mb Hsub Hin.
    pose proof (sublist_subseteq _ _ Hsub _ Hin) as Hin'.
    repeat (apply elem_of_cons in Hin' as [Hin'|Hin']; [done|]).
    by apply elem_of_nil in Hin'. }
  assert (∀ (tb : string) (mb : list Viewer.Method),
    sublist mb [Viewer.PyPDF2; Viewer.Pdfplumber] →
    (Viewer.Pdfplumber ∈ mb → too_short ta = true) →
    (if too_short tb then
       if ocr_available env then
         let '(t, raised) :=
           run_reader false true (ocr_run env) EmptyString in
         if raised then (EmptyString, [])
         else (strip isspace t, mb ++ Viewer.note false t Viewer.OCR)
       else (EmptyString, [])
     else (strip isspace tb, mb)) = (text, methods) →
    sublist methods [Viewer.PyPDF2; Viewer.Pdfplumber; Viewer.OCR]
    ∧ (Viewer.Pdfplumber ∈ methods → too_short ta = true)
    ∧ (Viewer.OCR ∈ methods → truthy text = true)
    ∧ (Viewer.OCR ∉ methods →
         text = EmptyString ∨ (MIN_TEXT ≤ String.length text)%nat)) as Hend.
  { intros tb mb Hsub Hplumber.
    assert (sublist mb [Viewer.PyPDF2; Viewer.Pdfplumber; Viewer.OCR])
      as Hsub3.
    { exact (sublist_inserts_r [Viewer.OCR] _ _ Hsub). }
    destruct (too_short tb) eqn:Hb.
    - assert ((EmptyString, @nil Viewer.Method) = (text, methods) →
              sublist methods [Viewer.PyPDF2; Viewer.Pdfplumber; Viewer.OCR]
              ∧ (Viewer.Pdfplumber ∈ methods → too_short ta = true)
              ∧ (Viewer.OCR ∈ methods → truthy text = true)
              ∧ (Viewer.OCR ∉ methods →
                   text = EmptyString
                   ∨ (MIN_TEXT ≤ String.length text)%nat)) as Hfail.
      { intros Heq. injection Heq as <- <-. split_and!.
        - apply sublist_nil_l.
        - by intros ?%elem_of_nil.
        - by intros ?%elem_of_nil.
        - by left. }
      destruct (ocr_available env); [|done].
      destruct (run_reader _ _ _ _) as [t raised].
      destruct raised; [done|].
      intros Heq. injection Heq as <- <-.
      destruct (note_cases false t Viewer.OCR) as [[-> Ht]|[-> Ht]].
      + rewrite app_nil_r. split_and!; [done|done| |].
        * intros Hin. by destruct (Hno_ocr _ Hsub).
        * intros _. left. by apply Ht.
      + split_and!.
        * change [Viewer.PyPDF2; Viewer.Pdfplumber; Viewer.OCR]
            with ([Viewer.PyPDF2; Viewer.Pdfplumber] ++ [Viewer.OCR]).
          by apply sublist_app.
        * intros [Hin|Hin%list_elem_of_singleton]%elem_of_app; [auto|done].
        * done.
        * intros Hnot. exfalso. apply Hnot, elem_of_app. right. by left.
    - intros Heq. injection Heq as <- <-. split_and!; [done|done| |].
      + intros Hin. by destruct (Hno_ocr _ Hsub).
      + intros _. right. by apply Hlong. }
  destruct (too_short ta) eqn:Ha.
  - destruct (Hsecond ta) as (tb & mb & -> & Hmb). simpl.
    apply Hend; [|done].
    destruct Hma as [->| ->], Hmb as [->| ->]; simpl;
      repeat first [apply sublist_nil_l | apply sublist_skip; fail
                   | constructor ].
  - apply Hend.
    + destruct Hma as [->| ->]; repeat constructor.
    + intros Hin. destruct Hma as [->| ->].
      * by apply elem_of_nil in Hin.
      * by apply list_elem_of_singleton in Hin.
Qed.

End ViewerFacts.

(** ** A whole run *)

Module LoopFacts.
Import PyStr PurePath FS Filing Extraction Driver Readings.

(** The log after a call of [move_file_to_destination]: one more row
    when the call succeeded, the same log when it did not. *)
Lemma move_audit env w source_file dest_folder original_filename :
  let '(moved, w') :=
    move_file_to_destination env w source_file dest_folder
      original_filename in
  ∃ new,
    Audit.existing_entries (audit w')
    = new ++ Audit.existing_entries (audit w)
    ∧ length new = (if moved then 1 else 0)%nat.
Proof.
  unfold move_file_to_destination.
  destruct dest_folder as [d|]; [|by exists []].
  destruct (if mkdir_raises env then None else mkdir_parents (fs w) d);
    [|by exists []].
  destruct (exists_ _ _ && negb _); [by exists []|].
  destruct (if rename_raises env then None else rename _ _ _);
    [|by exists []].
  destruct (log_raises env); [by exists []|].
  eexists [_]. split; [apply AuditFacts.existing_after_append|done].
Qed.

Lemma rename_in_inbox_no_move env w pdf_file suggested :
  moves_done (rename_in_inbox env w pdf_file suggested).2 = 0%nat
  ∧ audit (rename_in_inbox env w pdf_file suggested).1.2 = audit w.
Proof.
  unfold rename_in_inbox.
  destruct (String.eqb _ _); [done|].
  destruct (exists_ (fs w) _ && negb _); [done|].
  by destruct (if inbox_rename_raises env then None else _).
Qed.

Lemma process_audit texts env w pdf_file :
  ∃ new,
    Audit.existing_entries (audit (process_pdf texts env w pdf_file).1)
    = new ++ Audit.existing_entries (audit w)
    ∧ length new = moves_done (process_pdf texts env w pdf_file).2.
Proof.
  unfold process_pdf.
  set (ex := extract_text_from_pdf (extraction env) (fs w) pdf_file).
  destruct (negb (truthy (text_of ex))); [by exists []|].
  destruct (follows_format (name pdf_file)).
  - unfold file_as_named.
    destruct (classify texts env (text_of ex)) as [category subcategory].
    destruct (truthy_opt category); [|by exists []].
    pose proof (move_audit (moving env) (mkWorld (fs_of ex) (audit w))
                  pdf_file
                  (Some (get_folder_path_for_category
                           (default EmptyString category) subcategory))
                  (Some (name pdf_file))) as Hmove.
    destruct (move_file_to_destination _ _ _ _ _) as [moved w'].
    destruct Hmove as (new & Hnew & Hlen). exists new. split; [done|].
    rewrite Hlen. unfold moves_done. simpl. by destruct moved.
  - unfold file_renamed.
    destruct (classify texts env (text_of ex)) as [category subcategory].
    destruct (negb (truthy_opt _)); [by exists []|].
    pose proof (rename_in_inbox_no_move env (mkWorld (fs_of ex) (audit w))
                  pdf_file
                  (clean_filename
                     (default EmptyString
                        (Classifier.generate_filename texts
                           (shortcuts_run env) (text_of ex)
                           (created_date env))))) as Hren.
    destruct (rename_in_inbox _ _ _ _) as [[current w1] renames].
    simpl in Hren. destruct Hren as [Hnone Haudit].
    destruct (truthy_opt category).
    + pose proof (move_audit (moving env) w1 current
                    (Some (get_folder_path_for_category
                             (default EmptyString category) subcategory))
                    (Some (name pdf_file))) as Hmove.
      destruct (move_file_to_destination _ _ _ _ _) as [moved w2].
      destruct Hmove as (new & Hnew & Hlen). exists new. cbn [fst snd].
      rewrite Hnew, Haudit. split; [done|]. rewrite Hlen.
      unfold moves_done in *. simpl. rewrite List.filter_app, length_app.
      rewrite Hnone. simpl. by destruct moved.
    + exists []. cbn [fst snd]. rewrite Haudit. split; [done|].
      unfold moves_done in *. simpl. by rewrite Hnone.
Qed.

(** The audit log over a whole run: the rows that were there before the
    run are still there afterwards, in their order, below the new ones,
    and the run has added exactly one row for each move that
    succeeded. *)
Theorem one_audit_row_per_move
    (texts : Texts) (w : World) (pdf_files : list (Path * FileEnv)) :
  ∃ new,
    Audit.existing_entries (audit (main_loop texts w pdf_files).1)
    = new ++ Audit.existing_entries (audit w)
    ∧ length new = moves_done (concat (main_loop texts w pdf_files).2).
Proof.
  revert w. induction pdf_files as [|[pdf_file env] rest IH]; intros w.
  - by exists [].
  - simpl.
    destruct (process_audit texts env w pdf_file) as (new1 & Hnew1 & Hlen1).
    destruct (process_pdf texts env w pdf_file) as [w' actions].
    destruct (IH w') as (new2 & Hnew2 & Hlen2).
    destruct (main_loop texts w' rest) as [w'' more]. simpl in *.
    exists (new2 ++ new1). split.
    + by rewrite Hnew2, Hnew1, app_assoc.
    + unfold moves_done in *.
      rewrite List.filter_app, !length_app. lia.
Qed.

(** A whole run destroys nothing outside its work list: a path that is
    neither one of the files handed to the loop nor the scratch path of
    one of them, and that held a file or a directory before the run,
    holds the same after it, whatever readers, assistant and file system
    do on the way. *)
Theorem run_keeps_other_files
    (texts : Texts) (w : World) (pdf_files : list (Path * FileEnv))
    (p : Path) (n : Node) :
  (∀ pdf_file env, (pdf_file, env) ∈ pdf_files →
     p ≠ pdf_file
     ∧ p ≠ Availability.temp_file_for (download (extraction env))
             pdf_file) →
  fs w !! p = Some n →
  fs (main_loop texts w pdf_files).1 !! p = Some n.
Proof.
  revert w. induction pdf_files as [|[pdf_file env] rest IH];
    intros w Hout Hn; [done|].
  simpl.
  destruct (Hout pdf_file env) as [Hp Htemp]; [by left|].
  pose proof (RunFacts.process_others texts env w pdf_file p n Hp Htemp Hn)
    as Hstep.
  destruct (process_pdf texts env w pdf_file) as [w' actions].
  assert (fs (main_loop texts w' rest).1 !! p = Some n) as Hrest.
  { apply IH; [|done]. intros f e Hin. apply Hout. by right. }
  by destruct (main_loop texts w' rest) as [w'' more].
Qed.

End LoopFacts.

(** ** The pattern of file names *)

Module PatternFacts.
Import PyStr Regex Language Driver.

Lemma app_empty u v :
  u +:+ v = EmptyString → u = EmptyString ∧ v = EmptyString.
Proof. by destruct u. Qed.

Lemma matches_void_inv w : ¬ matches Void w.
Proof. intros H. inversion H. Qed.

Lemma matches_eps_inv w : matches Eps w → w = EmptyString.
Proof. intros H. by inversion H. Qed.

Lemma matches_chr_inv P w :
  matches (Chr P) w → ∃ c, w = String c EmptyString ∧ P c = true.
Proof. intros H. inversion H; subst. eauto. Qed.

Lemma matches_cat_inv r s w :
  matches (Cat r s) w → ∃ u v, w = u +:+ v ∧ matches r u ∧ matches s v.
Proof. intros H. inversion H; subst. eauto. Qed.

Lemma matches_alt_inv r s w :
  matches (Alt r s) w → matches r w ∨ matches s w.
Proof. intros H. inversion H; subst; eauto. Qed.

Lemma nullable_spec r : nullable r = true ↔ matches r EmptyString.
Proof.
  split.
  - induction r as [| |P|r IHr s IHs|r IHr s IHs|r IHr]; simpl; intros H;
      try discriminate.
    + constructor.
    + apply andb_true_iff in H as [Hr Hs].
      apply (MCat r s EmptyString EmptyString); auto.
    + apply orb_true_iff in H as [Hr|Hs];
        [apply MAltL|apply MAltR]; auto.
    + constructor.
  - intros H. remember EmptyString as w eqn:Hw.
    induction H as [|P c Hc|r s u v Hu IHu Hv IHv|r s u Hu IHu
                   |r s u Hu IHu| |r u v Hu IHu Hv IHv]; simpl; try done.
    + apply app_empty in Hw as [-> ->]. by rewrite IHu, IHv.
    + by rewrite IHu.
    + rewrite IHu by done. by rewrite orb_true_r.
Qed.

(** A non-empty word of a star begins with a non-empty word of its
    body. *)
Lemma star_cons r c w :
  matches (Star r) (String c w) →
  ∃ u v, w = u +:+ v ∧ matches r (String c u) ∧ matches (Star r) v.
Proof.
  intros H. remember (Star r) as rs eqn:Hrs.
  remember (String c w) as cw eqn:Hcw.
  induction H as [|P d Hd|r1 s u v Hu IHu Hv IHv|r1 s u Hu IHu
                 |r1 s u Hu IHu|r1|r1 u v Hu IHu Hv IHv]; try done.
  injection Hrs as ->. destruct u as [|d u].
  - by apply IHv.
  - change (String d (u +:+ v) = String c w) in Hcw.
    injection Hcw as -> <-. by exists u, v.
Qed.

Lemma deriv_spec r : ∀ c w,
  matches (deriv c r) w ↔ matches r (String c w).
Proof.
  induction r as [| |P|r IHr s IHs|r IHr s IHs|r IHr]; intros c w; simpl.
  - split; intros H; by apply matches_void_inv in H.
  - split; intros H; [by apply matches_void_inv in H|].
    by apply matches_eps_inv in H.
  - split.
    + destruct (P c) eqn:Hc; intros H;
        [|by apply matches_void_inv in H].
      apply matches_eps_inv in H as ->. by constructor.
    + intros H. apply matches_chr_inv in H as (d & Heq & Hd).
      injection Heq as -> ->. rewrite Hd. constructor.
  - assert (matches (Cat (deriv c r) s) w ∨
            (nullable r = true ∧ matches (deriv c s) w)
            ↔ matches (Cat r s) (String c w)) as Hcat.
    { split.
      - intros [H|[Hnull H]].
        + apply matches_cat_inv in H as (u & v & -> & Hu & Hv).
          apply (MCat r s (String c u) v); [by apply IHr|done].
        + apply (MCat r s EmptyString (String c w));
            [by apply nullable_spec|by apply IHs].
      - intros H. apply matches_cat_inv in H as (u & v & Heq & Hu & Hv).
        destruct u as [|d u].
        + change (String c w = v) in Heq. subst v. right.
          split; [by apply nullable_spec|by apply IHs].
        + change (String c w = String d (u +:+ v)) in Heq.
          injection Heq as <- ->. left.
          constructor; [by apply IHr|done]. }
    rewrite <- Hcat. destruct (nullable r).
    + split.
      * intros [H|H]%matches_alt_inv; [by left|by right].
      * intros [H|[_ H]]; [by apply MAltL|by apply MAltR].
    + split; [by left|]. by intros [H|[? _]].
  - split.
    + intros [H|H]%matches_alt_inv;
        [apply MAltL; by apply IHr|apply MAltR; by apply IHs].
    + intros [H|H]%matches_alt_inv;
        [apply MAltL; by apply IHr|apply MAltR; by apply IHs].
  - split.
    + intros H. apply matches_cat_inv in H as (u & v & -> & Hu & Hv).
      apply (MStarS r (String c u) v); [by apply IHr|done].
    + intros H. apply star_cons in H as (u & v & -> & Hu & Hv).
      constructor; [by apply IHr|done].
Qed.

(** The matcher decides the language. *)
Lemma fullmatch_spec w : ∀ r, fullmatch r w = true ↔ matches r w.
Proof.
  induction w as [|c w IH]; intros r; simpl.
  - apply nullable_spec.
  - rewrite IH. apply deriv_spec.
Qed.

Lemma matches_chr_cat P r w :
  matches (Cat (Chr P) r) w
  ↔ ∃ c w', w = String c w' ∧ P c = true ∧ matches r w'.
Proof.
  split.
  - intros H. apply matches_cat_inv in H as (u & v & -> & Hu & Hv).
    apply matches_chr_inv in Hu as (c & -> & Hc). by exists c, v.
  - intros (c & w' & -> & Hc & Hr).
    apply (MCat (Chr P) r (String c EmptyString) w'); [by constructor|done].
Qed.

Lemma matches_lit_cat c r w :
  matches (Cat (lit c) r) w ↔ ∃ w', w = String c w' ∧ matches r w'.
Proof.
  unfold lit. rewrite matches_chr_cat. split.
  - intros (d & w' & -> & Hd%Ascii.eqb_eq & Hr). subst d. by exists w'.
  - intros (w' & -> & Hr). exists c, w'. by rewrite Ascii.eqb_refl.
Qed.

Lemma matches_star_chr P w :
  matches (Star (Chr P)) w ↔ all_chars P w = true.
Proof.
  split.
  - intros H. remember (Star (Chr P)) as rs eqn:Hrs.
    induction H as [|Q d Hd|r1 s u v Hu IHu Hv IHv|r1 s u Hu IHu
                   |r1 s u Hu IHu|r1|r1 u v Hu IHu Hv IHv]; try done.
    injection Hrs as ->. apply matches_chr_inv in Hu as (c & -> & Hc).
    simpl. rewrite Hc. by apply IHv.
  - induction w as [|c w IH]; simpl; [constructor|].
    intros [Hc Hw]%andb_true_iff.
    apply (MStarS (Chr P) (String c EmptyString) w);
      [by constructor|by apply IH].
Qed.

Lemma matches_plus_cat P r w :
  matches (Cat (plus (Chr P)) r) w
  ↔ ∃ u v, w = u +:+ v ∧ u ≠ EmptyString ∧ all_chars P u = true
           ∧ matches r v.
Proof.
  unfold plus. split.
  - intros H. apply matches_cat_inv in H as (u & v & -> & Hu & Hv).
    apply matches_cat_inv in Hu as (u1 & u2 & -> & Hu1 & Hu2).
    apply matches_chr_inv in Hu1 as (c & -> & Hc).
    apply matches_star_chr in Hu2.
    exists (String c u2), v. split_and!; [done|done| |done].
    simpl. by rewrite Hc.
  - intros (u & v & -> & Hne & Hall & Hr).
    constructor; [|done]. destruct u as [|c u]; [done|].
    simpl in Hall. apply andb_true_iff in Hall as [Hc Hu].
    apply (MCat (Chr P) (Star (Chr P)) (String c EmptyString) u);
      [by constructor|by apply matches_star_chr].
Qed.

Lemma matches_end w :
  matches (Cat dollar Eps) w ↔ w = EmptyString ∨ w = Extraction.nl.
Proof.
  split.
  - intros H. apply matches_cat_inv in H as (u & v & -> & Hu & Hv).
    apply matches_eps_inv in Hv as ->.
    apply matches_alt_inv in Hu as [Hu|Hu].
    + apply matches_eps_inv in Hu as ->. by left.
    + apply matches_chr_inv in Hu as (c & -> & Hc).
      apply Ascii.eqb_eq in Hc. subst c. by right.
  - intros [->| ->].
    + apply (MCat dollar Eps EmptyString EmptyString);
        [apply MAltL|]; constructor.
    + apply (MCat dollar Eps Extraction.nl EmptyString);
        [apply MAltR|constructor].
      constructor. apply Ascii.eqb_refl.
Qed.

(** The names the driver takes as already formatted are exactly the
    names of the form [YYYY-MM-DD - description.pdf]: four, two and two
    digits with dashes between, a dash with one blank or more on each
    side, a description of one character or more without a newline, the
    extension [.pdf], and after it nothing or one newline.  Nothing asks
    that the digits make a date of the calendar. *)
Theorem formatted_names_are_the_dated_ones (name : string) :
  follows_format name = true ↔ dated name.
Proof.
  unfold follows_format. rewrite fullmatch_spec.
  unfold filename_pattern, seq_of, digit, space, dot, dated. split.
  - intros H.
    apply matches_chr_cat in H as (y1 & w1 & -> & Hy1 & H).
    apply matches_chr_cat in H as (y2 & w2 & -> & Hy2 & H).
    apply matches_chr_cat in H as (y3 & w3 & -> & Hy3 & H).
    apply matches_chr_cat in H as (y4 & w4 & -> & Hy4 & H).
    apply matches_lit_cat in H as (w5 & -> & H).
    apply matches_chr_cat in H as (m1 & w6 & -> & Hm1 & H).
    apply matches_chr_cat in H as (m2 & w7 & -> & Hm2 & H).
    apply matches_lit_cat in H as (w8 & -> & H).
    apply matches_chr_cat in H as (d1 & w9 & -> & Hd1 & H).
    apply matches_chr_cat in H as (d2 & w10 & -> & Hd2 & H).
    apply matches_plus_cat in H as (gap1 & w11 & -> & Hg1 & Hgap1 & H).
    apply matches_lit_cat in H as (w12 & -> & H).
    apply matches_plus_cat in H as (gap2 & w13 & -> & Hg2 & Hgap2 & H).
    apply matches_plus_cat in H as (body & w14 & -> & Hb & Hbody & H).
    apply matches_lit_cat in H as (w15 & -> & H).
    apply matches_lit_cat in H as (w16 & -> & H).
    apply matches_lit_cat in H as (w17 & -> & H).
    apply matches_lit_cat in H as (tail & -> & H).
    apply matches_end in H.
    exists (String y1 (String y2 (String y3 (String y4 EmptyString)))),
           (String m1 (String m2 EmptyString)),
           (String d1 (String d2 EmptyString)),
           gap1, gap2, body, tail.
    split_and!; try done.
    + split; [done|]. simpl. unfold is_digit.
      by rewrite Hy1, Hy2, Hy3, Hy4.
    + split; [done|]. simpl. unfold is_digit. by rewrite Hm1, Hm2.
    + split; [done|]. simpl. unfold is_digit. by rewrite Hd1, Hd2.
  - intros (year & month & day & gap1 & gap2 & body & tail & -> &
            [Hly Hy] & [Hlm Hm] & [Hld Hd] & [Hg1 Hgap1] & [Hg2 Hgap2] &
            Hb & Hbody & Htail).
    destruct year as [|y1 [|y2 [|y3 [|y4 [|]]]]]; try discriminate.
    destruct month as [|m1 [|m2 [|]]]; try discriminate.
    destruct day as [|d1 [|d2 [|]]]; try discriminate.
    simpl in Hy, Hm, Hd. unfold is_digit in Hy, Hm, Hd.
    repeat match goal with
           | H : _ && _ = true |- _ => apply andb_true_iff in H as [? H]
           end.
    apply matches_chr_cat. eexists _, _. split_and!; [reflexivity|by apply andb_true_iff|].
    apply matches_chr_cat. eexists _, _. split_and!; [reflexivity|by apply andb_true_iff|].
    apply matches_chr_cat. eexists _, _. split_and!; [reflexivity|by apply andb_true_iff|].
    apply matches_chr_cat. eexists _, _. split_and!; [reflexivity|by apply andb_true_iff|].
    apply matches_lit_cat. eexists. split; [reflexivity|].
    apply matches_chr_cat. eexists _, _. split_and!; [reflexivity|by apply andb_true_iff|].
    apply matches_chr_cat. eexists _, _. split_and!; [reflexivity|by apply andb_true_iff|].
    apply matches_lit_cat. eexists. split; [reflexivity|].
    apply matches_chr_cat. eexists _, _. split_and!; [reflexivity|by apply andb_true_iff|].
    apply matches_chr_cat. eexists _, _. split_and!; [reflexivity|by apply andb_true_iff|].
    apply matches_plus_cat. exists gap1. eexists.
    split_and!; [reflexivity|done|done|].
    apply matches_lit_cat. eexists. split; [reflexivity|].
    apply matches_plus_cat. exists gap2. eexists.
    split_and!; [reflexivity|done|done|].
    apply matches_plus_cat. exists body. eexists.
    split_and!; [reflexivity|done|done|].
    apply matches_lit_cat. eexists. split; [reflexivity|].
    apply matches_lit_cat. eexists. split; [reflexivity|].
    apply matches_lit_cat. eexists. split; [reflexivity|].
    apply matches_lit_cat. eexists. split; [reflexivity|].
    by apply matches_end.
Qed.

End PatternFacts.

(** ** The further properties at sample inputs *)

Module FurtherWitnesses.
Import PyStr PurePath FS Availability Extraction Filing Driver Readings.
Import Samples MoreSamples.

(** An answer with blanks around it. *)
Lemma answer_is_trimmed_witness :
  Classifier.call_chatgpt_shortcut texts
    (assistant (said "  Misc  ") TimeoutExpired)
    (Classifier.classify_prompt texts page) = Some "Misc"
  ∧ strip isspace "Misc" = "Misc".
Proof.
  assert (Classifier.call_chatgpt_shortcut texts
            (assistant (said "  Misc  ") TimeoutExpired)
            (Classifier.classify_prompt texts page) = Some "Misc") as Hcall
    by (vm_compute; reflexivity).
  split; [exact Hcall|].
  exact (proj1 (TrimFacts.answer_is_trimmed _ _ _ _ Hcall)).
Defined.

(** The answer [A/B/C] comes back whole. *)
Lemma classification_is_lossless_witness :
  Classifier.call_chatgpt_shortcut texts
    (assistant (said "A/B/C") TimeoutExpired)
    (Classifier.classify_prompt texts page) = Some "A/B/C"
  ∧ truthy "A/B/C" = true
  ∧ rejoined (Classifier.classify_file_category texts
                (assistant (said "A/B/C") TimeoutExpired) page)
    = Some (Classifier.cleaned "A/B/C").
Proof.
  assert (Classifier.call_chatgpt_shortcut texts
            (assistant (said "A/B/C") TimeoutExpired)
            (Classifier.classify_prompt texts page) = Some "A/B/C") as Hcall
    by (vm_compute; reflexivity).
  split_and!; [exact Hcall|reflexivity|].
  exact (ParserFacts.classification_is_lossless _ _ _ _ Hcall eq_refl).
Defined.

(** The answer [Financial/Bills]. *)
Lemma slashed_category_is_known_witness :
  Classifier.classify_file_category texts
    (assistant (said "Financial/Bills") TimeoutExpired) page
  = (Some "Financial/Bills", None)
  ∧ has_char slash "Financial/Bills" = true
  ∧ in_CATEGORY_STRUCTURE "Financial/Bills" = true.
Proof.
  assert (Classifier.classify_file_category texts
            (assistant (said "Financial/Bills") TimeoutExpired) page
          = (Some "Financial/Bills", None)) as Hanswer
    by (vm_compute; reflexivity).
  split_and!; [exact Hanswer|reflexivity|].
  exact (ParserFacts.slashed_category_is_known _ _ _ _ _ Hanswer eq_refl).
Defined.

(** An assistant that times out. *)
Lemma failed_assistant_gives_no_category_witness :
  Classifier.fails texts
    (assistant TimeoutExpired TimeoutExpired
       (Classifier.classify_prompt texts page))
  ∧ Classifier.classify_file_category texts
      (assistant TimeoutExpired TimeoutExpired) page = (None, None).
Proof.
  assert (Classifier.fails texts
            (assistant TimeoutExpired TimeoutExpired
               (Classifier.classify_prompt texts page))) as Hfails
    by (vm_compute; exact I).
  split; [exact Hfails|].
  exact (ParserFacts.failed_assistant_gives_no_category _ _ _ Hfails).
Defined.

(** [Medical] with the person [Oliver]. *)
Lemma resolved_folder_below_base_witness :
  (∀ s, Some "Oliver" = Some s → root_of s = EmptyString)
  ∧ below DOCUMENTS_BASE_PATH
      (get_folder_path_for_category "Medical" (Some "Oliver")).
Proof.
  assert (∀ s, Some "Oliver" = Some s → root_of s = EmptyString) as Hroot.
  { intros s Heq. injection Heq as <-. reflexivity. }
  split; [exact Hroot|].
  exact (ResolverFacts.resolved_folder_below_base "Medical" (Some "Oliver")
           Hroot).
Defined.

(** [Medical] with the person [/etc]. *)
Lemma rooted_subcategory_replaces_folder_witness :
  truthy (root_of "/etc") = true
  ∧ get_folder_path_for_category "Medical" (Some "/etc") = of_string "/etc".
Proof.
  split; [reflexivity|].
  exact (ResolverFacts.rooted_subcategory_replaces_folder "Medical" "/etc"
           (or_introl eq_refl) eq_refl).
Defined.

(** A category under [Kids/]. *)
Lemma kids_and_personal_ignore_subcategory_witness :
  startswith "Kids/" "Kids/Nobody" = true
  ∧ get_folder_path_for_category "Kids/Nobody" (Some "2025")
    = get_folder_path_for_category "Kids/Nobody" None.
Proof.
  split; [reflexivity|].
  exact (ResolverFacts.kids_and_personal_ignore_subcategory "Kids/Nobody"
           (Some "2025") (or_introl eq_refl)).
Defined.

(** The destination folder cannot be made. *)
Lemma failed_move_writes_no_record_witness :
  move_file_to_destination read_only (world_of [(scan001, "first")])
    scan001 (Some MISC_FOLDER) None
  = (false, world_of [(scan001, "first")])
  ∧ audit (world_of [(scan001, "first")]) = None.
Proof.
  assert (move_file_to_destination read_only
            (world_of [(scan001, "first")]) scan001 (Some MISC_FOLDER) None
          = (false, world_of [(scan001, "first")])) as Hmove
    by reflexivity.
  split; [exact Hmove|].
  exact (MoveFacts.failed_move_writes_no_record _ _ _ _ _ _ Hmove).
Defined.


(** [scan001.pdf] moved while the log cannot be written. *)
Lemma log_failure_moves_without_record_witness :
  single_component (name scan001)
  ∧ ∃ w',
      move_file_to_destination log_fails (world_of [(scan001, "first")])
        scan001 (Some MISC_FOLDER) None = (false, w')
      ∧ fs w' !! (MISC_FOLDER </> name scan001) = Some (File "first")
      ∧ fs w' !! scan001 = None
      ∧ audit w' = None.
Proof.
  assert (single_component (name scan001)) as Hsingle
    by (split; vm_compute; reflexivity).
  split; [exact Hsingle|].
  apply (MoveFacts.log_failure_moves_without_record log_fails
           (world_of [(scan001, "first")]) scan001 MISC_FOLDER "first" None).
  - exact Hsingle.
  - vm_compute. reflexivity.
  - vm_compute. reflexivity.
  - apply (bool_decide_unpack _). vm_compute. exact I.
  - reflexivity.
  - reflexivity.
  - reflexivity.
Defined.

(** The original is readable: the scratch copy is gone afterwards. *)
Lemma no_scratch_left_unless_handed_over_witness :
  (ensure_file_downloaded materialized
     (fs (world_of [(scan001, "%PDF-1.7")])) scan001).1 = DTrue
  ∧ ∀ data,
      (ensure_file_downloaded materialized
         (fs (world_of [(scan001, "%PDF-1.7")])) scan001).2
        !! temp_file_for materialized scan001 ≠ Some (File data).
Proof.
  assert ((ensure_file_downloaded materialized
             (fs (world_of [(scan001, "%PDF-1.7")])) scan001).1 = DTrue)
    as Hanswer by (vm_compute; reflexivity).
  destruct (ensure_file_downloaded materialized
              (fs (world_of [(scan001, "%PDF-1.7")])) scan001)
    as [answer m'] eqn:Hdl.
  simpl in Hanswer. subst answer. split; [reflexivity|].
  apply (ResolverScratchFacts.no_scratch_left_unless_handed_over
           materialized _ m' scan001 DTrue Hdl).
  - discriminate.
  - reflexivity.
Defined.

(** Two environments that differ from the sixth attempt on. *)
Lemma resolver_retries_are_bounded_witness :
  (∀ i, (i < 5)%nat → copies materialized_at_first i = copies materialized i)
  ∧ (∀ i, (i < 5)%nat → reads materialized_at_first i = reads materialized i)
  ∧ ensure_file_downloaded materialized_at_first
      (fs (world_of [(scan001, "%PDF-1.7")])) scan001
    = ensure_file_downloaded materialized
        (fs (world_of [(scan001, "%PDF-1.7")])) scan001.
Proof.
  assert (∀ i, (i < 5)%nat →
            copies materialized_at_first i = copies materialized i)
    as Hcopies.
  { intros i Hi. simpl. destruct (Nat.ltb_spec i 5); [reflexivity|lia]. }
  assert (∀ i, (i < 5)%nat →
            reads materialized_at_first i = reads materialized i) as Hreads.
  { intros i Hi. simpl. destruct (Nat.ltb_spec i 5); [reflexivity|lia]. }
  split_and!; [exact Hcopies|exact Hreads|].
  exact (ResolverScratchFacts.resolver_retries_are_bounded materialized
           materialized_at_first _ scan001 eq_refl eq_refl eq_refl
           Hcopies Hreads).
Defined.

(** A copy that comes out empty. *)
Lemma empty_copy_gives_up_witness :
  size (<[temp_file_for empty_copies scan001 := File EmptyString]>
          (fs (world_of [(scan001, "%PDF-1.7")])))
       (temp_file_for empty_copies scan001) = 0%nat
  ∧ ensure_file_downloaded empty_copies
      (fs (world_of [(scan001, "%PDF-1.7")])) scan001
    = (DFalse,
       delete (temp_file_for empty_copies scan001)
         (<[temp_file_for empty_copies scan001 := File EmptyString]>
            (fs (world_of [(scan001, "%PDF-1.7")])))).
Proof.
  assert (size (<[temp_file_for empty_copies scan001 := File EmptyString]>
                  (fs (world_of [(scan001, "%PDF-1.7")])))
               (temp_file_for empty_copies scan001) = 0%nat) as Hsize.
  { unfold size. by rewrite lookup_insert_eq. }
  split; [exact Hsize|].
  exact (ResolverScratchFacts.empty_copy_gives_up empty_copies _ _ scan001
           eq_refl Hsize).
Defined.

(** The PDF itself while its text is extracted. *)
Lemma extraction_touches_scratch_only_witness :
  scan001 ≠ temp_file_for (download (text_pdf scratch_only)) scan001
  ∧ fs_of (extract_text_from_pdf (text_pdf scratch_only)
             (fs (world_of [(scan001, "%PDF-1.7")])) scan001) !! scan001
    = fs (world_of [(scan001, "%PDF-1.7")]) !! scan001.
Proof.
  assert (scan001 ≠ temp_file_for (download (text_pdf scratch_only)) scan001)
    as Hne by (vm_compute; discriminate).
  split; [exact Hne|].
  exact (proj2 (ExtractorFacts.extraction_touches_scratch_only
                  (text_pdf scratch_only) _ scan001 scan001 Hne)).
Defined.

(** A PDF with a text layer, read from its scratch copy. *)
Lemma scratch_removed_at_normal_end_witness :
  ensure_file_downloaded (download (text_pdf scratch_only))
    (fs (world_of [(scan001, "%PDF-1.7")])) scan001
  = (DTemp (temp_file_for scratch_only scan001),
     <[temp_file_for scratch_only scan001 := File "%PDF-1.7"]>
       (fs (world_of [(scan001, "%PDF-1.7")])))
  ∧ too_short
      (if too_short (stage_a (text_pdf scratch_only))
       then stage_b (text_pdf scratch_only)
              (stage_a (text_pdf scratch_only))
       else stage_a (text_pdf scratch_only)) = false
  ∧ exists_
      (fs_of (extract_text_from_pdf (text_pdf scratch_only)
                (fs (world_of [(scan001, "%PDF-1.7")])) scan001))
      (temp_file_for scratch_only scan001) = false.
Proof.
  assert (ensure_file_downloaded (download (text_pdf scratch_only))
            (fs (world_of [(scan001, "%PDF-1.7")])) scan001
          = (DTemp (temp_file_for scratch_only scan001),
             <[temp_file_for scratch_only scan001 := File "%PDF-1.7"]>
               (fs (world_of [(scan001, "%PDF-1.7")])))) as Hdl.
  { apply (AvailabilityFacts.ensure_with_scratch scratch_only);
      [reflexivity|].
    unfold size. rewrite lookup_insert_eq. simpl. lia. }
  assert (too_short
            (if too_short (stage_a (text_pdf scratch_only))
             then stage_b (text_pdf scratch_only)
                    (stage_a (text_pdf scratch_only))
             else stage_a (text_pdf scratch_only)) = false) as Hlong
    by (vm_compute; reflexivity).
  split_and!; [exact Hdl|exact Hlong|].
  exact (ExtractorFacts.scratch_removed_at_normal_end
           (text_pdf scratch_only) _ _ scan001 _ Hdl eq_refl
           (or_introl Hlong)).
Defined.

(** A PDF with a text layer: stage A only. *)
Lemma short_text_only_after_ocr_witness :
  events_of (extract_text_from_pdf (text_pdf materialized)
               (fs (world_of [(scan001, "%PDF-1.7")])) scan001) = [StageA]
  ∧ (MIN_TEXT
     ≤ String.length
         (text_of (extract_text_from_pdf (text_pdf materialized)
                     (fs (world_of [(scan001, "%PDF-1.7")])) scan001)))%nat.
Proof.
  assert (events_of (extract_text_from_pdf (text_pdf materialized)
                       (fs (world_of [(scan001, "%PDF-1.7")])) scan001)
          = [StageA]) as Hevents by (vm_compute; reflexivity).
  split; [exact Hevents|].
  apply ExtractorFacts.short_text_only_after_ocr.
  - rewrite Hevents. discriminate.
  - rewrite Hevents. intros Hin.
    apply elem_of_cons in Hin as [Hin|Hin]; [discriminate|].
    by apply elem_of_nil in Hin.
Defined.

(** [2025-01-01 - x.pdf], classified as [Medical/Oliver], is moved. *)
Lemma no_move_without_category_witness :
  MoveCalled named_pdf
    (get_folder_path_for_category "Medical" (Some "Oliver"))
    (name named_pdf) true
  ∈ (process_pdf texts
       (file_env (text_pdf materialized) (said "Medical/Oliver")
                 TimeoutExpired)
       (world_of [(named_pdf, "%PDF-1.7")]) named_pdf).2
  ∧ truthy_opt
      (Classifier.classify_file_category texts
         (assistant (said "Medical/Oliver") TimeoutExpired)
         (text_of (extract_text_from_pdf (text_pdf materialized)
                     (fs (world_of [(named_pdf, "%PDF-1.7")]))
                     named_pdf))).1 = true.
Proof.
  assert ((process_pdf texts
             (file_env (text_pdf materialized) (said "Medical/Oliver")
                       TimeoutExpired)
             (world_of [(named_pdf, "%PDF-1.7")]) named_pdf).2
          = [Classified (Some "Medical") (Some "Oliver");
             MoveCalled named_pdf
               (get_folder_path_for_category "Medical" (Some "Oliver"))
               (name named_pdf) true]) as Hrun
    by (vm_compute; reflexivity).
  assert (MoveCalled named_pdf
            (get_folder_path_for_category "Medical" (Some "Oliver"))
            (name named_pdf) true
          ∈ (process_pdf texts
               (file_env (text_pdf materialized) (said "Medical/Oliver")
                         TimeoutExpired)
               (world_of [(named_pdf, "%PDF-1.7")]) named_pdf).2) as Hin.
  { rewrite Hrun. right. left. }
  split; [exact Hin|].
  exact (proj1 (RunFacts.no_move_without_category _ _ _ _ _ _ _ _ Hin)).
Defined.

(** Both Homebrew directories, neither on the search path. *)
Lemma first_homebrew_directory_is_dropped_witness :
  exists_ both_homebrews (of_string "/opt/homebrew/bin") = true
  ∧ exists_ both_homebrews (of_string "/usr/local/bin") = true
  ∧ Environment.contains "/opt/homebrew/bin" "/usr/bin:/bin" = false
  ∧ Environment.contains "/usr/local/bin" "/usr/bin:/bin" = false
  ∧ Environment.contains "/opt/homebrew/bin"
      (default EmptyString
         (Environment.setup_environment both_homebrews
            (Some "/usr/bin:/bin"))) = false.
Proof.
  assert (exists_ both_homebrews (of_string "/opt/homebrew/bin") = true)
    as Hopt by (vm_compute; reflexivity).
  assert (exists_ both_homebrews (of_string "/usr/local/bin") = true)
    as Husr by (vm_compute; reflexivity).
  split_and!; [exact Hopt|exact Husr|reflexivity|reflexivity|].
  exact (proj2 (EnvironmentFacts.first_homebrew_directory_is_dropped
                  both_homebrews (Some "/usr/bin:/bin") Hopt Husr
                  eq_refl eq_refl)).
Defined.


(** A PDF with a text layer: PyPDF2 alone. *)
Lemma viewer_methods_witness :
  Viewer.extract_text_from_pdf (text_pdf materialized)
  = (page, [Viewer.PyPDF2])
  ∧ sublist [Viewer.PyPDF2] [Viewer.PyPDF2; Viewer.Pdfplumber; Viewer.OCR].
Proof.
  assert (Viewer.extract_text_from_pdf (text_pdf materialized)
          = (page, [Viewer.PyPDF2])) as Hview by (vm_compute; reflexivity).
  split; [exact Hview|].
  exact (proj1 (ViewerFacts.viewer_methods _ _ _ Hview)).
Defined.

(** A second inbox during a run over [scan001.pdf]. *)
Lemma run_keeps_other_files_witness :
  fs (world_of [(scan001, "first"); (scan001_bis, "second")])
    !! scan001_bis = Some (File "second")
  ∧ fs (main_loop texts
          (world_of [(scan001, "first"); (scan001_bis, "second")])
          [(scan001,
            file_env (text_pdf materialized) (said "Misc")
                     (said "2025-01-01 - Bill"))]).1
      !! scan001_bis = Some (File "second").
Proof.
  assert (fs (world_of [(scan001, "first"); (scan001_bis, "second")])
            !! scan001_bis = Some (File "second")) as Hthere
    by (vm_compute; reflexivity).
  split; [exact Hthere|].
  apply LoopFacts.run_keeps_other_files; [|exact Hthere].
  intros pdf_file env Hin. apply list_elem_of_singleton in Hin.
  injection Hin as -> ->. split; vm_compute; discriminate.
Defined.

End FurtherWitnesses.
